(** * DeviceManager: render-pass list, resize protocol, input routing,
      frame clock and tick loop of [src/app/DeviceManager.cpp]

    The development embeds the Android [donut::app::DeviceManager] of
    [DeviceManager.cpp] and its header.  Member functions become computations
    in a small state-and-log monad over the manager's fields; everything the
    manager calls but does not implement (render passes, the graphics
    backend, the native window, the looper, the clock) is reached through a
    record of oracles acting on an abstract external world, and every such
    call is appended to a log so that ordering can be stated.

    Conventions of the model:
    - the device-specific virtual methods read the device parameters and act
      on the external world; they do not assign manager fields;
    - a render pass or a pipeline callback that is called does not call back
      into the manager while the call is running; a looper source, whose
      processing is how the platform reaches the manager, may act on all of
      the manager state;
    - [uint32_t] and [int] values are integers with the wrap-around written
      at each conversion and increment; [double] values are binary64 floats;
    - [RunMessageLoop] takes a bound on the number of loop iterations, and
      says in its result whether the function returned within the bound. *)

From Stdlib Require Import ZArith Lia Bool String.
From Stdlib Require PrimFloat Uint63 SpecFloat FloatOps.
From stdpp Require Import base tactics option list.

Local Open Scope Z_scope.

(** ** Machine numbers *)

Abbreviation float := PrimFloat.float.

(** [uint32_t] and [int] (32 bits) as integers, conversions written out. *)
Definition to_uint32 (z : Z) : Z := z mod 2 ^ 32.
Definition to_int32 (z : Z) : Z := (z + 2 ^ 31) mod 2 ^ 32 - 2 ^ 31.

(** [double(n)] for a 64-bit signed [n]. *)
Definition double_of_int (z : Z) : float :=
  if 0 <=? z then PrimFloat.of_uint63 (Uint63.of_Z z)
  else PrimFloat.opp (PrimFloat.of_uint63 (Uint63.of_Z (- z))).

(** [float(x)] for a double [x]: rounding to binary32, the result kept as
    the double that represents it exactly. *)
Definition float_of_double (x : float) : float :=
  match FloatOps.Prim2SF x with
  | SpecFloat.S754_finite s m e => FloatOps.SF2Prim (SpecFloat.binary_round 24 128 s m e)
  | _ => x
  end.

Definition float_zero : float := PrimFloat.of_uint63 (Uint63.of_Z 0).
Definition float_one : float := PrimFloat.of_uint63 (Uint63.of_Z 1).
Definition float_half : float :=
  PrimFloat.div float_one (PrimFloat.of_uint63 (Uint63.of_Z 2)).
Definition float_1e9 : float := PrimFloat.of_uint63 (Uint63.of_Z 1000000000).

(** C++ [a != b] and [a > b] on doubles. *)
Definition float_neq (a b : float) : bool := negb (PrimFloat.eqb a b).
Definition float_gt (a b : float) : bool := PrimFloat.ltb b a.
Definition float_ge (a b : float) : bool := PrimFloat.leb b a.

(** ** Data model *)

(** Pointers to objects the manager does not own are addresses. *)
Abbreviation IRenderPass := N.
Abbreviation ANativeWindow := N.
Abbreviation ITexture := N.
Abbreviation PollSource := N.

Inductive GraphicsAPI : Type := D3D11 | D3D12 | VULKAN.

#[global] Instance GraphicsAPI_eq_dec : EqDecision GraphicsAPI.
Proof. solve_decision. Defined.

(** [nvrhi::FramebufferDesc] with its builder, and the framebuffer object the
    device creates from it.  A [FramebufferHandle] is a nullable reference. *)
Record FramebufferDesc : Type := Build_FramebufferDesc {
  colorAttachments : list ITexture
}.

Definition FramebufferDesc_default : FramebufferDesc :=
  {| colorAttachments := [] |}.

Definition addColorAttachment (texture : ITexture) (d : FramebufferDesc) : FramebufferDesc :=
  {| colorAttachments := colorAttachments d ++ [texture] |}.

Record IFramebuffer : Type := Build_IFramebuffer {
  framebufferDesc : FramebufferDesc
}.

Abbreviation FramebufferHandle := (option IFramebuffer).

Definition createFramebuffer (d : FramebufferDesc) : FramebufferHandle :=
  Some {| framebufferDesc := d |}.

(** [donut::log::Severity] as far as this file names it, and the
    [nvrhi::Format] values of the [formatInfo] table. *)
Inductive Severity : Type :=
| Severity_Info | Severity_Warning | Severity_Error | Severity_Fatal.

Inductive Format : Type :=
| UNKNOWN | R8_UINT | RG8_UINT | RG8_UNORM | R16_UINT | R16_UNORM | R16_FLOAT
| RGBA8_UNORM | RGBA8_SNORM | BGRA8_UNORM | SRGBA8_UNORM | SBGRA8_UNORM
| R10G10B10A2_UNORM | R11G11B10_FLOAT | RG16_UINT | RG16_FLOAT | R32_UINT | R32_FLOAT
| RGBA16_FLOAT | RGBA16_UNORM | RGBA16_SNORM | RG32_UINT | RG32_FLOAT
| RGB32_UINT | RGB32_FLOAT | RGBA32_UINT | RGBA32_FLOAT.

(** [InstanceParameters] and [DeviceCreationParameters]; the base class of
    the latter is the field [instanceParameters].  Setters are written out
    for the fields the manager assigns. *)
Record InstanceParameters : Type := Build_InstanceParameters {
  enableDebugRuntime : bool;
  enableWarningsAsErrors : bool;
  enableGPUValidation : bool;
  headlessDevice : bool;
  logBufferLifetime : bool;
  enableHeapDirectlyIndexed : bool;
  enablePerMonitorDPI : bool;
  infoLogSeverity : Severity
}.

Definition set_headlessDevice (v : bool) (r : InstanceParameters) : InstanceParameters :=
  {| enableDebugRuntime := enableDebugRuntime r;
     enableWarningsAsErrors := enableWarningsAsErrors r;
     enableGPUValidation := enableGPUValidation r; headlessDevice := v;
     logBufferLifetime := logBufferLifetime r;
     enableHeapDirectlyIndexed := enableHeapDirectlyIndexed r;
     enablePerMonitorDPI := enablePerMonitorDPI r; infoLogSeverity := infoLogSeverity r |}.

Record DeviceCreationParameters : Type := Build_DeviceCreationParameters {
  instanceParameters : InstanceParameters;
  startMaximized : bool;
  startFullscreen : bool;
  startBorderless : bool;
  allowModeSwitch : bool;
  windowPosX : Z;
  windowPosY : Z;
  backBufferWidth : Z;
  backBufferHeight : Z;
  refreshRate : Z;
  swapChainBufferCount : Z;
  swapChainFormat : Format;
  swapChainSampleCount : Z;
  swapChainSampleQuality : Z;
  maxFramesInFlight : Z;
  enableNvrhiValidationLayer : bool;
  vsyncEnabled : bool;
  enableRayTracingExtensions : bool;
  enableComputeQueue : bool;
  enableCopyQueue : bool;
  adapterIndex : Z;
  supportExplicitDisplayScaling : bool;
  resizeWindowWithDisplayScale : bool;
  messageCallback : option N
}.

Definition set_instanceParameters (v : InstanceParameters) (r : DeviceCreationParameters) : DeviceCreationParameters :=
  {| instanceParameters := v; startMaximized := startMaximized r;
     startFullscreen := startFullscreen r; startBorderless := startBorderless r;
     allowModeSwitch := allowModeSwitch r; windowPosX := windowPosX r;
     windowPosY := windowPosY r; backBufferWidth := backBufferWidth r;
     backBufferHeight := backBufferHeight r; refreshRate := refreshRate r;
     swapChainBufferCount := swapChainBufferCount r; swapChainFormat := swapChainFormat r;
     swapChainSampleCount := swapChainSampleCount r;
     swapChainSampleQuality := swapChainSampleQuality r;
     maxFramesInFlight := maxFramesInFlight r;
     enableNvrhiValidationLayer := enableNvrhiValidationLayer r;
     vsyncEnabled := vsyncEnabled r;
     enableRayTracingExtensions := enableRayTracingExtensions r;
     enableComputeQueue := enableComputeQueue r; enableCopyQueue := enableCopyQueue r;
     adapterIndex := adapterIndex r;
     supportExplicitDisplayScaling := supportExplicitDisplayScaling r;
     resizeWindowWithDisplayScale := resizeWindowWithDisplayScale r;
     messageCallback := messageCallback r |}.

Definition set_backBufferWidth (v : Z) (r : DeviceCreationParameters) : DeviceCreationParameters :=
  {| instanceParameters := instanceParameters r; startMaximized := startMaximized r;
     startFullscreen := startFullscreen r; startBorderless := startBorderless r;
     allowModeSwitch := allowModeSwitch r; windowPosX := windowPosX r;
     windowPosY := windowPosY r; backBufferWidth := v; backBufferHeight := backBufferHeight r;
     refreshRate := refreshRate r; swapChainBufferCount := swapChainBufferCount r;
     swapChainFormat := swapChainFormat r; swapChainSampleCount := swapChainSampleCount r;
     swapChainSampleQuality := swapChainSampleQuality r;
     maxFramesInFlight := maxFramesInFlight r;
     enableNvrhiValidationLayer := enableNvrhiValidationLayer r;
     vsyncEnabled := vsyncEnabled r;
     enableRayTracingExtensions := enableRayTracingExtensions r;
     enableComputeQueue := enableComputeQueue r; enableCopyQueue := enableCopyQueue r;
     adapterIndex := adapterIndex r;
     supportExplicitDisplayScaling := supportExplicitDisplayScaling r;
     resizeWindowWithDisplayScale := resizeWindowWithDisplayScale r;
     messageCallback := messageCallback r |}.

Definition set_backBufferHeight (v : Z) (r : DeviceCreationParameters) : DeviceCreationParameters :=
  {| instanceParameters := instanceParameters r; startMaximized := startMaximized r;
     startFullscreen := startFullscreen r; startBorderless := startBorderless r;
     allowModeSwitch := allowModeSwitch r; windowPosX := windowPosX r;
     windowPosY := windowPosY r; backBufferWidth := backBufferWidth r; backBufferHeight := v;
     refreshRate := refreshRate r; swapChainBufferCount := swapChainBufferCount r;
     swapChainFormat := swapChainFormat r; swapChainSampleCount := swapChainSampleCount r;
     swapChainSampleQuality := swapChainSampleQuality r;
     maxFramesInFlight := maxFramesInFlight r;
     enableNvrhiValidationLayer := enableNvrhiValidationLayer r;
     vsyncEnabled := vsyncEnabled r;
     enableRayTracingExtensions := enableRayTracingExtensions r;
     enableComputeQueue := enableComputeQueue r; enableCopyQueue := enableCopyQueue r;
     adapterIndex := adapterIndex r;
     supportExplicitDisplayScaling := supportExplicitDisplayScaling r;
     resizeWindowWithDisplayScale := resizeWindowWithDisplayScale r;
     messageCallback := messageCallback r |}.

Definition set_vsyncEnabled (v : bool) (r : DeviceCreationParameters) : DeviceCreationParameters :=
  {| instanceParameters := instanceParameters r; startMaximized := startMaximized r;
     startFullscreen := startFullscreen r; startBorderless := startBorderless r;
     allowModeSwitch := allowModeSwitch r; windowPosX := windowPosX r;
     windowPosY := windowPosY r; backBufferWidth := backBufferWidth r;
     backBufferHeight := backBufferHeight r; refreshRate := refreshRate r;
     swapChainBufferCount := swapChainBufferCount r; swapChainFormat := swapChainFormat r;
     swapChainSampleCount := swapChainSampleCount r;
     swapChainSampleQuality := swapChainSampleQuality r;
     maxFramesInFlight := maxFramesInFlight r;
     enableNvrhiValidationLayer := enableNvrhiValidationLayer r; vsyncEnabled := v;
     enableRayTracingExtensions := enableRayTracingExtensions r;
     enableComputeQueue := enableComputeQueue r; enableCopyQueue := enableCopyQueue r;
     adapterIndex := adapterIndex r;
     supportExplicitDisplayScaling := supportExplicitDisplayScaling r;
     resizeWindowWithDisplayScale := resizeWindowWithDisplayScale r;
     messageCallback := messageCallback r |}.

(** Default member initialisers of the class. *)
Definition InstanceParameters_default : InstanceParameters :=
  {| enableDebugRuntime := false; enableWarningsAsErrors := false;
     enableGPUValidation := false; headlessDevice := false; logBufferLifetime := false;
     enableHeapDirectlyIndexed := false; enablePerMonitorDPI := false;
     infoLogSeverity := Severity_Info |}.

Definition DeviceCreationParameters_default : DeviceCreationParameters :=
  {| instanceParameters := InstanceParameters_default; startMaximized := false;
     startFullscreen := false; startBorderless := false; allowModeSwitch := false;
     windowPosX := -1; windowPosY := -1; backBufferWidth := 1280; backBufferHeight := 720;
     refreshRate := 0; swapChainBufferCount := 3; swapChainFormat := SRGBA8_UNORM;
     swapChainSampleCount := 1; swapChainSampleQuality := 0; maxFramesInFlight := 2;
     enableNvrhiValidationLayer := false; vsyncEnabled := false;
     enableRayTracingExtensions := false; enableComputeQueue := false;
     enableCopyQueue := false; adapterIndex := -1; supportExplicitDisplayScaling := false;
     resizeWindowWithDisplayScale := false; messageCallback := None |}.

(** The seven optional pipeline callbacks.  A [std::function] member is
    either empty or set; what a set callback does is external. *)
Inductive Hook : Type :=
| beforeFrame | beforeAnimate | afterAnimate
| beforeRender | afterRender | beforePresent | afterPresent.

#[global] Instance Hook_eq_dec : EqDecision Hook.
Proof. solve_decision. Defined.

Abbreviation PipelineCallbacks := (Hook → bool).

(** The five input entry points with their arguments as the passes see them. *)
Inductive InputEvent : Type :=
| KeyboardUpdateArgs (key scancode action mods : Z)
| KeyboardCharInputArgs (unicode mods : Z)
| MousePosUpdateArgs (xpos ypos : float)
| MouseButtonUpdateArgs (button action mods : Z)
| MouseScrollUpdateArgs (xoffset yoffset : float).

(** Calls that leave the manager, in the order they are made.  The
    framebuffer argument of [PassRender] is the result of the unchecked
    vector access in [Render]: [None] stands for an index past the end. *)
Inductive Event : Type :=
| PassBackBufferResizing (p : IRenderPass)
| PassBackBufferResized (p : IRenderPass) (width height sampleCount : Z)
| PassDisplayScaleChanged (p : IRenderPass) (scaleX scaleY : float)
| PassAnimate (p : IRenderPass) (fElapsedTimeSeconds : float)
| PassSetLatewarpOptions (p : IRenderPass)
| PassRender (p : IRenderPass) (framebuffer : option FramebufferHandle)
| PassShouldRenderUnfocused (p : IRenderPass) (r : bool)
| PassInput (p : IRenderPass) (args : InputEvent) (consumed : bool)
| HookCall (h : Hook) (frameIndex : Z)
| BackendCreateInstanceInternal (r : bool)
| BackendCreateDevice (r : bool)
| BackendCreateSwapChain (r : bool)
| BackendDestroyDeviceAndSwapChain
| BackendResizeSwapChain
| BackendBeginFrame (r : bool)
| BackendPresent (r : bool)
| DeviceCreateFramebuffer (index : Z)
| DeviceRunGarbageCollection
| DeviceWaitForIdle (r : bool)
| LooperPollAll (timeout : Z)
| SourceProcess (source : PollSource)
| NativeWindowRelease (w : ANativeWindow)
| ThreadSleep.

Section Manager.

(** The world outside the manager: pass objects, backend, window, looper. *)
Context {Ext : Type}.

Record DeviceManager : Type := Build_DeviceManager {
  m_SkipRenderOnFirstFrame : bool;
  m_windowVisible : bool;
  m_windowIsInFocus : bool;
  m_DeviceParams : DeviceCreationParameters;
  m_NativeWindow : option ANativeWindow;
  m_EnableRenderDuringWindowMovement : bool;
  m_vRenderPasses : list IRenderPass;
  m_PreviousFrameTimestamp : float;
  m_DPIScaleFactorX : float;
  m_DPIScaleFactorY : float;
  m_PrevDPIScaleFactorX : float;
  m_PrevDPIScaleFactorY : float;
  m_RequestedVSync : bool;
  m_InstanceCreated : bool;
  m_AverageFrameTime : float;
  m_AverageTimeUpdateInterval : float;
  m_FrameTimeSum : float;
  m_NumberOfAccumulatedFrames : Z;
  m_FrameIndex : Z;
  m_SwapChainFramebuffers : list FramebufferHandle;
  m_callbacks : PipelineCallbacks;
  m_WindowTitle : string;
  m_DeviceIDs : list Z;
  m_RemovedDevices : list Z;
  ext : Ext
}.

Definition set_m_SkipRenderOnFirstFrame (v : bool) (r : DeviceManager) : DeviceManager :=
  {| m_SkipRenderOnFirstFrame := v; m_windowVisible := m_windowVisible r;
     m_windowIsInFocus := m_windowIsInFocus r; m_DeviceParams := m_DeviceParams r;
     m_NativeWindow := m_NativeWindow r;
     m_EnableRenderDuringWindowMovement := m_EnableRenderDuringWindowMovement r;
     m_vRenderPasses := m_vRenderPasses r;
     m_PreviousFrameTimestamp := m_PreviousFrameTimestamp r;
     m_DPIScaleFactorX := m_DPIScaleFactorX r; m_DPIScaleFactorY := m_DPIScaleFactorY r;
     m_PrevDPIScaleFactorX := m_PrevDPIScaleFactorX r;
     m_PrevDPIScaleFactorY := m_PrevDPIScaleFactorY r; m_RequestedVSync := m_RequestedVSync r;
     m_InstanceCreated := m_InstanceCreated r; m_AverageFrameTime := m_AverageFrameTime r;
     m_AverageTimeUpdateInterval := m_AverageTimeUpdateInterval r;
     m_FrameTimeSum := m_FrameTimeSum r;
     m_NumberOfAccumulatedFrames := m_NumberOfAccumulatedFrames r;
     m_FrameIndex := m_FrameIndex r; m_SwapChainFramebuffers := m_SwapChainFramebuffers r;
     m_callbacks := m_callbacks r; m_WindowTitle := m_WindowTitle r;
     m_DeviceIDs := m_DeviceIDs r; m_RemovedDevices := m_RemovedDevices r; ext := ext r |}.

Definition set_m_callbacks (v : PipelineCallbacks) (r : DeviceManager) : DeviceManager :=
  {| m_SkipRenderOnFirstFrame := m_SkipRenderOnFirstFrame r;
     m_windowVisible := m_windowVisible r; m_windowIsInFocus := m_windowIsInFocus r;
     m_DeviceParams := m_DeviceParams r; m_NativeWindow := m_NativeWindow r;
     m_EnableRenderDuringWindowMovement := m_EnableRenderDuringWindowMovement r;
     m_vRenderPasses := m_vRenderPasses r;
     m_PreviousFrameTimestamp := m_PreviousFrameTimestamp r;
     m_DPIScaleFactorX := m_DPIScaleFactorX r; m_DPIScaleFactorY := m_DPIScaleFactorY r;
     m_PrevDPIScaleFactorX := m_PrevDPIScaleFactorX r;
     m_PrevDPIScaleFactorY := m_PrevDPIScaleFactorY r; m_RequestedVSync := m_RequestedVSync r;
     m_InstanceCreated := m_InstanceCreated r; m_AverageFrameTime := m_AverageFrameTime r;
     m_AverageTimeUpdateInterval := m_AverageTimeUpdateInterval r;
     m_FrameTimeSum := m_FrameTimeSum r;
     m_NumberOfAccumulatedFrames := m_NumberOfAccumulatedFrames r;
     m_FrameIndex := m_FrameIndex r; m_SwapChainFramebuffers := m_SwapChainFramebuffers r;
     m_callbacks := v; m_WindowTitle := m_WindowTitle r; m_DeviceIDs := m_DeviceIDs r;
     m_RemovedDevices := m_RemovedDevices r; ext := ext r |}.

Definition set_m_windowVisible (v : bool) (r : DeviceManager) : DeviceManager :=
  {| m_SkipRenderOnFirstFrame := m_SkipRenderOnFirstFrame r; m_windowVisible := v;
     m_windowIsInFocus := m_windowIsInFocus r; m_DeviceParams := m_DeviceParams r;
     m_NativeWindow := m_NativeWindow r;
     m_EnableRenderDuringWindowMovement := m_EnableRenderDuringWindowMovement r;
     m_vRenderPasses := m_vRenderPasses r;
     m_PreviousFrameTimestamp := m_PreviousFrameTimestamp r;
     m_DPIScaleFactorX := m_DPIScaleFactorX r; m_DPIScaleFactorY := m_DPIScaleFactorY r;
     m_PrevDPIScaleFactorX := m_PrevDPIScaleFactorX r;
     m_PrevDPIScaleFactorY := m_PrevDPIScaleFactorY r; m_RequestedVSync := m_RequestedVSync r;
     m_InstanceCreated := m_InstanceCreated r; m_AverageFrameTime := m_AverageFrameTime r;
     m_AverageTimeUpdateInterval := m_AverageTimeUpdateInterval r;
     m_FrameTimeSum := m_FrameTimeSum r;
     m_NumberOfAccumulatedFrames := m_NumberOfAccumulatedFrames r;
     m_FrameIndex := m_FrameIndex r; m_SwapChainFramebuffers := m_SwapChainFramebuffers r;
     m_callbacks := m_callbacks r; m_WindowTitle := m_WindowTitle r;
     m_DeviceIDs := m_DeviceIDs r; m_RemovedDevices := m_RemovedDevices r; ext := ext r |}.

Definition set_m_windowIsInFocus (v : bool) (r : DeviceManager) : DeviceManager :=
  {| m_SkipRenderOnFirstFrame := m_SkipRenderOnFirstFrame r;
     m_windowVisible := m_windowVisible r; m_windowIsInFocus := v;
     m_DeviceParams := m_DeviceParams r; m_NativeWindow := m_NativeWindow r;
     m_EnableRenderDuringWindowMovement := m_EnableRenderDuringWindowMovement r;
     m_vRenderPasses := m_vRenderPasses r;
     m_PreviousFrameTimestamp := m_PreviousFrameTimestamp r;
     m_DPIScaleFactorX := m_DPIScaleFactorX r; m_DPIScaleFactorY := m_DPIScaleFactorY r;
     m_PrevDPIScaleFactorX := m_PrevDPIScaleFactorX r;
     m_PrevDPIScaleFactorY := m_PrevDPIScaleFactorY r; m_RequestedVSync := m_RequestedVSync r;
     m_InstanceCreated := m_InstanceCreated r; m_AverageFrameTime := m_AverageFrameTime r;
     m_AverageTimeUpdateInterval := m_AverageTimeUpdateInterval r;
     m_FrameTimeSum := m_FrameTimeSum r;
     m_NumberOfAccumulatedFrames := m_NumberOfAccumulatedFrames r;
     m_FrameIndex := m_FrameIndex r; m_SwapChainFramebuffers := m_SwapChainFramebuffers r;
     m_callbacks := m_callbacks r; m_WindowTitle := m_WindowTitle r;
     m_DeviceIDs := m_DeviceIDs r; m_RemovedDevices := m_RemovedDevices r; ext := ext r |}.

Definition set_m_DeviceParams (v : DeviceCreationParameters) (r : DeviceManager) : DeviceManager :=
  {| m_SkipRenderOnFirstFrame := m_SkipRenderOnFirstFrame r;
     m_windowVisible := m_windowVisible r; m_windowIsInFocus := m_windowIsInFocus r;
     m_DeviceParams := v; m_NativeWindow := m_NativeWindow r;
     m_EnableRenderDuringWindowMovement := m_EnableRenderDuringWindowMovement r;
     m_vRenderPasses := m_vRenderPasses r;
     m_PreviousFrameTimestamp := m_PreviousFrameTimestamp r;
     m_DPIScaleFactorX := m_DPIScaleFactorX r; m_DPIScaleFactorY := m_DPIScaleFactorY r;
     m_PrevDPIScaleFactorX := m_PrevDPIScaleFactorX r;
     m_PrevDPIScaleFactorY := m_PrevDPIScaleFactorY r; m_RequestedVSync := m_RequestedVSync r;
     m_InstanceCreated := m_InstanceCreated r; m_AverageFrameTime := m_AverageFrameTime r;
     m_AverageTimeUpdateInterval := m_AverageTimeUpdateInterval r;
     m_FrameTimeSum := m_FrameTimeSum r;
     m_NumberOfAccumulatedFrames := m_NumberOfAccumulatedFrames r;
     m_FrameIndex := m_FrameIndex r; m_SwapChainFramebuffers := m_SwapChainFramebuffers r;
     m_callbacks := m_callbacks r; m_WindowTitle := m_WindowTitle r;
     m_DeviceIDs := m_DeviceIDs r; m_RemovedDevices := m_RemovedDevices r; ext := ext r |}.

Definition set_m_NativeWindow (v : option ANativeWindow) (r : DeviceManager) : DeviceManager :=
  {| m_SkipRenderOnFirstFrame := m_SkipRenderOnFirstFrame r;
     m_windowVisible := m_windowVisible r; m_windowIsInFocus := m_windowIsInFocus r;
     m_DeviceParams := m_DeviceParams r; m_NativeWindow := v;
     m_EnableRenderDuringWindowMovement := m_EnableRenderDuringWindowMovement r;
     m_vRenderPasses := m_vRenderPasses r;
     m_PreviousFrameTimestamp := m_PreviousFrameTimestamp r;
     m_DPIScaleFactorX := m_DPIScaleFactorX r; m_DPIScaleFactorY := m_DPIScaleFactorY r;
     m_PrevDPIScaleFactorX := m_PrevDPIScaleFactorX r;
     m_PrevDPIScaleFactorY := m_PrevDPIScaleFactorY r; m_RequestedVSync := m_RequestedVSync r;
     m_InstanceCreated := m_InstanceCreated r; m_AverageFrameTime := m_AverageFrameTime r;
     m_AverageTimeUpdateInterval := m_AverageTimeUpdateInterval r;
     m_FrameTimeSum := m_FrameTimeSum r;
     m_NumberOfAccumulatedFrames := m_NumberOfAccumulatedFrames r;
     m_FrameIndex := m_FrameIndex r; m_SwapChainFramebuffers := m_SwapChainFramebuffers r;
     m_callbacks := m_callbacks r; m_WindowTitle := m_WindowTitle r;
     m_DeviceIDs := m_DeviceIDs r; m_RemovedDevices := m_RemovedDevices r; ext := ext r |}.

Definition set_m_vRenderPasses (v : list IRenderPass) (r : DeviceManager) : DeviceManager :=
  {| m_SkipRenderOnFirstFrame := m_SkipRenderOnFirstFrame r;
     m_windowVisible := m_windowVisible r; m_windowIsInFocus := m_windowIsInFocus r;
     m_DeviceParams := m_DeviceParams r; m_NativeWindow := m_NativeWindow r;
     m_EnableRenderDuringWindowMovement := m_EnableRenderDuringWindowMovement r;
     m_vRenderPasses := v; m_PreviousFrameTimestamp := m_PreviousFrameTimestamp r;
     m_DPIScaleFactorX := m_DPIScaleFactorX r; m_DPIScaleFactorY := m_DPIScaleFactorY r;
     m_PrevDPIScaleFactorX := m_PrevDPIScaleFactorX r;
     m_PrevDPIScaleFactorY := m_PrevDPIScaleFactorY r; m_RequestedVSync := m_RequestedVSync r;
     m_InstanceCreated := m_InstanceCreated r; m_AverageFrameTime := m_AverageFrameTime r;
     m_AverageTimeUpdateInterval := m_AverageTimeUpdateInterval r;
     m_FrameTimeSum := m_FrameTimeSum r;
     m_NumberOfAccumulatedFrames := m_NumberOfAccumulatedFrames r;
     m_FrameIndex := m_FrameIndex r; m_SwapChainFramebuffers := m_SwapChainFramebuffers r;
     m_callbacks := m_callbacks r; m_WindowTitle := m_WindowTitle r;
     m_DeviceIDs := m_DeviceIDs r; m_RemovedDevices := m_RemovedDevices r; ext := ext r |}.

Definition set_m_PreviousFrameTimestamp (v : float) (r : DeviceManager) : DeviceManager :=
  {| m_SkipRenderOnFirstFrame := m_SkipRenderOnFirstFrame r;
     m_windowVisible := m_windowVisible r; m_windowIsInFocus := m_windowIsInFocus r;
     m_DeviceParams := m_DeviceParams r; m_NativeWindow := m_NativeWindow r;
     m_EnableRenderDuringWindowMovement := m_EnableRenderDuringWindowMovement r;
     m_vRenderPasses := m_vRenderPasses r; m_PreviousFrameTimestamp := v;
     m_DPIScaleFactorX := m_DPIScaleFactorX r; m_DPIScaleFactorY := m_DPIScaleFactorY r;
     m_PrevDPIScaleFactorX := m_PrevDPIScaleFactorX r;
     m_PrevDPIScaleFactorY := m_PrevDPIScaleFactorY r; m_RequestedVSync := m_RequestedVSync r;
     m_InstanceCreated := m_InstanceCreated r; m_AverageFrameTime := m_AverageFrameTime r;
     m_AverageTimeUpdateInterval := m_AverageTimeUpdateInterval r;
     m_FrameTimeSum := m_FrameTimeSum r;
     m_NumberOfAccumulatedFrames := m_NumberOfAccumulatedFrames r;
     m_FrameIndex := m_FrameIndex r; m_SwapChainFramebuffers := m_SwapChainFramebuffers r;
     m_callbacks := m_callbacks r; m_WindowTitle := m_WindowTitle r;
     m_DeviceIDs := m_DeviceIDs r; m_RemovedDevices := m_RemovedDevices r; ext := ext r |}.

Definition set_m_DPIScaleFactorX (v : float) (r : DeviceManager) : DeviceManager :=
  {| m_SkipRenderOnFirstFrame := m_SkipRenderOnFirstFrame r;
     m_windowVisible := m_windowVisible r; m_windowIsInFocus := m_windowIsInFocus r;
     m_DeviceParams := m_DeviceParams r; m_NativeWindow := m_NativeWindow r;
     m_EnableRenderDuringWindowMovement := m_EnableRenderDuringWindowMovement r;
     m_vRenderPasses := m_vRenderPasses r;
     m_PreviousFrameTimestamp := m_PreviousFrameTimestamp r; m_DPIScaleFactorX := v;
     m_DPIScaleFactorY := m_DPIScaleFactorY r;
     m_PrevDPIScaleFactorX := m_PrevDPIScaleFactorX r;
     m_PrevDPIScaleFactorY := m_PrevDPIScaleFactorY r; m_RequestedVSync := m_RequestedVSync r;
     m_InstanceCreated := m_InstanceCreated r; m_AverageFrameTime := m_AverageFrameTime r;
     m_AverageTimeUpdateInterval := m_AverageTimeUpdateInterval r;
     m_FrameTimeSum := m_FrameTimeSum r;
     m_NumberOfAccumulatedFrames := m_NumberOfAccumulatedFrames r;
     m_FrameIndex := m_FrameIndex r; m_SwapChainFramebuffers := m_SwapChainFramebuffers r;
     m_callbacks := m_callbacks r; m_WindowTitle := m_WindowTitle r;
     m_DeviceIDs := m_DeviceIDs r; m_RemovedDevices := m_RemovedDevices r; ext := ext r |}.

Definition set_m_DPIScaleFactorY (v : float) (r : DeviceManager) : DeviceManager :=
  {| m_SkipRenderOnFirstFrame := m_SkipRenderOnFirstFrame r;
     m_windowVisible := m_windowVisible r; m_windowIsInFocus := m_windowIsInFocus r;
     m_DeviceParams := m_DeviceParams r; m_NativeWindow := m_NativeWindow r;
     m_EnableRenderDuringWindowMovement := m_EnableRenderDuringWindowMovement r;
     m_vRenderPasses := m_vRenderPasses r;
     m_PreviousFrameTimestamp := m_PreviousFrameTimestamp r;
     m_DPIScaleFactorX := m_DPIScaleFactorX r; m_DPIScaleFactorY := v;
     m_PrevDPIScaleFactorX := m_PrevDPIScaleFactorX r;
     m_PrevDPIScaleFactorY := m_PrevDPIScaleFactorY r; m_RequestedVSync := m_RequestedVSync r;
     m_InstanceCreated := m_InstanceCreated r; m_AverageFrameTime := m_AverageFrameTime r;
     m_AverageTimeUpdateInterval := m_AverageTimeUpdateInterval r;
     m_FrameTimeSum := m_FrameTimeSum r;
     m_NumberOfAccumulatedFrames := m_NumberOfAccumulatedFrames r;
     m_FrameIndex := m_FrameIndex r; m_SwapChainFramebuffers := m_SwapChainFramebuffers r;
     m_callbacks := m_callbacks r; m_WindowTitle := m_WindowTitle r;
     m_DeviceIDs := m_DeviceIDs r; m_RemovedDevices := m_RemovedDevices r; ext := ext r |}.

Definition set_m_PrevDPIScaleFactorX (v : float) (r : DeviceManager) : DeviceManager :=
  {| m_SkipRenderOnFirstFrame := m_SkipRenderOnFirstFrame r;
     m_windowVisible := m_windowVisible r; m_windowIsInFocus := m_windowIsInFocus r;
     m_DeviceParams := m_DeviceParams r; m_NativeWindow := m_NativeWindow r;
     m_EnableRenderDuringWindowMovement := m_EnableRenderDuringWindowMovement r;
     m_vRenderPasses := m_vRenderPasses r;
     m_PreviousFrameTimestamp := m_PreviousFrameTimestamp r;
     m_DPIScaleFactorX := m_DPIScaleFactorX r; m_DPIScaleFactorY := m_DPIScaleFactorY r;
     m_PrevDPIScaleFactorX := v; m_PrevDPIScaleFactorY := m_PrevDPIScaleFactorY r;
     m_RequestedVSync := m_RequestedVSync r; m_InstanceCreated := m_InstanceCreated r;
     m_AverageFrameTime := m_AverageFrameTime r;
     m_AverageTimeUpdateInterval := m_AverageTimeUpdateInterval r;
     m_FrameTimeSum := m_FrameTimeSum r;
     m_NumberOfAccumulatedFrames := m_NumberOfAccumulatedFrames r;
     m_FrameIndex := m_FrameIndex r; m_SwapChainFramebuffers := m_SwapChainFramebuffers r;
     m_callbacks := m_callbacks r; m_WindowTitle := m_WindowTitle r;
     m_DeviceIDs := m_DeviceIDs r; m_RemovedDevices := m_RemovedDevices r; ext := ext r |}.

Definition set_m_PrevDPIScaleFactorY (v : float) (r : DeviceManager) : DeviceManager :=
  {| m_SkipRenderOnFirstFrame := m_SkipRenderOnFirstFrame r;
     m_windowVisible := m_windowVisible r; m_windowIsInFocus := m_windowIsInFocus r;
     m_DeviceParams := m_DeviceParams r; m_NativeWindow := m_NativeWindow r;
     m_EnableRenderDuringWindowMovement := m_EnableRenderDuringWindowMovement r;
     m_vRenderPasses := m_vRenderPasses r;
     m_PreviousFrameTimestamp := m_PreviousFrameTimestamp r;
     m_DPIScaleFactorX := m_DPIScaleFactorX r; m_DPIScaleFactorY := m_DPIScaleFactorY r;
     m_PrevDPIScaleFactorX := m_PrevDPIScaleFactorX r; m_PrevDPIScaleFactorY := v;
     m_RequestedVSync := m_RequestedVSync r; m_InstanceCreated := m_InstanceCreated r;
     m_AverageFrameTime := m_AverageFrameTime r;
     m_AverageTimeUpdateInterval := m_AverageTimeUpdateInterval r;
     m_FrameTimeSum := m_FrameTimeSum r;
     m_NumberOfAccumulatedFrames := m_NumberOfAccumulatedFrames r;
     m_FrameIndex := m_FrameIndex r; m_SwapChainFramebuffers := m_SwapChainFramebuffers r;
     m_callbacks := m_callbacks r; m_WindowTitle := m_WindowTitle r;
     m_DeviceIDs := m_DeviceIDs r; m_RemovedDevices := m_RemovedDevices r; ext := ext r |}.

Definition set_m_RequestedVSync (v : bool) (r : DeviceManager) : DeviceManager :=
  {| m_SkipRenderOnFirstFrame := m_SkipRenderOnFirstFrame r;
     m_windowVisible := m_windowVisible r; m_windowIsInFocus := m_windowIsInFocus r;
     m_DeviceParams := m_DeviceParams r; m_NativeWindow := m_NativeWindow r;
     m_EnableRenderDuringWindowMovement := m_EnableRenderDuringWindowMovement r;
     m_vRenderPasses := m_vRenderPasses r;
     m_PreviousFrameTimestamp := m_PreviousFrameTimestamp r;
     m_DPIScaleFactorX := m_DPIScaleFactorX r; m_DPIScaleFactorY := m_DPIScaleFactorY r;
     m_PrevDPIScaleFactorX := m_PrevDPIScaleFactorX r;
     m_PrevDPIScaleFactorY := m_PrevDPIScaleFactorY r; m_RequestedVSync := v;
     m_InstanceCreated := m_InstanceCreated r; m_AverageFrameTime := m_AverageFrameTime r;
     m_AverageTimeUpdateInterval := m_AverageTimeUpdateInterval r;
     m_FrameTimeSum := m_FrameTimeSum r;
     m_NumberOfAccumulatedFrames := m_NumberOfAccumulatedFrames r;
     m_FrameIndex := m_FrameIndex r; m_SwapChainFramebuffers := m_SwapChainFramebuffers r;
     m_callbacks := m_callbacks r; m_WindowTitle := m_WindowTitle r;
     m_DeviceIDs := m_DeviceIDs r; m_RemovedDevices := m_RemovedDevices r; ext := ext r |}.

Definition set_m_InstanceCreated (v : bool) (r : DeviceManager) : DeviceManager :=
  {| m_SkipRenderOnFirstFrame := m_SkipRenderOnFirstFrame r;
     m_windowVisible := m_windowVisible r; m_windowIsInFocus := m_windowIsInFocus r;
     m_DeviceParams := m_DeviceParams r; m_NativeWindow := m_NativeWindow r;
     m_EnableRenderDuringWindowMovement := m_EnableRenderDuringWindowMovement r;
     m_vRenderPasses := m_vRenderPasses r;
     m_PreviousFrameTimestamp := m_PreviousFrameTimestamp r;
     m_DPIScaleFactorX := m_DPIScaleFactorX r; m_DPIScaleFactorY := m_DPIScaleFactorY r;
     m_PrevDPIScaleFactorX := m_PrevDPIScaleFactorX r;
     m_PrevDPIScaleFactorY := m_PrevDPIScaleFactorY r; m_RequestedVSync := m_RequestedVSync r;
     m_InstanceCreated := v; m_AverageFrameTime := m_AverageFrameTime r;
     m_AverageTimeUpdateInterval := m_AverageTimeUpdateInterval r;
     m_FrameTimeSum := m_FrameTimeSum r;
     m_NumberOfAccumulatedFrames := m_NumberOfAccumulatedFrames r;
     m_FrameIndex := m_FrameIndex r; m_SwapChainFramebuffers := m_SwapChainFramebuffers r;
     m_callbacks := m_callbacks r; m_WindowTitle := m_WindowTitle r;
     m_DeviceIDs := m_DeviceIDs r; m_RemovedDevices := m_RemovedDevices r; ext := ext r |}.

Definition set_m_AverageFrameTime (v : float) (r : DeviceManager) : DeviceManager :=
  {| m_SkipRenderOnFirstFrame := m_SkipRenderOnFirstFrame r;
     m_windowVisible := m_windowVisible r; m_windowIsInFocus := m_windowIsInFocus r;
     m_DeviceParams := m_DeviceParams r; m_NativeWindow := m_NativeWindow r;
     m_EnableRenderDuringWindowMovement := m_EnableRenderDuringWindowMovement r;
     m_vRenderPasses := m_vRenderPasses r;
     m_PreviousFrameTimestamp := m_PreviousFrameTimestamp r;
     m_DPIScaleFactorX := m_DPIScaleFactorX r; m_DPIScaleFactorY := m_DPIScaleFactorY r;
     m_PrevDPIScaleFactorX := m_PrevDPIScaleFactorX r;
     m_PrevDPIScaleFactorY := m_PrevDPIScaleFactorY r; m_RequestedVSync := m_RequestedVSync r;
     m_InstanceCreated := m_InstanceCreated r; m_AverageFrameTime := v;
     m_AverageTimeUpdateInterval := m_AverageTimeUpdateInterval r;
     m_FrameTimeSum := m_FrameTimeSum r;
     m_NumberOfAccumulatedFrames := m_NumberOfAccumulatedFrames r;
     m_FrameIndex := m_FrameIndex r; m_SwapChainFramebuffers := m_SwapChainFramebuffers r;
     m_callbacks := m_callbacks r; m_WindowTitle := m_WindowTitle r;
     m_DeviceIDs := m_DeviceIDs r; m_RemovedDevices := m_RemovedDevices r; ext := ext r |}.

Definition set_m_FrameTimeSum (v : float) (r : DeviceManager) : DeviceManager :=
  {| m_SkipRenderOnFirstFrame := m_SkipRenderOnFirstFrame r;
     m_windowVisible := m_windowVisible r; m_windowIsInFocus := m_windowIsInFocus r;
     m_DeviceParams := m_DeviceParams r; m_NativeWindow := m_NativeWindow r;
     m_EnableRenderDuringWindowMovement := m_EnableRenderDuringWindowMovement r;
     m_vRenderPasses := m_vRenderPasses r;
     m_PreviousFrameTimestamp := m_PreviousFrameTimestamp r;
     m_DPIScaleFactorX := m_DPIScaleFactorX r; m_DPIScaleFactorY := m_DPIScaleFactorY r;
     m_PrevDPIScaleFactorX := m_PrevDPIScaleFactorX r;
     m_PrevDPIScaleFactorY := m_PrevDPIScaleFactorY r; m_RequestedVSync := m_RequestedVSync r;
     m_InstanceCreated := m_InstanceCreated r; m_AverageFrameTime := m_AverageFrameTime r;
     m_AverageTimeUpdateInterval := m_AverageTimeUpdateInterval r; m_FrameTimeSum := v;
     m_NumberOfAccumulatedFrames := m_NumberOfAccumulatedFrames r;
     m_FrameIndex := m_FrameIndex r; m_SwapChainFramebuffers := m_SwapChainFramebuffers r;
     m_callbacks := m_callbacks r; m_WindowTitle := m_WindowTitle r;
     m_DeviceIDs := m_DeviceIDs r; m_RemovedDevices := m_RemovedDevices r; ext := ext r |}.

Definition set_m_NumberOfAccumulatedFrames (v : Z) (r : DeviceManager) : DeviceManager :=
  {| m_SkipRenderOnFirstFrame := m_SkipRenderOnFirstFrame r;
     m_windowVisible := m_windowVisible r; m_windowIsInFocus := m_windowIsInFocus r;
     m_DeviceParams := m_DeviceParams r; m_NativeWindow := m_NativeWindow r;
     m_EnableRenderDuringWindowMovement := m_EnableRenderDuringWindowMovement r;
     m_vRenderPasses := m_vRenderPasses r;
     m_PreviousFrameTimestamp := m_PreviousFrameTimestamp r;
     m_DPIScaleFactorX := m_DPIScaleFactorX r; m_DPIScaleFactorY := m_DPIScaleFactorY r;
     m_PrevDPIScaleFactorX := m_PrevDPIScaleFactorX r;
     m_PrevDPIScaleFactorY := m_PrevDPIScaleFactorY r; m_RequestedVSync := m_RequestedVSync r;
     m_InstanceCreated := m_InstanceCreated r; m_AverageFrameTime := m_AverageFrameTime r;
     m_AverageTimeUpdateInterval := m_AverageTimeUpdateInterval r;
     m_FrameTimeSum := m_FrameTimeSum r; m_NumberOfAccumulatedFrames := v;
     m_FrameIndex := m_FrameIndex r; m_SwapChainFramebuffers := m_SwapChainFramebuffers r;
     m_callbacks := m_callbacks r; m_WindowTitle := m_WindowTitle r;
     m_DeviceIDs := m_DeviceIDs r; m_RemovedDevices := m_RemovedDevices r; ext := ext r |}.

Definition set_m_FrameIndex (v : Z) (r : DeviceManager) : DeviceManager :=
  {| m_SkipRenderOnFirstFrame := m_SkipRenderOnFirstFrame r;
     m_windowVisible := m_windowVisible r; m_windowIsInFocus := m_windowIsInFocus r;
     m_DeviceParams := m_DeviceParams r; m_NativeWindow := m_NativeWindow r;
     m_EnableRenderDuringWindowMovement := m_EnableRenderDuringWindowMovement r;
     m_vRenderPasses := m_vRenderPasses r;
     m_PreviousFrameTimestamp := m_PreviousFrameTimestamp r;
     m_DPIScaleFactorX := m_DPIScaleFactorX r; m_DPIScaleFactorY := m_DPIScaleFactorY r;
     m_PrevDPIScaleFactorX := m_PrevDPIScaleFactorX r;
     m_PrevDPIScaleFactorY := m_PrevDPIScaleFactorY r; m_RequestedVSync := m_RequestedVSync r;
     m_InstanceCreated := m_InstanceCreated r; m_AverageFrameTime := m_AverageFrameTime r;
     m_AverageTimeUpdateInterval := m_AverageTimeUpdateInterval r;
     m_FrameTimeSum := m_FrameTimeSum r;
     m_NumberOfAccumulatedFrames := m_NumberOfAccumulatedFrames r; m_FrameIndex := v;
     m_SwapChainFramebuffers := m_SwapChainFramebuffers r; m_callbacks := m_callbacks r;
     m_WindowTitle := m_WindowTitle r; m_DeviceIDs := m_DeviceIDs r;
     m_RemovedDevices := m_RemovedDevices r; ext := ext r |}.

Definition set_m_SwapChainFramebuffers (v : list FramebufferHandle) (r : DeviceManager) : DeviceManager :=
  {| m_SkipRenderOnFirstFrame := m_SkipRenderOnFirstFrame r;
     m_windowVisible := m_windowVisible r; m_windowIsInFocus := m_windowIsInFocus r;
     m_DeviceParams := m_DeviceParams r; m_NativeWindow := m_NativeWindow r;
     m_EnableRenderDuringWindowMovement := m_EnableRenderDuringWindowMovement r;
     m_vRenderPasses := m_vRenderPasses r;
     m_PreviousFrameTimestamp := m_PreviousFrameTimestamp r;
     m_DPIScaleFactorX := m_DPIScaleFactorX r; m_DPIScaleFactorY := m_DPIScaleFactorY r;
     m_PrevDPIScaleFactorX := m_PrevDPIScaleFactorX r;
     m_PrevDPIScaleFactorY := m_PrevDPIScaleFactorY r; m_RequestedVSync := m_RequestedVSync r;
     m_InstanceCreated := m_InstanceCreated r; m_AverageFrameTime := m_AverageFrameTime r;
     m_AverageTimeUpdateInterval := m_AverageTimeUpdateInterval r;
     m_FrameTimeSum := m_FrameTimeSum r;
     m_NumberOfAccumulatedFrames := m_NumberOfAccumulatedFrames r;
     m_FrameIndex := m_FrameIndex r; m_SwapChainFramebuffers := v;
     m_callbacks := m_callbacks r; m_WindowTitle := m_WindowTitle r;
     m_DeviceIDs := m_DeviceIDs r; m_RemovedDevices := m_RemovedDevices r; ext := ext r |}.

Definition set_m_WindowTitle (v : string) (r : DeviceManager) : DeviceManager :=
  {| m_SkipRenderOnFirstFrame := m_SkipRenderOnFirstFrame r;
     m_windowVisible := m_windowVisible r; m_windowIsInFocus := m_windowIsInFocus r;
     m_DeviceParams := m_DeviceParams r; m_NativeWindow := m_NativeWindow r;
     m_EnableRenderDuringWindowMovement := m_EnableRenderDuringWindowMovement r;
     m_vRenderPasses := m_vRenderPasses r;
     m_PreviousFrameTimestamp := m_PreviousFrameTimestamp r;
     m_DPIScaleFactorX := m_DPIScaleFactorX r; m_DPIScaleFactorY := m_DPIScaleFactorY r;
     m_PrevDPIScaleFactorX := m_PrevDPIScaleFactorX r;
     m_PrevDPIScaleFactorY := m_PrevDPIScaleFactorY r; m_RequestedVSync := m_RequestedVSync r;
     m_InstanceCreated := m_InstanceCreated r; m_AverageFrameTime := m_AverageFrameTime r;
     m_AverageTimeUpdateInterval := m_AverageTimeUpdateInterval r;
     m_FrameTimeSum := m_FrameTimeSum r;
     m_NumberOfAccumulatedFrames := m_NumberOfAccumulatedFrames r;
     m_FrameIndex := m_FrameIndex r; m_SwapChainFramebuffers := m_SwapChainFramebuffers r;
     m_callbacks := m_callbacks r; m_WindowTitle := v; m_DeviceIDs := m_DeviceIDs r;
     m_RemovedDevices := m_RemovedDevices r; ext := ext r |}.

Definition set_m_DeviceIDs (v : list Z) (r : DeviceManager) : DeviceManager :=
  {| m_SkipRenderOnFirstFrame := m_SkipRenderOnFirstFrame r;
     m_windowVisible := m_windowVisible r; m_windowIsInFocus := m_windowIsInFocus r;
     m_DeviceParams := m_DeviceParams r; m_NativeWindow := m_NativeWindow r;
     m_EnableRenderDuringWindowMovement := m_EnableRenderDuringWindowMovement r;
     m_vRenderPasses := m_vRenderPasses r;
     m_PreviousFrameTimestamp := m_PreviousFrameTimestamp r;
     m_DPIScaleFactorX := m_DPIScaleFactorX r; m_DPIScaleFactorY := m_DPIScaleFactorY r;
     m_PrevDPIScaleFactorX := m_PrevDPIScaleFactorX r;
     m_PrevDPIScaleFactorY := m_PrevDPIScaleFactorY r; m_RequestedVSync := m_RequestedVSync r;
     m_InstanceCreated := m_InstanceCreated r; m_AverageFrameTime := m_AverageFrameTime r;
     m_AverageTimeUpdateInterval := m_AverageTimeUpdateInterval r;
     m_FrameTimeSum := m_FrameTimeSum r;
     m_NumberOfAccumulatedFrames := m_NumberOfAccumulatedFrames r;
     m_FrameIndex := m_FrameIndex r; m_SwapChainFramebuffers := m_SwapChainFramebuffers r;
     m_callbacks := m_callbacks r; m_WindowTitle := m_WindowTitle r; m_DeviceIDs := v;
     m_RemovedDevices := m_RemovedDevices r; ext := ext r |}.

Definition set_m_RemovedDevices (v : list Z) (r : DeviceManager) : DeviceManager :=
  {| m_SkipRenderOnFirstFrame := m_SkipRenderOnFirstFrame r;
     m_windowVisible := m_windowVisible r; m_windowIsInFocus := m_windowIsInFocus r;
     m_DeviceParams := m_DeviceParams r; m_NativeWindow := m_NativeWindow r;
     m_EnableRenderDuringWindowMovement := m_EnableRenderDuringWindowMovement r;
     m_vRenderPasses := m_vRenderPasses r;
     m_PreviousFrameTimestamp := m_PreviousFrameTimestamp r;
     m_DPIScaleFactorX := m_DPIScaleFactorX r; m_DPIScaleFactorY := m_DPIScaleFactorY r;
     m_PrevDPIScaleFactorX := m_PrevDPIScaleFactorX r;
     m_PrevDPIScaleFactorY := m_PrevDPIScaleFactorY r; m_RequestedVSync := m_RequestedVSync r;
     m_InstanceCreated := m_InstanceCreated r; m_AverageFrameTime := m_AverageFrameTime r;
     m_AverageTimeUpdateInterval := m_AverageTimeUpdateInterval r;
     m_FrameTimeSum := m_FrameTimeSum r;
     m_NumberOfAccumulatedFrames := m_NumberOfAccumulatedFrames r;
     m_FrameIndex := m_FrameIndex r; m_SwapChainFramebuffers := m_SwapChainFramebuffers r;
     m_callbacks := m_callbacks r; m_WindowTitle := m_WindowTitle r;
     m_DeviceIDs := m_DeviceIDs r; m_RemovedDevices := v; ext := ext r |}.

Definition set_ext (v : Ext) (r : DeviceManager) : DeviceManager :=
  {| m_SkipRenderOnFirstFrame := m_SkipRenderOnFirstFrame r;
     m_windowVisible := m_windowVisible r; m_windowIsInFocus := m_windowIsInFocus r;
     m_DeviceParams := m_DeviceParams r; m_NativeWindow := m_NativeWindow r;
     m_EnableRenderDuringWindowMovement := m_EnableRenderDuringWindowMovement r;
     m_vRenderPasses := m_vRenderPasses r;
     m_PreviousFrameTimestamp := m_PreviousFrameTimestamp r;
     m_DPIScaleFactorX := m_DPIScaleFactorX r; m_DPIScaleFactorY := m_DPIScaleFactorY r;
     m_PrevDPIScaleFactorX := m_PrevDPIScaleFactorX r;
     m_PrevDPIScaleFactorY := m_PrevDPIScaleFactorY r; m_RequestedVSync := m_RequestedVSync r;
     m_InstanceCreated := m_InstanceCreated r; m_AverageFrameTime := m_AverageFrameTime r;
     m_AverageTimeUpdateInterval := m_AverageTimeUpdateInterval r;
     m_FrameTimeSum := m_FrameTimeSum r;
     m_NumberOfAccumulatedFrames := m_NumberOfAccumulatedFrames r;
     m_FrameIndex := m_FrameIndex r; m_SwapChainFramebuffers := m_SwapChainFramebuffers r;
     m_callbacks := m_callbacks r; m_WindowTitle := m_WindowTitle r;
     m_DeviceIDs := m_DeviceIDs r; m_RemovedDevices := m_RemovedDevices r; ext := v |}.

(** The member initialisers of the class. *)
Definition DeviceManager_new (e : Ext) : DeviceManager :=
  {| m_SkipRenderOnFirstFrame := false; m_windowVisible := false; m_windowIsInFocus := true;
     m_DeviceParams := DeviceCreationParameters_default; m_NativeWindow := None;
     m_EnableRenderDuringWindowMovement := false; m_vRenderPasses := [];
     m_PreviousFrameTimestamp := float_zero;
     m_DPIScaleFactorX := float_one; m_DPIScaleFactorY := float_one;
     m_PrevDPIScaleFactorX := float_zero; m_PrevDPIScaleFactorY := float_zero;
     m_RequestedVSync := false; m_InstanceCreated := false;
     m_AverageFrameTime := float_zero; m_AverageTimeUpdateInterval := float_half;
     m_FrameTimeSum := float_zero; m_NumberOfAccumulatedFrames := 0; m_FrameIndex := 0;
     m_SwapChainFramebuffers := []; m_callbacks := λ _, false;
     m_WindowTitle := EmptyString; m_DeviceIDs := []; m_RemovedDevices := []; ext := e |}.

(** ** The monad: manager state threaded, external calls logged *)

Definition M (A : Type) : Type := DeviceManager → A * DeviceManager * list Event.

Definition ret {A : Type} (a : A) : M A := λ s, (a, s, []).

Definition bind {A B : Type} (m : M A) (k : A → M B) : M B := λ s,
  let '(a, s1, l1) := m s in
  let '(b, s2, l2) := k a s1 in
  (b, s2, l1 ++ l2).

Declare Scope M_scope.
Delimit Scope M_scope with M.
Bind Scope M_scope with M.
Notation "x <- c1 ;; c2" := (bind c1 (λ x, c2))
  (at level 100, c1 at next level, c2 at level 200, right associativity) : M_scope.
Notation "c1 ;; c2" := (bind c1 (λ _, c2))
  (at level 100, c2 at level 200, right associativity) : M_scope.
Local Open Scope M_scope.

Definition gets {A : Type} (f : DeviceManager → A) : M A := λ s, (f s, s, []).
Definition modify (f : DeviceManager → DeviceManager) : M unit := λ s, (tt, f s, []).
Definition emit (e : Event) : M unit := λ s, (tt, s, [e]).

(** A call that only acts on the outside world, and one that also answers. *)
Definition ext_call (f : Ext → Ext) : M unit := modify (λ s, set_ext (f (ext s)) s).
Definition ext_query {A : Type} (f : Ext → A * Ext) : M A :=
  λ s, let '(a, e) := f (ext s) in (a, set_ext e s, []).

Definition result {A : Type} (r : A * DeviceManager * list Event) : A := r.1.1.
Definition state {A : Type} (r : A * DeviceManager * list Event) : DeviceManager := r.1.2.
Definition log {A : Type} (r : A * DeviceManager * list Event) : list Event := r.2.

(** [for (auto it : list) body(it);] *)
Fixpoint for_each {A : Type} (l : list A) (body : A → M unit) : M unit :=
  match l with
  | [] => ret tt
  | x :: l' => body x ;; for_each l' body
  end.

(** ** What the manager relies on and does not implement *)

Record Platform : Type := Build_Platform {
  (* IRenderPass virtual methods *)
  pass_BackBufferResizing : IRenderPass → Ext → Ext;
  pass_BackBufferResized : IRenderPass → Z → Z → Z → Ext → Ext;
  pass_DisplayScaleChanged : IRenderPass → float → float → Ext → Ext;
  pass_Animate : IRenderPass → float → Ext → Ext;
  pass_SetLatewarpOptions : IRenderPass → Ext → Ext;
  pass_Render : IRenderPass → option FramebufferHandle → Ext → Ext;
  pass_ShouldRenderUnfocused : IRenderPass → Ext → bool * Ext;
  pass_Input : IRenderPass → InputEvent → Ext → bool * Ext;
  (* a registered pipeline callback *)
  hook_call : Hook → Z → Ext → Ext;
  (* pure virtual, device-specific methods of DeviceManager *)
  CreateInstanceInternal : DeviceCreationParameters → Ext → bool * Ext;
  CreateDevice : DeviceCreationParameters → Ext → bool * Ext;
  CreateSwapChain : DeviceCreationParameters → Ext → bool * Ext;
  DestroyDeviceAndSwapChain : Ext → Ext;
  ResizeSwapChain : DeviceCreationParameters → Ext → Ext;
  BeginFrame : DeviceCreationParameters → Ext → bool * Ext;
  Present : DeviceCreationParameters → Ext → bool * Ext;
  GetGraphicsAPI : GraphicsAPI;
  GetBackBuffer : Z → Ext → ITexture;
  GetCurrentBackBufferIndex : Ext → Z;
  GetBackBufferCount : Ext → Z;
  (* nvrhi::IDevice *)
  runGarbageCollection : Ext → Ext;
  waitForIdle : Ext → bool * Ext;
  (* clock_gettime(CLOCK_MONOTONIC): tv_sec, tv_nsec *)
  clock_gettime : Ext → (Z * Z) * Ext;
  (* android_app and the native window *)
  app_window : Ext → option ANativeWindow;
  app_hasInputQueue : Ext → bool;
  attachLooper : Ext → Ext;
  app_destroyRequested : Ext → Z;
  ANativeWindow_getWidth : ANativeWindow → Ext → Z;
  ANativeWindow_getHeight : ANativeWindow → Ext → Z;
  ANativeWindow_release : ANativeWindow → Ext → Ext;
  (* AConfiguration_getDensity(config) / (float)ACONFIGURATION_DENSITY_MEDIUM *)
  display_density : Ext → float;
  (* ALooper_pollAll: its return value and the source it stores *)
  ALooper_pollAll : Z → Ext → (Z * option PollSource) * Ext;
  (* source->process(android_app, source) *)
  source_process : PollSource → M unit
}.

Variable P : Platform.

(** Calls on a render pass and on a registered callback, logged. *)
Definition call_BackBufferResizing (it : IRenderPass) : M unit :=
  emit (PassBackBufferResizing it);; ext_call (pass_BackBufferResizing P it).

Definition call_BackBufferResized (it : IRenderPass) (width height sampleCount : Z) : M unit :=
  emit (PassBackBufferResized it width height sampleCount);;
  ext_call (pass_BackBufferResized P it width height sampleCount).

Definition call_hook (h : Hook) (frameIndex : Z) : M unit :=
  cb <- gets m_callbacks;;
  if cb h then emit (HookCall h frameIndex);; ext_call (hook_call P h frameIndex)
  else ret tt.

(** ** Render-pass list *)

(** [std::list::remove]: every element equal to [p] goes. *)
Definition list_remove (p : IRenderPass) (l : list IRenderPass) : list IRenderPass :=
  filter (λ q, q ≠ p) l.

Definition AddRenderPassToFront (pRenderPass : IRenderPass) : M unit :=
  modify (λ s, set_m_vRenderPasses (list_remove pRenderPass (m_vRenderPasses s)) s);;
  modify (λ s, set_m_vRenderPasses (pRenderPass :: m_vRenderPasses s) s);;
  call_BackBufferResizing pRenderPass;;
  dp <- gets m_DeviceParams;;
  call_BackBufferResized pRenderPass
    (backBufferWidth dp) (backBufferHeight dp) (swapChainSampleCount dp).

Definition AddRenderPassToBack (pRenderPass : IRenderPass) : M unit :=
  modify (λ s, set_m_vRenderPasses (list_remove pRenderPass (m_vRenderPasses s)) s);;
  modify (λ s, set_m_vRenderPasses (m_vRenderPasses s ++ [pRenderPass]) s);;
  call_BackBufferResizing pRenderPass;;
  dp <- gets m_DeviceParams;;
  call_BackBufferResized pRenderPass
    (backBufferWidth dp) (backBufferHeight dp) (swapChainSampleCount dp).

Definition RemoveRenderPass (pRenderPass : IRenderPass) : M unit :=
  modify (λ s, set_m_vRenderPasses (list_remove pRenderPass (m_vRenderPasses s)) s).

(** A script of list operations, for statements over all call sequences. *)
Inductive PassOp : Type :=
| OpAddToFront (p : IRenderPass)
| OpAddToBack (p : IRenderPass)
| OpRemove (p : IRenderPass).

Definition run_PassOp (op : PassOp) : M unit :=
  match op with
  | OpAddToFront p => AddRenderPassToFront p
  | OpAddToBack p => AddRenderPassToBack p
  | OpRemove p => RemoveRenderPass p
  end.

(** ** Resize notifications and the framebuffer set *)

Definition BackBufferResizing : M unit :=
  modify (set_m_SwapChainFramebuffers []);;
  passes <- gets m_vRenderPasses;;
  for_each passes call_BackBufferResizing.

(** The first loop of [BackBufferResized]. *)
Definition BackBufferResized_notify : M unit :=
  passes <- gets m_vRenderPasses;;
  for_each passes (λ it,
    dp <- gets m_DeviceParams;;
    call_BackBufferResized it
      (backBufferWidth dp) (backBufferHeight dp) (swapChainSampleCount dp)).

(** The rest of it: size the vector, then fill every slot. *)
Definition BackBufferResized_rebuild : M unit :=
  backBufferCount <- gets (λ s, GetBackBufferCount P (ext s));;
  modify (λ s, set_m_SwapChainFramebuffers
                 (resize (Z.to_nat backBufferCount) None (m_SwapChainFramebuffers s)) s);;
  for_each (seqZ 0 backBufferCount) (λ index,
    texture <- gets (λ s, GetBackBuffer P index (ext s));;
    emit (DeviceCreateFramebuffer index);;
    modify (λ s, set_m_SwapChainFramebuffers
      (<[Z.to_nat index :=
           createFramebuffer (addColorAttachment texture FramebufferDesc_default)]>
         (m_SwapChainFramebuffers s)) s)).

Definition BackBufferResized : M unit :=
  BackBufferResized_notify;; BackBufferResized_rebuild.

Definition DisplayScaleChanged : M unit :=
  passes <- gets m_vRenderPasses;;
  for_each passes (λ it,
    sx <- gets m_DPIScaleFactorX;;
    sy <- gets m_DPIScaleFactorY;;
    emit (PassDisplayScaleChanged it sx sy);;
    ext_call (pass_DisplayScaleChanged P it sx sy)).

Definition Animate (elapsedTime : float) : M unit :=
  passes <- gets m_vRenderPasses;;
  for_each passes (λ it,
    emit (PassAnimate it (float_of_double elapsedTime));;
    ext_call (pass_Animate P it (float_of_double elapsedTime));;
    emit (PassSetLatewarpOptions it);;
    ext_call (pass_SetLatewarpOptions P it)).

(** [v[i]] on a vector, unchecked in C++: [None] when [i] is out of range. *)
Definition vector_at {A : Type} (v : list A) (i : Z) : option A :=
  if 0 <=? i then v !! Z.to_nat i else None.

Definition Render : M unit :=
  index <- gets (λ s, GetCurrentBackBufferIndex P (ext s));;
  framebuffer <- gets (λ s, vector_at (m_SwapChainFramebuffers s) index);;
  passes <- gets m_vRenderPasses;;
  for_each passes (λ it,
    emit (PassRender it framebuffer);;
    ext_call (pass_Render P it framebuffer)).

(** ** Frame clock *)

Definition UpdateAverageFrameTime (elapsedTime : float) : M unit :=
  modify (λ s, set_m_FrameTimeSum (PrimFloat.add (m_FrameTimeSum s) elapsedTime) s);;
  modify (λ s, set_m_NumberOfAccumulatedFrames
                 (to_int32 (m_NumberOfAccumulatedFrames s + 1)) s);;
  sum <- gets m_FrameTimeSum;;
  interval <- gets m_AverageTimeUpdateInterval;;
  n <- gets m_NumberOfAccumulatedFrames;;
  if float_gt sum interval && (0 <? n) then
    modify (set_m_AverageFrameTime (PrimFloat.div sum (double_of_int n)));;
    modify (set_m_NumberOfAccumulatedFrames 0);;
    modify (set_m_FrameTimeSum float_zero)
  else ret tt.

Definition GetAverageFrameTimeSeconds : M float := gets m_AverageFrameTime.

(** ** Reverse iteration over the passes *)

(** The loops from [crbegin] to [crend]: the argument lists the passes still
    to visit, so the callers pass the reversed list; a [true] answer ends
    the loop. *)
Fixpoint ShouldRenderUnfocused_loop (its : list IRenderPass) : M bool :=
  match its with
  | [] => ret false
  | it :: its' =>
      r <- ext_query (pass_ShouldRenderUnfocused P it);;
      emit (PassShouldRenderUnfocused it r);;
      if r then ret true else ShouldRenderUnfocused_loop its'
  end.

Definition ShouldRenderUnfocused : M bool :=
  passes <- gets m_vRenderPasses;;
  ShouldRenderUnfocused_loop (reverse passes).

Fixpoint dispatch_loop (args : InputEvent) (its : list IRenderPass) : M unit :=
  match its with
  | [] => ret tt
  | it :: its' =>
      r <- ext_query (pass_Input P it args);;
      emit (PassInput it args r);;
      if r then ret tt else dispatch_loop args its'
  end.

Definition KeyboardUpdate (key scancode action mods : Z) : M unit :=
  passes <- gets m_vRenderPasses;;
  dispatch_loop (KeyboardUpdateArgs key scancode action mods) (reverse passes).

Definition KeyboardCharInput (unicode mods : Z) : M unit :=
  passes <- gets m_vRenderPasses;;
  dispatch_loop (KeyboardCharInputArgs unicode mods) (reverse passes).

Definition MousePosUpdate (xpos ypos : float) : M unit :=
  dp <- gets m_DeviceParams;;
  sx <- gets m_DPIScaleFactorX;;
  sy <- gets m_DPIScaleFactorY;;
  let xpos' := if supportExplicitDisplayScaling dp then xpos else PrimFloat.div xpos sx in
  let ypos' := if supportExplicitDisplayScaling dp then ypos else PrimFloat.div ypos sy in
  passes <- gets m_vRenderPasses;;
  dispatch_loop (MousePosUpdateArgs xpos' ypos') (reverse passes).

Definition MouseButtonUpdate (button action mods : Z) : M unit :=
  passes <- gets m_vRenderPasses;;
  dispatch_loop (MouseButtonUpdateArgs button action mods) (reverse passes).

Definition MouseScrollUpdate (xoffset yoffset : float) : M unit :=
  passes <- gets m_vRenderPasses;;
  dispatch_loop (MouseScrollUpdateArgs xoffset yoffset) (reverse passes).

(** One entry point per input event. *)
Definition route_input (args : InputEvent) : M unit :=
  match args with
  | KeyboardUpdateArgs key scancode action mods => KeyboardUpdate key scancode action mods
  | KeyboardCharInputArgs unicode mods => KeyboardCharInput unicode mods
  | MousePosUpdateArgs xpos ypos => MousePosUpdate xpos ypos
  | MouseButtonUpdateArgs button action mods => MouseButtonUpdate button action mods
  | MouseScrollUpdateArgs xoffset yoffset => MouseScrollUpdate xoffset yoffset
  end.

(** ** AndroidInputManager (its singleton lives in the manager state) *)

Fixpoint erase_first (id : Z) (l : list Z) : list Z :=
  match l with
  | [] => []
  | x :: l' => if decide (x = id) then l' else x :: erase_first id l'
  end.

Definition EraseDisconnectedDevices : M unit :=
  modify (λ s,
    set_m_RemovedDevices []
      (set_m_DeviceIDs
         (foldl (λ ids id, erase_first id ids) (m_DeviceIDs s) (reverse (m_RemovedDevices s)))
         s)).

Definition ConnectDevice (id : Z) : M unit :=
  modify (λ s, set_m_DeviceIDs (m_DeviceIDs s ++ [id]) s).

Definition DisconnectDevice (id : Z) : M unit :=
  modify (λ s, set_m_RemovedDevices (m_RemovedDevices s ++ [id]) s).

(** [UpdateGamepad] has an empty body. *)
Definition UpdateGamepad (j : Z) (passes : list IRenderPass) : M unit := ret tt.

Definition UpdateAllInputs (passes : list IRenderPass) : M unit :=
  ids <- gets m_DeviceIDs;;
  for_each ids (λ j, UpdateGamepad j passes).

(** ** The tick *)

Definition current_time : M float :=
  now <- ext_query (clock_gettime P);;
  ret (PrimFloat.add (double_of_int now.1)
         (PrimFloat.div (double_of_int now.2) float_1e9)).

(** The part of [AnimateRenderPresent] guarded by visibility and focus.  Its
    result is [false] exactly when the function leaves through
    [return false]. *)
Definition AnimateRenderPresent_active (elapsedTime : float) : M bool :=
  px <- gets m_PrevDPIScaleFactorX;;
  py <- gets m_PrevDPIScaleFactorY;;
  sx <- gets m_DPIScaleFactorX;;
  sy <- gets m_DPIScaleFactorY;;
  (if float_neq px sx || float_neq py sy then
     DisplayScaleChanged;;
     modify (λ s, set_m_PrevDPIScaleFactorX (m_DPIScaleFactorX s) s);;
     modify (λ s, set_m_PrevDPIScaleFactorY (m_DPIScaleFactorY s) s)
   else ret tt);;
  simIndex <- gets m_FrameIndex;;
  call_hook beforeAnimate simIndex;;
  Animate elapsedTime;;
  simIndex <- gets m_FrameIndex;;
  call_hook afterAnimate simIndex;;
  simIndex <- gets m_FrameIndex;;
  skip <- gets m_SkipRenderOnFirstFrame;;
  if (0 <? simIndex) || negb skip then
    dp <- gets m_DeviceParams;;
    began <- ext_query (BeginFrame P dp);;
    emit (BackendBeginFrame began);;
    if began then
      frameIndex <- gets m_FrameIndex;;
      skip <- gets m_SkipRenderOnFirstFrame;;
      let frameIndex := if skip then to_uint32 (frameIndex - 1) else frameIndex in
      call_hook beforeRender frameIndex;;
      Render;;
      call_hook afterRender frameIndex;;
      call_hook beforePresent frameIndex;;
      dp <- gets m_DeviceParams;;
      presentSuccess <- ext_query (Present P dp);;
      emit (BackendPresent presentSuccess);;
      call_hook afterPresent frameIndex;;
      ret presentSuccess
    else ret true
  else ret true.

(** The end of [AnimateRenderPresent], reached unless the tick has left
    through [return false]. *)
Definition AnimateRenderPresent_finish (elapsedTime curTime : float) : M bool :=
  emit ThreadSleep;;
  emit DeviceRunGarbageCollection;;
  ext_call (runGarbageCollection P);;
  UpdateAverageFrameTime elapsedTime;;
  modify (set_m_PreviousFrameTimestamp curTime);;
  modify (λ s, set_m_FrameIndex (to_uint32 (m_FrameIndex s + 1)) s);;
  ret true.

Definition AnimateRenderPresent : M bool :=
  curTime <- current_time;;
  prev <- gets m_PreviousFrameTimestamp;;
  let elapsedTime := PrimFloat.sub curTime prev in
  EraseDisconnectedDevices;;
  passes <- gets m_vRenderPasses;;
  UpdateAllInputs passes;;
  visible <- gets m_windowVisible;;
  focus <- gets m_windowIsInFocus;;
  unfocused <- (if visible && negb focus then ShouldRenderUnfocused else ret false);;
  carryOn <- (if visible && (focus || unfocused)
              then AnimateRenderPresent_active elapsedTime else ret true);;
  if carryOn then AnimateRenderPresent_finish elapsedTime curTime
  else ret false.

(** ** Window size *)

Definition UpdateWindowSize : M unit :=
  window <- gets m_NativeWindow;;
  match window with
  | None => modify (set_m_windowVisible false)
  | Some w =>
      width <- gets (λ s, ANativeWindow_getWidth P w (ext s));;
      height <- gets (λ s, ANativeWindow_getHeight P w (ext s));;
      if (width =? 0) || (height =? 0) then
        modify (set_m_windowVisible false)
      else
        modify (set_m_windowVisible true);;
        modify (set_m_windowIsInFocus true);;
        dp <- gets m_DeviceParams;;
        requested <- gets m_RequestedVSync;;
        (if negb (to_int32 (backBufferWidth dp) =? width)
            || negb (to_int32 (backBufferHeight dp) =? height)
            || (negb (eqb (vsyncEnabled dp) requested)
                && bool_decide (GetGraphicsAPI P = VULKAN))
         then
           BackBufferResizing;;
           modify (λ s, set_m_DeviceParams
                          (set_backBufferWidth (to_uint32 width) (m_DeviceParams s)) s);;
           modify (λ s, set_m_DeviceParams
                          (set_backBufferHeight (to_uint32 height) (m_DeviceParams s)) s);;
           modify (λ s, set_m_DeviceParams
                          (set_vsyncEnabled (m_RequestedVSync s) (m_DeviceParams s)) s);;
           dp <- gets m_DeviceParams;;
           emit BackendResizeSwapChain;;
           ext_call (ResizeSwapChain P dp);;
           BackBufferResized
         else ret tt);;
        modify (λ s, set_m_DeviceParams
                       (set_vsyncEnabled (m_RequestedVSync s) (m_DeviceParams s)) s)
  end.

(** ** Message loop *)

(** The body of the [while], first half: poll the looper and let the
    source handle what arrived. *)
Definition RunMessageLoop_poll : M unit :=
  visible <- gets m_windowVisible;;
  let timeout := if visible then 0 else -1 in
  emit (LooperPollAll timeout);;
  polled <- ext_query (ALooper_pollAll P timeout);;
  if 0 <=? polled.1 then
    match polled.2 with
    | Some source => emit (SourceProcess source);; source_process P source
    | None => ret tt
    end
  else ret tt.

(** Second half: the tick.  The result says whether the body leaves
    through [break]. *)
Definition RunMessageLoop_tick : M bool :=
  visible <- gets m_windowVisible;;
  if visible then
    presentSuccess <- AnimateRenderPresent;;
    ret (negb presentSuccess)
  else ret false.

Definition RunMessageLoop_body : M bool :=
  RunMessageLoop_poll;; RunMessageLoop_tick.

(** The [while] loop, at most [fuel] evaluations of its condition.  The
    result is [true] when the loop was left, [false] when the fuel ran out
    with the loop still going. *)
Fixpoint RunMessageLoop_while (fuel : nat) : M bool :=
  match fuel with
  | O => ret false
  | S fuel' =>
      destroyRequested <- gets (λ s, app_destroyRequested P (ext s));;
      if destroyRequested =? 0 then
        left <- RunMessageLoop_body;;
        if left then ret true else RunMessageLoop_while fuel'
      else ret true
  end.

(** What [RunMessageLoop] does before the loop: the current time becomes
    the previous frame timestamp. *)
Definition RunMessageLoop_init : M unit :=
  now <- current_time;;
  modify (set_m_PreviousFrameTimestamp now).

(** [RunMessageLoop]; the result is [true] when the function returned. *)
Definition RunMessageLoop (fuel : nat) : M bool :=
  RunMessageLoop_init;;
  left <- RunMessageLoop_while fuel;;
  if left then
    waitSuccess <- ext_query (waitForIdle P);;
    emit (DeviceWaitForIdle waitSuccess);;
    ret true
  else ret false.

(** ** Creation and shutdown *)

Definition CreateInstance (params : InstanceParameters) : M bool :=
  created <- gets m_InstanceCreated;;
  if created then ret true
  else
    modify (λ s, set_m_DeviceParams (set_instanceParameters params (m_DeviceParams s)) s);;
    dp <- gets m_DeviceParams;;
    r <- ext_query (CreateInstanceInternal P dp);;
    emit (BackendCreateInstanceInternal r);;
    modify (set_m_InstanceCreated r);;
    gets m_InstanceCreated.

Definition CreateHeadlessDevice (params : DeviceCreationParameters) : M bool :=
  modify (set_m_DeviceParams params);;
  modify (λ s, set_m_DeviceParams
                 (set_instanceParameters
                    (set_headlessDevice true (instanceParameters (m_DeviceParams s)))
                    (m_DeviceParams s)) s);;
  dp <- gets m_DeviceParams;;
  ok <- CreateInstance (instanceParameters dp);;
  if ok then
    dp <- gets m_DeviceParams;;
    r <- ext_query (CreateDevice P dp);;
    emit (BackendCreateDevice r);;
    ret r
  else ret false.

(** [AndroidInputManager::EnumerateInputDevices] has an empty body. *)
Definition EnumerateInputDevices : M unit := ret tt.

(** [CreateWindowDeviceAndSwapChain] up to and including [CreateSwapChain];
    the result is [false] exactly when the function has left through one of
    its [return false]. *)
Definition CreateWindowDeviceAndSwapChain_create
    (params : DeviceCreationParameters) (windowTitle : option string) : M bool :=
  modify (set_m_DeviceParams params);;
  modify (λ s, set_m_DeviceParams
                 (set_instanceParameters
                    (set_headlessDevice false (instanceParameters (m_DeviceParams s)))
                    (m_DeviceParams s)) s);;
  modify (set_m_RequestedVSync (vsyncEnabled params));;
  dp <- gets m_DeviceParams;;
  ok <- CreateInstance (instanceParameters dp);;
  if ok then
    nativeWindow <- gets (λ s, app_window P (ext s));;
    match nativeWindow with
    | None => ret false
    | Some w =>
        width <- gets (λ s, ANativeWindow_getWidth P w (ext s));;
        modify (λ s, set_m_DeviceParams
                       (set_backBufferWidth (to_uint32 width) (m_DeviceParams s)) s);;
        height <- gets (λ s, ANativeWindow_getHeight P w (ext s));;
        modify (λ s, set_m_DeviceParams
                       (set_backBufferHeight (to_uint32 height) (m_DeviceParams s)) s);;
        modify (set_m_NativeWindow (Some w));;
        (match windowTitle with
         | Some title => modify (set_m_WindowTitle title)
         | None => ret tt
         end);;
        hasQueue <- gets (λ s, app_hasInputQueue P (ext s));;
        (if hasQueue then ext_call (attachLooper P) else ret tt);;
        density <- gets (λ s, display_density P (ext s));;
        modify (set_m_DPIScaleFactorX density);;
        modify (set_m_DPIScaleFactorY density);;
        EnumerateInputDevices;;
        dp <- gets m_DeviceParams;;
        deviceOk <- ext_query (CreateDevice P dp);;
        emit (BackendCreateDevice deviceOk);;
        if deviceOk then
          dp <- gets m_DeviceParams;;
          swapChainOk <- ext_query (CreateSwapChain P dp);;
          emit (BackendCreateSwapChain swapChainOk);;
          ret swapChainOk
        else ret false
    end
  else ret false.

(** What follows once device and swapchain exist: the stored size is
    zeroed to enforce a resize event, then the resize routine runs. *)
Definition CreateWindowDeviceAndSwapChain_finish : M unit :=
  modify (set_m_windowVisible true);;
  modify (λ s, set_m_DeviceParams (set_backBufferWidth 0 (m_DeviceParams s)) s);;
  modify (λ s, set_m_DeviceParams (set_backBufferHeight 0 (m_DeviceParams s)) s);;
  UpdateWindowSize.

Definition CreateWindowDeviceAndSwapChain
    (params : DeviceCreationParameters) (windowTitle : option string) : M bool :=
  created <- CreateWindowDeviceAndSwapChain_create params windowTitle;;
  if created then
    CreateWindowDeviceAndSwapChain_finish;;
    ret true
  else ret false.

Definition Shutdown : M unit :=
  modify (set_m_SwapChainFramebuffers []);;
  emit BackendDestroyDeviceAndSwapChain;;
  ext_call (DestroyDeviceAndSwapChain P);;
  window <- gets m_NativeWindow;;
  (match window with
   | Some w =>
       emit (NativeWindowRelease w);;
       ext_call (ANativeWindow_release P w);;
       modify (set_m_NativeWindow None)
   | None => ret tt
   end);;
  modify (set_m_InstanceCreated false).

Definition WindowPosCallback (x y : Z) : M unit :=
  density <- gets (λ s, display_density P (ext s));;
  modify (set_m_DPIScaleFactorX density);;
  modify (set_m_DPIScaleFactorY density);;
  enabled <- gets m_EnableRenderDuringWindowMovement;;
  framebuffers <- gets m_SwapChainFramebuffers;;
  if enabled && (0 <? Z.of_nat (length framebuffers)) then
    frameIndex <- gets m_FrameIndex;;
    call_hook beforeFrame frameIndex;;
    _ <- AnimateRenderPresent;;
    ret tt
  else ret tt.

(** Inline members of the header. *)
Definition SetVsyncEnabled (enabled : bool) : M unit := modify (set_m_RequestedVSync enabled).
Definition WindowFocusCallback (focused : Z) : M unit :=
  modify (set_m_windowIsInFocus (negb (focused =? 0))).
Definition GetFrameIndex : M Z := gets m_FrameIndex.

Definition set_m_EnableRenderDuringWindowMovement (v : bool) (r : DeviceManager)
    : DeviceManager :=
  {| m_SkipRenderOnFirstFrame := m_SkipRenderOnFirstFrame r;
     m_windowVisible := m_windowVisible r; m_windowIsInFocus := m_windowIsInFocus r;
     m_DeviceParams := m_DeviceParams r; m_NativeWindow := m_NativeWindow r;
     m_EnableRenderDuringWindowMovement := v;
     m_vRenderPasses := m_vRenderPasses r;
     m_PreviousFrameTimestamp := m_PreviousFrameTimestamp r;
     m_DPIScaleFactorX := m_DPIScaleFactorX r; m_DPIScaleFactorY := m_DPIScaleFactorY r;
     m_PrevDPIScaleFactorX := m_PrevDPIScaleFactorX r;
     m_PrevDPIScaleFactorY := m_PrevDPIScaleFactorY r; m_RequestedVSync := m_RequestedVSync r;
     m_InstanceCreated := m_InstanceCreated r; m_AverageFrameTime := m_AverageFrameTime r;
     m_AverageTimeUpdateInterval := m_AverageTimeUpdateInterval r;
     m_FrameTimeSum := m_FrameTimeSum r;
     m_NumberOfAccumulatedFrames := m_NumberOfAccumulatedFrames r;
     m_FrameIndex := m_FrameIndex r; m_SwapChainFramebuffers := m_SwapChainFramebuffers r;
     m_callbacks := m_callbacks r; m_WindowTitle := m_WindowTitle r;
     m_DeviceIDs := m_DeviceIDs r; m_RemovedDevices := m_RemovedDevices r; ext := ext r |}.

Definition SetEnableRenderDuringWindowMovement (val : bool) : M unit :=
  modify (set_m_EnableRenderDuringWindowMovement val).

(** [GetWindowDimensions] assigns the two [uint32_t] fields to [int]
    references; [GetDPIScaleInfo] copies the two scale factors. *)
Definition GetWindowDimensions : M (Z * Z) :=
  dp <- gets m_DeviceParams;;
  ret (to_int32 (backBufferWidth dp), to_int32 (backBufferHeight dp)).

Definition GetDPIScaleInfo : M (float * float) :=
  x <- gets m_DPIScaleFactorX;;
  y <- gets m_DPIScaleFactorY;;
  ret (x, y).

(** ** Framebuffer accessors *)

(** A raw [IFramebuffer*] is [None] when null.  The outer [option] is the
    outcome of the vector access: [None] would be a read past the end. *)
Definition GetFramebuffer (index : Z) : M (option (option IFramebuffer)) :=
  framebuffers <- gets m_SwapChainFramebuffers;;
  if index <? Z.of_nat (length framebuffers) then ret (vector_at framebuffers index)
  else ret (Some None).

Definition GetCurrentFramebuffer : M (option (option IFramebuffer)) :=
  index <- gets (λ s, GetCurrentBackBufferIndex P (ext s));;
  GetFramebuffer index.

(** ** Vocabulary of the statements *)

Definition run_PassOps (ops : list PassOp) : M unit := for_each ops run_PassOp.

(** The framebuffer the manager builds over back buffer [index], and the
    vector after the assignments [v[index] = ...] for the given indices. *)
Definition framebuffer_for (index : Z) (e : Ext) : FramebufferHandle :=
  createFramebuffer (addColorAttachment (GetBackBuffer P index e) FramebufferDesc_default).

Definition fill_framebuffers (e : Ext) (indices : list Z) (v : list FramebufferHandle)
    : list FramebufferHandle :=
  foldl (λ acc index, <[Z.to_nat index := framebuffer_for index e]> acc) v indices.

(** The framebuffer set agrees with the swapchain the backend reports. *)
Definition framebuffers_match (s : DeviceManager) : Prop :=
  length (m_SwapChainFramebuffers s) = Z.to_nat (GetBackBufferCount P (ext s)) ∧
  ∀ i : nat, (i < length (m_SwapChainFramebuffers s))%nat →
    m_SwapChainFramebuffers s !! i =
      Some (createFramebuffer
              (addColorAttachment (GetBackBuffer P (Z.of_nat i) (ext s))
                 FramebufferDesc_default)).

(** A resize event: something happens outside (the surface changes), then
    the manager runs [UpdateWindowSize], as for [APP_CMD_WINDOW_RESIZED].
    The list keeps, per event, the state reached and the calls made. *)
Fixpoint process_resize_events (events : list (Ext → Ext)) (s : DeviceManager)
    : list (DeviceManager * list Event) :=
  match events with
  | [] => []
  | change :: events' =>
      let r := UpdateWindowSize (set_ext (change (ext s)) s) in
      (state r, log r) :: process_resize_events events' (state r)
  end.

(** The arguments a pass handler receives for an event entering the
    manager in state [s]: pointer coordinates are divided by the DPI scale
    unless explicit display scaling is supported. *)
Definition delivered_args (s : DeviceManager) (args : InputEvent) : InputEvent :=
  match args with
  | MousePosUpdateArgs xpos ypos =>
      if supportExplicitDisplayScaling (m_DeviceParams s) then args
      else MousePosUpdateArgs (PrimFloat.div xpos (m_DPIScaleFactorX s))
                              (PrimFloat.div ypos (m_DPIScaleFactorY s))
  | _ => args
  end.

(** Feeding the frame clock one elapsed time after the other. *)
Definition feed_elapsed (elapsed : list float) : M unit :=
  for_each elapsed UpdateAverageFrameTime.

(** The resize branch of [UpdateWindowSize] is taken for a surface of the
    given size. *)
Definition resize_needed (s : DeviceManager) (width height : Z) : bool :=
  negb (to_int32 (backBufferWidth (m_DeviceParams s)) =? width)
  || negb (to_int32 (backBufferHeight (m_DeviceParams s)) =? height)
  || (negb (eqb (vsyncEnabled (m_DeviceParams s)) (m_RequestedVSync s))
      && bool_decide (GetGraphicsAPI P = VULKAN)).

(** Device parameters and manager state as the resize branch of
    [UpdateWindowSize] leaves them just before [ResizeSwapChain]. *)
Definition resized_params (s : DeviceManager) (width height : Z) : DeviceCreationParameters :=
  set_vsyncEnabled (m_RequestedVSync s)
    (set_backBufferHeight (to_uint32 height)
       (set_backBufferWidth (to_uint32 width) (m_DeviceParams s))).

Definition resizing_state (s : DeviceManager) (width height : Z) : DeviceManager :=
  set_m_DeviceParams (resized_params s width height)
    (set_m_SwapChainFramebuffers []
       (set_m_windowIsInFocus true (set_m_windowVisible true s))).

(** The state in which [CreateWindowDeviceAndSwapChain] calls the resize
    routine: window marked visible, stored back-buffer size zeroed. *)
Definition zeroed_state (s : DeviceManager) : DeviceManager :=
  set_m_DeviceParams
    (set_backBufferHeight 0 (set_backBufferWidth 0 (m_DeviceParams s)))
    (set_m_windowVisible true s).

(** The DPI test of a tick: the scale factors differ from the ones last
    announced.  Then what the passes are told, and the state with the
    announcement recorded. *)
Definition scale_changed (s : DeviceManager) : bool :=
  float_neq (m_PrevDPIScaleFactorX s) (m_DPIScaleFactorX s)
  || float_neq (m_PrevDPIScaleFactorY s) (m_DPIScaleFactorY s).

Definition scale_log (s : DeviceManager) : list Event :=
  if scale_changed s then
    map (λ it, PassDisplayScaleChanged it (m_DPIScaleFactorX s) (m_DPIScaleFactorY s))
        (m_vRenderPasses s)
  else [].

Definition scale_acknowledged (s : DeviceManager) : DeviceManager :=
  if scale_changed s then
    set_m_PrevDPIScaleFactorY (m_DPIScaleFactorY s)
      (set_m_PrevDPIScaleFactorX (m_DPIScaleFactorX s) s)
  else s.

(** The state in which a tick reaches its visibility test: the clock has
    been read and the disconnected devices erased. *)
Definition tick_start (s : DeviceManager) : DeviceManager :=
  state (EraseDisconnectedDevices (state (current_time s))).

(** What the parts of a tick before its end leave alone: frame counter and
    clock, pass list, framebuffer set, device parameters, window, current
    scale factors, callbacks.  The list of removed devices is empty from the
    start of the tick. *)
Definition tick_kept (s s2 : DeviceManager) : Prop :=
  m_FrameIndex s2 = m_FrameIndex s ∧
  m_PreviousFrameTimestamp s2 = m_PreviousFrameTimestamp s ∧
  m_FrameTimeSum s2 = m_FrameTimeSum s ∧
  m_NumberOfAccumulatedFrames s2 = m_NumberOfAccumulatedFrames s ∧
  m_AverageFrameTime s2 = m_AverageFrameTime s ∧
  m_AverageTimeUpdateInterval s2 = m_AverageTimeUpdateInterval s ∧
  m_vRenderPasses s2 = m_vRenderPasses s ∧
  m_SwapChainFramebuffers s2 = m_SwapChainFramebuffers s ∧
  m_DeviceParams s2 = m_DeviceParams s ∧
  m_windowVisible s2 = m_windowVisible s ∧
  m_windowIsInFocus s2 = m_windowIsInFocus s ∧
  m_DPIScaleFactorX s2 = m_DPIScaleFactorX s ∧
  m_DPIScaleFactorY s2 = m_DPIScaleFactorY s ∧
  m_callbacks s2 = m_callbacks s ∧
  m_SkipRenderOnFirstFrame s2 = m_SkipRenderOnFirstFrame s ∧
  m_NativeWindow s2 = m_NativeWindow s ∧
  m_RemovedDevices s2 = [].

(** [loop_continues k s s' l]: from [s] the loop of [RunMessageLoop] goes
    through its body [k] times without leaving, reaches [s'], and has made
    the calls [l]. *)
Inductive loop_continues : nat → DeviceManager → DeviceManager → list Event → Prop :=
| loop_continues_O (s : DeviceManager) : loop_continues O s s []
| loop_continues_S (k : nat) (s s' : DeviceManager) (l : list Event) :
    app_destroyRequested P (ext s) = 0 →
    result (RunMessageLoop_body s) = false →
    loop_continues k (state (RunMessageLoop_body s)) s' l →
    loop_continues (S k) s s' (log (RunMessageLoop_body s) ++ l).

End Manager.

Arguments DeviceManager Ext : clear implicits.
Arguments M Ext A : clear implicits.
Arguments Platform Ext : clear implicits.

(** Starting from the accumulated [sum], no call in the series brings the
    accumulated time above [interval]. *)
Fixpoint stays_within (interval sum : float) (elapsed : list float) : bool :=
  match elapsed with
  | [] => true
  | e :: elapsed' =>
      negb (float_gt (PrimFloat.add sum e) interval)
      && stays_within interval (PrimFloat.add sum e) elapsed'
  end.

(** In a log, every framebuffer creation comes before every
    [BackBufferResized] notification of a pass. *)
Definition rebuild_before_resized (l : list Event) : Prop :=
  ∀ (i j : nat) p width height sampleCount index,
    l !! i = Some (PassBackBufferResized p width height sampleCount) →
    l !! j = Some (DeviceCreateFramebuffer index) →
    (j < i)%nat.

(** The calls of one tick, spelled out.  [hook_log] is the call of a
    callback when it is registered; the other lists follow the statements of
    [AnimateRenderPresent] between the callbacks. *)
Definition hook_log (cb : PipelineCallbacks) (h : Hook) (frameIndex : Z) : list Event :=
  if cb h then [HookCall h frameIndex] else [].

Definition animate_log (passes : list IRenderPass) (elapsedTime : float) : list Event :=
  flat_map (λ it, [PassAnimate it (float_of_double elapsedTime); PassSetLatewarpOptions it])
           passes.

Definition render_present_log (cb : PipelineCallbacks) (passes : list IRenderPass)
    (frameIndex : Z) (framebuffer : option FramebufferHandle) (presentSuccess : bool)
    : list Event :=
  hook_log cb beforeRender frameIndex
  ++ map (λ it, PassRender it framebuffer) passes
  ++ hook_log cb afterRender frameIndex
  ++ hook_log cb beforePresent frameIndex
  ++ BackendPresent presentSuccess :: hook_log cb afterPresent frameIndex.

Definition active_log (cb : PipelineCallbacks) (passes : list IRenderPass)
    (elapsedTime : float) (sim : Z) (skip : bool) (scaleChanged : list Event)
    (began presentSuccess : bool) (framebuffer : option FramebufferHandle) : list Event :=
  scaleChanged
  ++ hook_log cb beforeAnimate sim
  ++ animate_log passes elapsedTime
  ++ hook_log cb afterAnimate sim
  ++ (if (0 <? sim) || negb skip then
        BackendBeginFrame began ::
        (if began then
           render_present_log cb passes (if skip then to_uint32 (sim - 1) else sim)
             framebuffer presentSuccess
         else [])
      else []).

Definition is_PassDisplayScaleChanged (e : Event) : bool :=
  match e with PassDisplayScaleChanged _ _ _ => true | _ => false end.

Definition is_PassShouldRenderUnfocused (e : Event) : bool :=
  match e with PassShouldRenderUnfocused _ _ => true | _ => false end.

(** What one list operation leaves in the list, and the calls it makes when
    the stored device parameters are [dp]. *)
Definition PassOp_passes (op : PassOp) (l : list IRenderPass) : list IRenderPass :=
  match op with
  | OpAddToFront p => p :: list_remove p l
  | OpAddToBack p => list_remove p l ++ [p]
  | OpRemove p => list_remove p l
  end.

Definition PassOp_log (dp : DeviceCreationParameters) (op : PassOp) : list Event :=
  match op with
  | OpAddToFront p | OpAddToBack p =>
      [PassBackBufferResizing p;
       PassBackBufferResized p (backBufferWidth dp) (backBufferHeight dp)
         (swapChainSampleCount dp)]
  | OpRemove _ => []
  end.

(** The backend calls of a creation attempt: the instance unless it exists
    already, then, with an instance and a native window, the device, and
    after the device the swapchain. *)
Definition creation_log (created instanceOk window deviceOk swapChainOk : bool)
    : list Event :=
  (if created then [] else [BackendCreateInstanceInternal instanceOk])
  ++ (if (created || instanceOk) && window then
        BackendCreateDevice deviceOk ::
        (if deviceOk then [BackendCreateSwapChain swapChainOk] else [])
      else []).

(** Events by kind. *)
Definition is_render_or_present (e : Event) : bool :=
  match e with
  | BackendBeginFrame _ | PassRender _ _ | BackendPresent _ => true
  | HookCall h _ =>
      match h with
      | beforeRender | afterRender | beforePresent | afterPresent => true
      | _ => false
      end
  | _ => false
  end.

Definition is_PassRender (e : Event) : bool :=
  match e with PassRender _ _ => true | _ => false end.

(** The frame index a hook is entitled to, for simulation index [sim]. *)
Definition hook_frameIndex (skip : bool) (sim : Z) (h : Hook) : Z :=
  match h with
  | beforeRender | afterRender | beforePresent | afterPresent =>
      if skip then sim - 1 else sim
  | _ => sim
  end.

(** ** A small world to run the model in

    Passes [1], [2], ... do nothing when notified; the passes listed in
    [tw_consumers] consume every input event.  The backend has as many back
    buffers as the device parameters asked for at the last resize, texture
    [i] behind back buffer [i]; [Present] succeeds [tw_presentsLeft] more
    times and fails from then on. *)
Record TestWorld : Type := Build_TestWorld {
  tw_width : Z;
  tw_height : Z;
  tw_backBufferCount : Z;
  tw_presentsLeft : Z;
  tw_consumers : list IRenderPass
}.

Definition tw_resize (dp : DeviceCreationParameters) (e : TestWorld) : TestWorld :=
  {| tw_width := tw_width e; tw_height := tw_height e;
     tw_backBufferCount := swapChainBufferCount dp;
     tw_presentsLeft := tw_presentsLeft e; tw_consumers := tw_consumers e |}.

Definition tw_present (e : TestWorld) : bool * TestWorld :=
  (0 <? tw_presentsLeft e,
   {| tw_width := tw_width e; tw_height := tw_height e;
      tw_backBufferCount := tw_backBufferCount e;
      tw_presentsLeft := tw_presentsLeft e - 1; tw_consumers := tw_consumers e |}).

Definition test_platform (api : GraphicsAPI) : Platform TestWorld :=
  {| pass_BackBufferResizing := λ _ e, e;
     pass_BackBufferResized := λ _ _ _ _ e, e;
     pass_DisplayScaleChanged := λ _ _ _ e, e;
     pass_Animate := λ _ _ e, e;
     pass_SetLatewarpOptions := λ _ e, e;
     pass_Render := λ _ _ e, e;
     pass_ShouldRenderUnfocused := λ _ e, (false, e);
     pass_Input := λ p _ e, (bool_decide (p ∈ tw_consumers e), e);
     hook_call := λ _ _ e, e;
     CreateInstanceInternal := λ _ e, (true, e);
     CreateDevice := λ _ e, (true, e);
     CreateSwapChain := λ dp e, (true, tw_resize dp e);
     DestroyDeviceAndSwapChain := λ e, e;
     ResizeSwapChain := tw_resize;
     BeginFrame := λ _ e, (true, e);
     Present := λ _, tw_present;
     GetGraphicsAPI := api;
     GetBackBuffer := λ i _, Z.to_N i;
     GetCurrentBackBufferIndex := λ _, 0;
     GetBackBufferCount := tw_backBufferCount;
     runGarbageCollection := λ e, e;
     waitForIdle := λ e, (true, e);
     clock_gettime := λ e, ((0, 0), e);
     app_window := λ _, Some 1%N;
     app_hasInputQueue := λ _, false;
     attachLooper := λ e, e;
     app_destroyRequested := λ _, 0;
     ANativeWindow_getWidth := λ _ e, tw_width e;
     ANativeWindow_getHeight := λ _ e, tw_height e;
     ANativeWindow_release := λ _ e, e;
     display_density := λ _, float_one;
     ALooper_pollAll := λ _ e, ((-3, None), e);
     source_process := λ _, ret tt |}.

Definition test_world (width height : Z) : TestWorld :=
  {| tw_width := width; tw_height := height; tw_backBufferCount := 0;
     tw_presentsLeft := 1000; tw_consumers := [] |}.

(** A manager with passes [1] and [2] registered, in that order, before the
    window, device and swapchain are created on a Vulkan backend with a
    1280x720 surface. *)
Definition registered_manager : DeviceManager TestWorld :=
  state (bind (AddRenderPassToBack (test_platform VULKAN) 1%N)
              (λ _, AddRenderPassToBack (test_platform VULKAN) 2%N)
           (DeviceManager_new (test_world 1280 720))).

Definition running_manager : DeviceManager TestWorld :=
  state (CreateWindowDeviceAndSwapChain (test_platform VULKAN)
           DeviceCreationParameters_default None registered_manager).

(** The running manager after the surface has grown to 1920x1080. *)
Definition surface_resized_manager : DeviceManager TestWorld :=
  set_ext {| tw_width := 1920; tw_height := 1080; tw_backBufferCount := 3;
             tw_presentsLeft := 1000; tw_consumers := [] |} running_manager.

(** A manager running on a D3D11 backend, after [SetVsyncEnabled(true)]. *)
Definition vsync_requested_manager : DeviceManager TestWorld :=
  state (SetVsyncEnabled true
           (state (CreateWindowDeviceAndSwapChain (test_platform D3D11)
                     DeviceCreationParameters_default None registered_manager))).

(** Pass [2] added to the front, then pass [1] added to the front; both
    consume every input event. *)
Definition front_stacked_manager : DeviceManager TestWorld :=
  state (bind (AddRenderPassToFront (test_platform VULKAN) 2%N)
              (λ _, AddRenderPassToFront (test_platform VULKAN) 1%N)
           (DeviceManager_new
              {| tw_width := 1280; tw_height := 720; tw_backBufferCount := 0;
                 tw_presentsLeft := 1000; tw_consumers := [1%N; 2%N] |})).

(** The running manager in skip-render-on-first-frame mode, every pipeline
    callback registered, after its first tick. *)
Definition skewed_manager : DeviceManager TestWorld :=
  set_m_FrameIndex 1
    (set_m_callbacks (λ _, true) (set_m_SkipRenderOnFirstFrame true running_manager)).

(** The running manager with a backend that presents once more and then
    reports failure. *)
Definition failing_manager : DeviceManager TestWorld :=
  set_ext {| tw_width := 1280; tw_height := 720; tw_backBufferCount := 3;
             tw_presentsLeft := 1; tw_consumers := [] |} running_manager.

Definition float_quarter : float :=
  PrimFloat.div float_one (PrimFloat.of_uint63 (Uint63.of_Z 4)).

(** * The D3D11 backend (DeviceManager_DX11.cpp)

    [int] and [LONG] are 32-bit here: their arithmetic wraps as
    [to_int32]; [/] on them truncates towards zero. *)

Module DX11.

Definition int_add (a b : Z) : Z := to_int32 (a + b).
Definition int_sub (a b : Z) : Z := to_int32 (a - b).
Definition int_div (a b : Z) : Z := to_int32 (Z.quot a b).

Record RECT : Type := Build_RECT {
  RECT_left : Z;
  RECT_top : Z;
  RECT_right : Z;
  RECT_bottom : Z
}.

Definition IsNvDeviceID (id : Z) : bool := id =? 0x10DE.

(** The body of the [if] in [MoveWindowOntoAdapter]: the window rectangle
    is centred on the desktop rectangle of the output and clamped to it. *)
Definition centre_on_desktop (desktop rect : RECT) : RECT :=
  let centreX := int_add (RECT_left desktop)
                   (int_div (int_sub (RECT_right desktop) (RECT_left desktop)) 2) in
  let centreY := int_add (RECT_top desktop)
                   (int_div (int_sub (RECT_bottom desktop) (RECT_top desktop)) 2) in
  let winW := int_sub (RECT_right rect) (RECT_left rect) in
  let winH := int_sub (RECT_bottom rect) (RECT_top rect) in
  let left := int_sub centreX (int_div winW 2) in
  let right := int_add left winW in
  let top := int_sub centreY (int_div winH 2) in
  let bottom := int_add top winH in
  {| RECT_left := Z.max left (RECT_left desktop);
     RECT_right := Z.min right (RECT_right desktop);
     RECT_bottom := Z.min bottom (RECT_bottom desktop);
     RECT_top := Z.max top (RECT_top desktop) |}.

(** [MoveWindowOntoAdapter].  The argument lists what [EnumOutputs]
    answers for output numbers 0, 1, ...: the desktop rectangle of the
    output it stores, or [None] when it succeeds and stores a null output;
    past the end of the list the call fails.  The result is the returned
    flag and the rectangle the reference argument holds afterwards. *)
Fixpoint MoveWindowOntoAdapter (outputs : list (option RECT)) (rect : RECT) : bool * RECT :=
  match outputs with
  | [] => (false, rect)
  | Some desktop :: _ => (true, centre_on_desktop desktop rect)
  | None :: outputs' => MoveWindowOntoAdapter outputs' rect
  end.

(** Coordinates small enough for the sums and differences of
    [MoveWindowOntoAdapter] to stay within [int]. *)
Definition within (bound : Z) (r : RECT) : Prop :=
  - bound ≤ RECT_left r ≤ bound ∧ - bound ≤ RECT_top r ≤ bound ∧
  - bound ≤ RECT_right r ≤ bound ∧ - bound ≤ RECT_bottom r ≤ bound.

(** [DXGI_ADAPTER_DESC], the members read here, and [AdapterInfo]. *)
Record DXGI_ADAPTER_DESC : Type := Build_DXGI_ADAPTER_DESC {
  Description : string;
  VendorId : Z;
  DeviceId : Z;
  DedicatedVideoMemory : Z;
  AdapterLuid : list Byte.byte
}.

Abbreviation IDXGIAdapter := N.

Record AdapterInfo : Type := Build_AdapterInfo {
  name : string;
  vendorID : Z;
  deviceID : Z;
  dedicatedVideoMemory : Z;
  luid : list Byte.byte;
  dxgiAdapter : IDXGIAdapter
}.

Section EnumerateAdapters.

(** [GetAdapterName] is declared in a header; [GetDesc] of an adapter
    answers its description, or fails. *)
Variable GetAdapterName : DXGI_ADAPTER_DESC → string.
Variable GetDesc : IDXGIAdapter → option DXGI_ADAPTER_DESC.

Definition adapterInfo_of (adapter : IDXGIAdapter) (desc : DXGI_ADAPTER_DESC) : AdapterInfo :=
  {| name := GetAdapterName desc; vendorID := VendorId desc; deviceID := DeviceId desc;
     dedicatedVideoMemory := DedicatedVideoMemory desc; luid := AdapterLuid desc;
     dxgiAdapter := adapter |}.

(** The [while (true)] of [EnumerateAdapters], at most [fuel] rounds:
    [EnumAdapters(outAdapters.size())] fails past the end of the factory's
    adapter list.  [None] when the rounds run out. *)
Fixpoint EnumerateAdapters_loop (fuel : nat) (factory : list IDXGIAdapter)
    (outAdapters : list AdapterInfo) : option (bool * list AdapterInfo) :=
  match fuel with
  | O => None
  | S fuel' =>
      match factory !! length outAdapters with
      | None => Some (true, outAdapters)
      | Some adapter =>
          match GetDesc adapter with
          | None => Some (false, outAdapters)
          | Some desc =>
              EnumerateAdapters_loop fuel' factory
                (outAdapters ++ [adapterInfo_of adapter desc])
          end
      end
  end.

(** [m_DxgiFactory] is [None] when null, else the adapters it enumerates. *)
Definition EnumerateAdapters (fuel : nat) (m_DxgiFactory : option (list IDXGIAdapter))
    (outAdapters : list AdapterInfo) : option (bool * list AdapterInfo) :=
  match m_DxgiFactory with
  | None => Some (false, outAdapters)
  | Some factory => EnumerateAdapters_loop fuel factory []
  end.

(** What [EnumerateAdapters] collects: the descriptions of the adapters up
    to the first whose [GetDesc] fails. *)
Fixpoint described_prefix (factory : list IDXGIAdapter) : list AdapterInfo :=
  match factory with
  | [] => []
  | adapter :: factory' =>
      match GetDesc adapter with
      | Some desc => adapterInfo_of adapter desc :: described_prefix factory'
      | None => []
      end
  end.

End EnumerateAdapters.

(** ** [BeginFrame]

    The members of [DeviceManager_DX11] live in the world component of the
    manager state, beside what is outside the program. *)

Record DXGI_SWAP_CHAIN_DESC : Type := Build_DXGI_SWAP_CHAIN_DESC {
  BufferDesc_Width : Z;
  BufferDesc_Height : Z;
  BufferDesc_Format : Z;
  Windowed : Z;
  Flags : Z
}.

Declare Scope M_scope.
Delimit Scope M_scope with M.
Notation "x <- c1 ;; c2" := (bind c1 (λ x, c2))
  (at level 100, c1 at next level, c2 at level 200, right associativity) : M_scope.
Notation "c1 ;; c2" := (bind c1 (λ _, c2))
  (at level 100, c2 at level 200, right associativity) : M_scope.

Section BeginFrame.

Context {E : Type}.

Record World : Type := Build_World {
  m_SwapChainDesc : DXGI_SWAP_CHAIN_DESC;
  world : E
}.

Definition set_m_SwapChainDesc (v : DXGI_SWAP_CHAIN_DESC) (r : World) : World :=
  {| m_SwapChainDesc := v; world := world r |}.

Definition set_world (v : E) (r : World) : World :=
  {| m_SwapChainDesc := m_SwapChainDesc r; world := v |}.

(** [m_SwapChain->GetDesc], [None] when it fails, and
    [glfwSetWindowMonitor(m_Window, nullptr, xpos, ypos, width, height, 0)]. *)
Variable SwapChain_GetDesc : E → option DXGI_SWAP_CHAIN_DESC.
Variable glfwSetWindowMonitor : Z → Z → Z → Z → E → E.

(** Passes, callbacks and the other virtual methods, [ResizeSwapChain]
    among them. *)
Variable P : Platform World.

Local Open Scope M_scope.

Definition BeginFrame : M World bool :=
  newDesc <- gets (λ s, SwapChain_GetDesc (world (ext s)));;
  (match newDesc with
   | Some newSwapChainDesc =>
       stored <- gets (λ s, m_SwapChainDesc (ext s));;
       if negb (Windowed stored =? Windowed newSwapChainDesc) then
         BackBufferResizing P;;
         modify (λ s, set_ext (set_m_SwapChainDesc newSwapChainDesc (ext s)) s);;
         modify (λ s, set_m_DeviceParams
                        (set_backBufferWidth (BufferDesc_Width newSwapChainDesc)
                           (m_DeviceParams s)) s);;
         modify (λ s, set_m_DeviceParams
                        (set_backBufferHeight (BufferDesc_Height newSwapChainDesc)
                           (m_DeviceParams s)) s);;
         (if negb (Windowed newSwapChainDesc =? 0) then
            ext_call (λ e, set_world
                             (glfwSetWindowMonitor 50 50
                                (BufferDesc_Width newSwapChainDesc)
                                (BufferDesc_Height newSwapChainDesc) (world e)) e)
          else ret tt);;
         dp <- gets m_DeviceParams;;
         emit BackendResizeSwapChain;;
         ext_call (ResizeSwapChain P dp);;
         BackBufferResized P
       else ret tt
   | None => ret tt
   end);;
  ret true.

End BeginFrame.

Arguments World E : clear implicits.

End DX11.

(** * The ImGui render pass (imgui_renderer.cpp)

    [ImGui_Renderer] keeps its own record of the keys and mouse buttons
    held ([keyDown], [mouseDown], boolean arrays declared in the header;
    their sizes are those of the lists here) beside the arrays of
    [ImGui::GetIO()].  An array access is unchecked in C++: the functions
    answer [None] where an index is out of range or not initialised.  The
    rest of ImGui's and the renderer's state is [E]; the statements of
    [Animate] that prepare a frame (fonts, display size, modifier flags,
    delta time) are one step on it, and [ImGui::NewFrame] sets the capture
    flags. *)

Module ImGui.

Record ImGuiIO : Type := Build_ImGuiIO {
  KeysDown : list bool;
  MouseDown : list bool;
  WantCaptureKeyboard : bool;
  WantCaptureMouse : bool
}.

Definition set_KeysDown (v : list bool) (r : ImGuiIO) : ImGuiIO :=
  {| KeysDown := v; MouseDown := MouseDown r;
     WantCaptureKeyboard := WantCaptureKeyboard r; WantCaptureMouse := WantCaptureMouse r |}.

Definition set_MouseDown (v : list bool) (r : ImGuiIO) : ImGuiIO :=
  {| KeysDown := KeysDown r; MouseDown := v;
     WantCaptureKeyboard := WantCaptureKeyboard r; WantCaptureMouse := WantCaptureMouse r |}.

(** Calls on ImGui and on the NVRHI backend of ImGui. *)
Inductive Call : Type :=
| NewFrame_call
| buildUI_call
| Render_call
| nvrhi_render_call (framebuffer : option IFramebuffer).

(** [a[i] = x] and [a[i]] on an array. *)
Definition array_store (a : list bool) (i : Z) (x : bool) : option (list bool) :=
  if (0 <=? i) && (i <? Z.of_nat (length a)) then Some (<[Z.to_nat i := x]> a) else None.

Definition array_at (a : list bool) (i : nat) : option bool := a !! i.

Section Renderer.

Context {E : Type}.

Record ImGui_Renderer : Type := Build_ImGui_Renderer {
  imgui_nvrhi : bool;
  m_beginFrameCalled : bool;
  keyDown : list bool;
  mouseDown : list bool;
  io : ImGuiIO;
  rest : E
}.

Definition set_m_beginFrameCalled (v : bool) (r : ImGui_Renderer) : ImGui_Renderer :=
  {| imgui_nvrhi := imgui_nvrhi r; m_beginFrameCalled := v; keyDown := keyDown r;
     mouseDown := mouseDown r; io := io r; rest := rest r |}.

Definition set_keyDown (v : list bool) (r : ImGui_Renderer) : ImGui_Renderer :=
  {| imgui_nvrhi := imgui_nvrhi r; m_beginFrameCalled := m_beginFrameCalled r; keyDown := v;
     mouseDown := mouseDown r; io := io r; rest := rest r |}.

Definition set_mouseDown (v : list bool) (r : ImGui_Renderer) : ImGui_Renderer :=
  {| imgui_nvrhi := imgui_nvrhi r; m_beginFrameCalled := m_beginFrameCalled r;
     keyDown := keyDown r; mouseDown := v; io := io r; rest := rest r |}.

Definition set_io (v : ImGuiIO) (r : ImGui_Renderer) : ImGui_Renderer :=
  {| imgui_nvrhi := imgui_nvrhi r; m_beginFrameCalled := m_beginFrameCalled r;
     keyDown := keyDown r; mouseDown := mouseDown r; io := v; rest := rest r |}.

Definition set_rest (v : E) (r : ImGui_Renderer) : ImGui_Renderer :=
  {| imgui_nvrhi := imgui_nvrhi r; m_beginFrameCalled := m_beginFrameCalled r;
     keyDown := keyDown r; mouseDown := mouseDown r; io := io r; rest := v |}.

(** Constants of GLFW. *)
Variables GLFW_PRESS GLFW_REPEAT : Z.
Variables GLFW_MOUSE_BUTTON_LEFT GLFW_MOUSE_BUTTON_RIGHT GLFW_MOUSE_BUTTON_MIDDLE : Z.

(** What the file leaves to ImGui, to the backend and to the derived class. *)
Variable prepare_frame : float → ImGuiIO → E → E.
Variable ImGui_NewFrame : ImGuiIO → E → (bool * bool) * E.
Variable buildUI : E → E.
Variable ImGui_Render : E → E.
Variable imgui_nvrhi_render : option IFramebuffer → E → E.

Definition KeyboardUpdate (key scancode action mods : Z) (r : ImGui_Renderer)
    : option (bool * ImGui_Renderer) :=
  let keyIsDown := (action =? GLFW_PRESS) || (action =? GLFW_REPEAT) in
  match array_store (keyDown r) key keyIsDown with
  | None => None
  | Some tracked =>
      let r := set_keyDown tracked r in
      if keyIsDown then
        match array_store (KeysDown (io r)) key true with
        | None => None
        | Some seen =>
            let r := set_io (set_KeysDown seen (io r)) r in
            Some (WantCaptureKeyboard (io r), r)
        end
      else Some (WantCaptureKeyboard (io r), r)
  end.

(** The [switch] of [MouseButtonUpdate]: [buttonIndex] stays
    uninitialised for any other button. *)
Definition buttonIndex_of (button : Z) : option Z :=
  if button =? GLFW_MOUSE_BUTTON_LEFT then Some 0
  else if button =? GLFW_MOUSE_BUTTON_RIGHT then Some 1
  else if button =? GLFW_MOUSE_BUTTON_MIDDLE then Some 2
  else None.

Definition MouseButtonUpdate (button action mods : Z) (r : ImGui_Renderer)
    : option (bool * ImGui_Renderer) :=
  let buttonIsDown := (action =? GLFW_PRESS) || (action =? GLFW_REPEAT) in
  match buttonIndex_of button with
  | None => None
  | Some buttonIndex =>
      match array_store (mouseDown r) buttonIndex buttonIsDown with
      | None => None
      | Some tracked =>
          let r := set_mouseDown tracked r in
          if buttonIsDown then
            match array_store (MouseDown (io r)) buttonIndex true with
            | None => None
            | Some seen =>
                let r := set_io (set_MouseDown seen (io r)) r in
                Some (WantCaptureMouse (io r), r)
            end
          else Some (WantCaptureMouse (io r), r)
      end
  end.

Definition Animate (elapsedTimeSeconds : float) (r : ImGui_Renderer)
    : ImGui_Renderer * list Call :=
  if negb (imgui_nvrhi r) || m_beginFrameCalled r then (r, [])
  else
    let r := set_rest (prepare_frame elapsedTimeSeconds (io r) (rest r)) r in
    let '((wantKeyboard, wantMouse), e) := ImGui_NewFrame (io r) (rest r) in
    let r := set_rest e
               (set_io {| KeysDown := KeysDown (io r); MouseDown := MouseDown (io r);
                          WantCaptureKeyboard := wantKeyboard;
                          WantCaptureMouse := wantMouse |} r) in
    (set_m_beginFrameCalled true r, [NewFrame_call]).

(** The two loops at the end of [Render]:
    [for (i = 0; i < tracked.size(); i++)
       if (seen[i] == true && tracked[i] == false) seen[i] = false;] *)
Fixpoint reconcile_loop (indices : list nat) (tracked seen : list bool)
    : option (list bool) :=
  match indices with
  | [] => Some seen
  | i :: indices' =>
      match array_at seen i, array_at tracked i with
      | Some s, Some t =>
          reconcile_loop indices' tracked
            (if s && negb t then <[i := false]> seen else seen)
      | _, _ => None
      end
  end.

Definition reconcile (tracked seen : list bool) : option (list bool) :=
  reconcile_loop (seq 0 (length tracked)) tracked seen.

Definition Render (framebuffer : option IFramebuffer) (r : ImGui_Renderer)
    : option (ImGui_Renderer * list Call) :=
  if negb (imgui_nvrhi r) then Some (r, [])
  else
    let r := set_rest (buildUI (rest r)) r in
    let r := set_rest (ImGui_Render (rest r)) r in
    let r := set_rest (imgui_nvrhi_render framebuffer (rest r)) r in
    let r := set_m_beginFrameCalled false r in
    match reconcile (mouseDown r) (MouseDown (io r)) with
    | None => None
    | Some buttons =>
        let r := set_io (set_MouseDown buttons (io r)) r in
        match reconcile (keyDown r) (KeysDown (io r)) with
        | None => None
        | Some keys =>
            Some (set_io (set_KeysDown keys (io r)) r,
                  [buildUI_call; Render_call; nvrhi_render_call framebuffer])
        end
    end.

(** A script of the two frame callbacks, as the manager may issue them. *)
Inductive FrameCall : Type :=
| CallAnimate (elapsedTimeSeconds : float)
| CallRender (framebuffer : option IFramebuffer).

Fixpoint run_frame_calls (calls : list FrameCall) (r : ImGui_Renderer)
    : option (ImGui_Renderer * list Call) :=
  match calls with
  | [] => Some (r, [])
  | CallAnimate elapsed :: calls' =>
      let '(r1, l1) := Animate elapsed r in
      match run_frame_calls calls' r1 with
      | Some (r2, l2) => Some (r2, l1 ++ l2)
      | None => None
      end
  | CallRender framebuffer :: calls' =>
      match Render framebuffer r with
      | Some (r1, l1) =>
          match run_frame_calls calls' r1 with
          | Some (r2, l2) => Some (r2, l1 ++ l2)
          | None => None
          end
      | None => None
      end
  end.

End Renderer.

Arguments ImGui_Renderer E : clear implicits.

(** In a log of calls, no [ImGui::NewFrame] follows another without an
    [ImGui::Render] in between; [open] tells whether a frame is open at the
    start. *)
Fixpoint frames_paired (open : bool) (l : list Call) : bool :=
  match l with
  | [] => true
  | NewFrame_call :: l' => negb open && frames_paired true l'
  | Render_call :: l' => frames_paired false l'
  | _ :: l' => frames_paired open l'
  end.

End ImGui.

(** ** More inputs to run the models on *)

(** The test platform with destruction of the activity requested. *)
Definition closing_platform : Platform TestWorld :=
  let Q := test_platform VULKAN in
  {| pass_BackBufferResizing := pass_BackBufferResizing Q;
     pass_BackBufferResized := pass_BackBufferResized Q;
     pass_DisplayScaleChanged := pass_DisplayScaleChanged Q;
     pass_Animate := pass_Animate Q;
     pass_SetLatewarpOptions := pass_SetLatewarpOptions Q;
     pass_Render := pass_Render Q;
     pass_ShouldRenderUnfocused := pass_ShouldRenderUnfocused Q;
     pass_Input := pass_Input Q;
     hook_call := hook_call Q;
     CreateInstanceInternal := CreateInstanceInternal Q;
     CreateDevice := CreateDevice Q;
     CreateSwapChain := CreateSwapChain Q;
     DestroyDeviceAndSwapChain := DestroyDeviceAndSwapChain Q;
     ResizeSwapChain := ResizeSwapChain Q;
     BeginFrame := BeginFrame Q;
     Present := Present Q;
     GetGraphicsAPI := GetGraphicsAPI Q;
     GetBackBuffer := GetBackBuffer Q;
     GetCurrentBackBufferIndex := GetCurrentBackBufferIndex Q;
     GetBackBufferCount := GetBackBufferCount Q;
     runGarbageCollection := runGarbageCollection Q;
     waitForIdle := waitForIdle Q;
     clock_gettime := clock_gettime Q;
     app_window := app_window Q;
     app_hasInputQueue := app_hasInputQueue Q;
     attachLooper := attachLooper Q;
     app_destroyRequested := λ _, 1;
     ANativeWindow_getWidth := ANativeWindow_getWidth Q;
     ANativeWindow_getHeight := ANativeWindow_getHeight Q;
     ANativeWindow_release := ANativeWindow_release Q;
     display_density := display_density Q;
     ALooper_pollAll := ALooper_pollAll Q;
     source_process := source_process Q |}.

(** The running manager after the application has lost focus. *)
Definition unfocused_manager : DeviceManager TestWorld :=
  state (WindowFocusCallback 0 running_manager).

(** A full-HD desktop and a window of 1296 by 759 at the origin. *)
Definition desktop_1080p : DX11.RECT :=
  {| DX11.RECT_left := 0; DX11.RECT_top := 0;
     DX11.RECT_right := 1920; DX11.RECT_bottom := 1080 |}.

Definition window_rect : DX11.RECT :=
  {| DX11.RECT_left := 0; DX11.RECT_top := 0;
     DX11.RECT_right := 1296; DX11.RECT_bottom := 759 |}.

(** Adapters [1] and [2] describe themselves, adapter [3] does not. *)
Definition test_GetDesc (adapter : DX11.IDXGIAdapter) : option DX11.DXGI_ADAPTER_DESC :=
  if decide (adapter = 3%N) then None
  else Some {| DX11.Description := "adapter"; DX11.VendorId := 0x10DE;
               DX11.DeviceId := Z.of_N adapter; DX11.DedicatedVideoMemory := 1024;
               DX11.AdapterLuid := [] |}.

(** An initialised ImGui pass tracking four keys and three buttons, nothing
    held, with ImGui arrays of eight keys and five buttons; the values of
    the GLFW constants. *)
Definition test_renderer : ImGui.ImGui_Renderer () :=
  {| ImGui.imgui_nvrhi := true; ImGui.m_beginFrameCalled := false;
     ImGui.keyDown := replicate 4 false; ImGui.mouseDown := replicate 3 false;
     ImGui.io := {| ImGui.KeysDown := replicate 8 false;
                    ImGui.MouseDown := replicate 5 false;
                    ImGui.WantCaptureKeyboard := false;
                    ImGui.WantCaptureMouse := true |};
     ImGui.rest := () |}.

Definition GLFW_RELEASE : Z := 0.
Definition GLFW_PRESS : Z := 1.
Definition GLFW_REPEAT : Z := 2.
Definition GLFW_MOUSE_BUTTON_LEFT : Z := 0.
Definition GLFW_MOUSE_BUTTON_RIGHT : Z := 1.
Definition GLFW_MOUSE_BUTTON_MIDDLE : Z := 2.

(** * Proofs *)

Section Proofs.

Context {Ext : Type} (P : Platform Ext).

Implicit Types (s : DeviceManager Ext) (p q it : IRenderPass).

(** ** Running the monad *)

Lemma set_ext_ext s : set_ext (ext s) s = s.
Proof. by destruct s. Qed.

Lemma bind_run {A B : Type} (m : M Ext A) (k : A → M Ext B) s :
  bind m k s =
    (result (k (result (m s)) (state (m s))),
     state (k (result (m s)) (state (m s))),
     log (m s) ++ log (k (result (m s)) (state (m s)))).
Proof.
  unfold bind, result, state, log.
  destruct (m s) as [[a s1] l1]; simpl.
  by destruct (k a s1) as [[b s2] l2].
Qed.

(** A loop whose body only acts on the outside world. *)
Lemma for_each_ext_only {A : Type} (body : A → M Ext unit)
    (f : A → DeviceManager Ext → Ext) (g : A → DeviceManager Ext → list Event) :
  (∀ a s, body a s = (tt, set_ext (f a s) s, g a s)) →
  (∀ a s e, g a (set_ext e s) = g a s) →
  ∀ l s, ∃ e, for_each l body s = (tt, set_ext e s, flat_map (λ a, g a s) l).
Proof.
  intros Hbody Hg l. induction l as [|a l IH]; intros s; simpl.
  - exists (ext s). by rewrite set_ext_ext.
  - destruct (IH (set_ext (f a s) s)) as [e He].
    exists e. unfold bind. rewrite Hbody, He. simpl.
    f_equal. f_equal. apply flat_map_ext. intros b. apply Hg.
Qed.

Lemma flat_map_singleton {A B : Type} (f : A → B) (l : list A) :
  flat_map (λ a, [f a]) l = map f l.
Proof. induction l; simpl; congruence. Qed.

(** ** The render-pass list *)

Lemma AddRenderPassToFront_passes p s :
  m_vRenderPasses (state (AddRenderPassToFront P p s))
  = p :: list_remove p (m_vRenderPasses s).
Proof. reflexivity. Qed.

Lemma AddRenderPassToBack_passes p s :
  m_vRenderPasses (state (AddRenderPassToBack P p s))
  = list_remove p (m_vRenderPasses s) ++ [p].
Proof. reflexivity. Qed.

Lemma RemoveRenderPass_passes p s :
  m_vRenderPasses (state (RemoveRenderPass p s)) = list_remove p (m_vRenderPasses s).
Proof. reflexivity. Qed.

Lemma list_remove_not_elem p (l : list IRenderPass) : p ∉ list_remove p l.
Proof. unfold list_remove. rewrite list_elem_of_filter. by intros [Hne _]. Qed.

Lemma list_remove_elem p q (l : list IRenderPass) :
  q ∈ list_remove p l ↔ q ≠ p ∧ q ∈ l.
Proof. unfold list_remove. by rewrite list_elem_of_filter. Qed.

Lemma list_remove_NoDup p (l : list IRenderPass) : NoDup l → NoDup (list_remove p l).
Proof. apply NoDup_filter. Qed.

Lemma list_remove_absent p (l : list IRenderPass) : p ∉ l → list_remove p l = l.
Proof.
  unfold list_remove. induction l as [|x l IH]; intros Hp; [done|].
  destruct (proj1 (not_elem_of_cons _ _ _) Hp) as [Hx Hl].
  rewrite filter_cons_True by congruence. by rewrite IH.
Qed.

Lemma run_PassOp_NoDup (op : PassOp) s :
  NoDup (m_vRenderPasses s) → NoDup (m_vRenderPasses (state (run_PassOp P op s))).
Proof.
  intros Hs. destruct op as [p|p|p]; unfold run_PassOp.
  - rewrite AddRenderPassToFront_passes. apply NoDup_cons.
    split; [apply list_remove_not_elem | by apply list_remove_NoDup].
  - rewrite AddRenderPassToBack_passes. apply NoDup_app.
    split_and!; [by apply list_remove_NoDup | | apply NoDup_singleton].
    intros x Hx ->%list_elem_of_singleton. by apply list_remove_not_elem in Hx.
  - rewrite RemoveRenderPass_passes. by apply list_remove_NoDup.
Qed.

Lemma run_PassOps_NoDup (ops : list PassOp) s :
  NoDup (m_vRenderPasses s) → NoDup (m_vRenderPasses (state (run_PassOps P ops s))).
Proof.
  unfold run_PassOps. revert s. induction ops as [|op ops IH]; intros s Hs; [done|].
  cbn [for_each]. rewrite bind_run. cbn [state fst snd]. apply IH. by apply run_PassOp_NoDup.
Qed.

(** C4: after any sequence of AddRenderPassToFront, AddRenderPassToBack and
    RemoveRenderPass calls on a new manager the pass list has no duplicate;
    from there AddRenderPassToFront puts the pass first, AddRenderPassToBack
    puts it last, in both cases after taking out the occurrence it had, so a
    pass that was registered is moved and the others keep their order, and
    RemoveRenderPass leaves a list without the pass. *)
Theorem C4_pass_list_at_most_once (e : Ext) (ops : list PassOp) (p : IRenderPass) :
  let s := state (run_PassOps P ops (DeviceManager_new e)) in
  let passes := m_vRenderPasses s in
  let front := m_vRenderPasses (state (AddRenderPassToFront P p s)) in
  let back := m_vRenderPasses (state (AddRenderPassToBack P p s)) in
  let removed := m_vRenderPasses (state (RemoveRenderPass p s)) in
  NoDup passes ∧
  (front = (p :: list_remove p passes) ∧ head front = Some p ∧ NoDup front) ∧
  (back = (list_remove p passes ++ [p]) ∧ last back = Some p ∧ NoDup back) ∧
  (removed = list_remove p passes ∧ (p ∉ removed) ∧ NoDup removed) ∧
  (∀ q, q ∈ list_remove p passes ↔ q ≠ p ∧ q ∈ passes) ∧
  (p ∉ passes → list_remove p passes = passes).
Proof.
  intros s passes front back removed.
  assert (Hnd : NoDup passes).
  { apply run_PassOps_NoDup. simpl. apply NoDup_nil_2. }
  split_and!; try done.
  - apply (run_PassOp_NoDup (OpAddToFront p)), Hnd.
  - subst back. rewrite AddRenderPassToBack_passes. apply last_snoc.
  - apply (run_PassOp_NoDup (OpAddToBack p)), Hnd.
  - apply list_remove_not_elem.
  - apply (run_PassOp_NoDup (OpRemove p)), Hnd.
  - intros q. apply list_remove_elem.
  - apply list_remove_absent.
Qed.

(** ** Framebuffer accessors *)

Lemma vector_at_in_range {A : Type} (v : list A) (i : Z) :
  0 ≤ i < Z.of_nat (length v) → ∃ x, v !! Z.to_nat i = Some x ∧ vector_at v i = Some x.
Proof.
  intros Hi. unfold vector_at.
  destruct (lookup_lt_is_Some_2 v (Z.to_nat i)) as [x Hx]; [lia|].
  exists x. split; [done|]. by rewrite (proj2 (Z.leb_le 0 i)) by lia.
Qed.

(** C10: for an index in the range of [uint32_t], GetFramebuffer changes
    nothing and calls nothing; below the number of framebuffers it returns
    the handle stored at that index, from there on it returns null, and in
    neither case does it read the vector out of range.  GetCurrentFramebuffer
    is GetFramebuffer at the backend's current back-buffer index. *)
Theorem C10_GetFramebuffer_bounds (index : Z) s :
  0 ≤ index < 2 ^ 32 →
  let r := GetFramebuffer index s in
  let framebuffers := m_SwapChainFramebuffers s in
  state r = s ∧ log r = [] ∧
  (index < Z.of_nat (length framebuffers) →
     ∃ handle, framebuffers !! Z.to_nat index = Some handle ∧ result r = Some handle) ∧
  (Z.of_nat (length framebuffers) ≤ index → result r = Some None) ∧
  result r ≠ None ∧
  GetCurrentFramebuffer P s = GetFramebuffer (GetCurrentBackBufferIndex P (ext s)) s.
Proof.
  intros Hi r framebuffers.
  assert (Hr : r = (if index <? Z.of_nat (length framebuffers)
                    then vector_at framebuffers index else Some None, s, [])).
  { subst r framebuffers. unfold GetFramebuffer, bind, gets, ret.
    by destruct (index <? _). }
  rewrite Hr. unfold result, state, log. simpl.
  clear Hr. clearbody framebuffers r.
  split_and!; try done.
  - intros Hlt. rewrite (proj2 (Z.ltb_lt _ _) Hlt).
    apply vector_at_in_range. lia.
  - intros Hge. by rewrite (proj2 (Z.ltb_ge _ _) Hge).
  - destruct (index <? _) eqn:Hlt; [|done].
    apply Z.ltb_lt in Hlt.
    destruct (vector_at_in_range framebuffers index) as (x & _ & ->); [lia|done].
  - unfold GetCurrentFramebuffer, bind, gets.
    by destruct (GetFramebuffer _ s) as [[? ?] ?].
Qed.

Lemma Shutdown_framebuffers s : m_SwapChainFramebuffers (state (Shutdown P s)) = [].
Proof.
  unfold Shutdown, bind, modify, emit, ext_call, gets, modify, state.
  cbn [m_NativeWindow set_m_SwapChainFramebuffers set_ext fst snd].
  by destruct (m_NativeWindow s).
Qed.

(** After Shutdown every index gets the null pointer. *)
Lemma GetFramebuffer_after_Shutdown (index : Z) s :
  0 ≤ index → result (GetFramebuffer index (state (Shutdown P s))) = Some None.
Proof.
  intros Hindex. unfold GetFramebuffer, bind, gets, ret, result.
  rewrite Shutdown_framebuffers.
  change (Z.of_nat (length [])) with 0.
  by rewrite (proj2 (Z.ltb_ge index 0)) by lia.
Qed.

(** ** Frame clock *)

Lemma to_int32_small (z : Z) : - 2 ^ 31 ≤ z < 2 ^ 31 → to_int32 z = z.
Proof. intros Hz. unfold to_int32. rewrite Z.mod_small; lia. Qed.

Lemma to_uint32_small (z : Z) : 0 ≤ z < 2 ^ 32 → to_uint32 z = z.
Proof. intros Hz. unfold to_uint32. by rewrite Z.mod_small. Qed.

Lemma UpdateAverageFrameTime_run (elapsedTime : float) s :
  let sum := PrimFloat.add (m_FrameTimeSum s) elapsedTime in
  let n := to_int32 (m_NumberOfAccumulatedFrames s + 1) in
  let r := UpdateAverageFrameTime elapsedTime s in
  log r = [] ∧
  m_AverageTimeUpdateInterval (state r) = m_AverageTimeUpdateInterval s ∧
  if float_gt sum (m_AverageTimeUpdateInterval s) && (0 <? n)
  then m_AverageFrameTime (state r) = PrimFloat.div sum (double_of_int n) ∧
       m_FrameTimeSum (state r) = float_zero ∧
       m_NumberOfAccumulatedFrames (state r) = 0
  else m_AverageFrameTime (state r) = m_AverageFrameTime s ∧
       m_FrameTimeSum (state r) = sum ∧
       m_NumberOfAccumulatedFrames (state r) = n.
Proof.
  intros sum n r. subst r. unfold UpdateAverageFrameTime, bind, gets, modify, ret.
  cbn -[to_int32 float_gt double_of_int float_zero].
  fold sum n.
  by destruct (float_gt sum (m_AverageTimeUpdateInterval s) && (0 <? n)).
Qed.

Lemma feed_elapsed_within (elapsed : list float) s :
  0 ≤ m_NumberOfAccumulatedFrames s →
  m_NumberOfAccumulatedFrames s + Z.of_nat (length elapsed) < 2 ^ 31 →
  stays_within (m_AverageTimeUpdateInterval s) (m_FrameTimeSum s) elapsed = true →
  let s' := state (feed_elapsed elapsed s) in
  m_AverageTimeUpdateInterval s' = m_AverageTimeUpdateInterval s ∧
  m_AverageFrameTime s' = m_AverageFrameTime s ∧
  m_FrameTimeSum s' = foldl PrimFloat.add (m_FrameTimeSum s) elapsed ∧
  m_NumberOfAccumulatedFrames s' = m_NumberOfAccumulatedFrames s + Z.of_nat (length elapsed).
Proof.
  unfold feed_elapsed. revert s.
  induction elapsed as [|e elapsed IH]; intros s Hn Hlen Hin.
  - unfold ret, state. simpl. split_and!; try done. lia.
  - cbn [for_each]. rewrite bind_run. cbn [state fst snd].
    cbn [stays_within] in Hin. apply andb_prop in Hin as [Hle Hin].
    apply negb_true_iff in Hle.
    cbn [length] in Hlen.
    destruct (UpdateAverageFrameTime_run e s) as (_ & Hint & Hstep).
    cbv zeta in Hstep. rewrite Hle in Hstep. cbn [andb] in Hstep.
    destruct Hstep as (Havg & Hsum & Hcnt).
    rewrite to_int32_small in Hcnt by lia.
    set (s1 := state (UpdateAverageFrameTime e s)) in *.
    destruct (IH s1) as (Hint' & Havg' & Hsum' & Hcnt').
    + lia.
    + lia.
    + by rewrite Hint, Hsum.
    + cbv zeta in *. rewrite Hint', Havg', Hsum', Hcnt', Hint, Havg, Hsum, Hcnt.
      split_and!; try done. cbn [length]. lia.
Qed.

(** C5 (amended): every call adds the elapsed time and one frame to the
    accumulators.  While the accumulated time has not gone strictly above the
    interval, the published average stays as it was.  The call that brings
    the accumulated time strictly above the interval publishes accumulated
    time divided by accumulated frame count and resets both accumulators to
    zero; a call that brings it to the interval exactly, or below, publishes
    nothing and resets nothing. *)
Theorem C5_average_published_above_interval (elapsed : list float) (e : float) s :
  0 ≤ m_NumberOfAccumulatedFrames s →
  m_NumberOfAccumulatedFrames s + Z.of_nat (length elapsed) + 1 < 2 ^ 31 →
  stays_within (m_AverageTimeUpdateInterval s) (m_FrameTimeSum s) elapsed = true →
  let interval := m_AverageTimeUpdateInterval s in
  let s1 := state (feed_elapsed elapsed s) in
  let s2 := state (UpdateAverageFrameTime e s1) in
  let total := foldl PrimFloat.add (m_FrameTimeSum s) (elapsed ++ [e]) in
  let count := m_NumberOfAccumulatedFrames s + Z.of_nat (length elapsed) + 1 in
  (m_AverageFrameTime s1 = m_AverageFrameTime s ∧
   m_FrameTimeSum s1 = foldl PrimFloat.add (m_FrameTimeSum s) elapsed ∧
   m_NumberOfAccumulatedFrames s1 = m_NumberOfAccumulatedFrames s + Z.of_nat (length elapsed)) ∧
  (float_gt total interval = true →
     m_AverageFrameTime s2 = PrimFloat.div total (double_of_int count) ∧
     m_FrameTimeSum s2 = float_zero ∧
     m_NumberOfAccumulatedFrames s2 = 0) ∧
  (float_gt total interval = false →
     m_AverageFrameTime s2 = m_AverageFrameTime s ∧
     m_FrameTimeSum s2 = total ∧
     m_NumberOfAccumulatedFrames s2 = count).
Proof.
  intros Hn Hlen Hin interval s1 s2 total count.
  destruct (feed_elapsed_within elapsed s) as (Hint & Havg & Hsum & Hcnt); [lia..|done|].
  fold s1 in Hint, Havg, Hsum, Hcnt.
  destruct (UpdateAverageFrameTime_run e s1) as (_ & _ & Hstep).
  cbv zeta in Hstep. fold s2 in Hstep.
  rewrite Hint, Hsum, Hcnt, Havg in Hstep.
  rewrite to_int32_small in Hstep by lia.
  assert (Htotal : PrimFloat.add (foldl PrimFloat.add (m_FrameTimeSum s) elapsed) e = total).
  { subst total. by rewrite foldl_snoc. }
  rewrite Htotal in Hstep. fold interval count in Hstep.
  split; [done|]. split; intros Hgt; rewrite Hgt in Hstep.
  - assert (Hc : (0 <? count) = true) by (apply Z.ltb_lt; subst count; lia).
    by rewrite Hc in Hstep.
  - done.
Qed.

(** ** Resize notifications and the framebuffer set *)

Lemma BackBufferResizing_run s :
  ∃ e, BackBufferResizing P s
       = (tt, set_ext e (set_m_SwapChainFramebuffers [] s),
          map PassBackBufferResizing (m_vRenderPasses s)).
Proof.
  unfold BackBufferResizing, bind, modify, gets. cbn [m_vRenderPasses set_m_SwapChainFramebuffers].
  destruct (for_each_ext_only (call_BackBufferResizing P)
              (λ it s, pass_BackBufferResizing P it (ext s))
              (λ it _, [PassBackBufferResizing it])
              (λ _ _, eq_refl) (λ _ _ _, eq_refl)
              (m_vRenderPasses s) (set_m_SwapChainFramebuffers [] s)) as [e He].
  exists e. rewrite He. by rewrite flat_map_singleton.
Qed.

Lemma BackBufferResized_notify_run s :
  ∃ e, BackBufferResized_notify P s
       = (tt, set_ext e s,
          map (λ it, PassBackBufferResized it
                       (backBufferWidth (m_DeviceParams s))
                       (backBufferHeight (m_DeviceParams s))
                       (swapChainSampleCount (m_DeviceParams s)))
              (m_vRenderPasses s)).
Proof.
  unfold BackBufferResized_notify, bind, gets.
  destruct (for_each_ext_only
              (λ it, bind (gets m_DeviceParams) (λ dp,
                 call_BackBufferResized P it
                   (backBufferWidth dp) (backBufferHeight dp) (swapChainSampleCount dp)))
              (λ it s, pass_BackBufferResized P it
                         (backBufferWidth (m_DeviceParams s))
                         (backBufferHeight (m_DeviceParams s))
                         (swapChainSampleCount (m_DeviceParams s)) (ext s))
              (λ it s, [PassBackBufferResized it
                          (backBufferWidth (m_DeviceParams s))
                          (backBufferHeight (m_DeviceParams s))
                          (swapChainSampleCount (m_DeviceParams s))])
              (λ _ _, eq_refl) (λ _ _ _, eq_refl)
              (m_vRenderPasses s) s) as [e He].
  exists e. unfold bind, gets in He. rewrite He. by rewrite flat_map_singleton.
Qed.

Lemma rebuild_loop_run (indices : list Z) s :
  for_each indices (λ index,
    bind (gets (λ s, GetBackBuffer P index (ext s))) (λ texture,
    bind (emit (DeviceCreateFramebuffer index)) (λ _,
    modify (λ s, set_m_SwapChainFramebuffers
      (<[Z.to_nat index :=
           createFramebuffer (addColorAttachment texture FramebufferDesc_default)]>
         (m_SwapChainFramebuffers s)) s)))) s
  = (tt,
     set_m_SwapChainFramebuffers
       (fill_framebuffers P (ext s) indices (m_SwapChainFramebuffers s)) s,
     map DeviceCreateFramebuffer indices).
Proof.
  revert s. induction indices as [|index indices IH]; intros s.
  - by destruct s.
  - cbn [for_each]. unfold bind at 1. unfold bind at 1, gets at 1.
    unfold bind at 1, emit at 1, modify at 1. rewrite IH. reflexivity.
Qed.

Lemma BackBufferResized_rebuild_run s :
  BackBufferResized_rebuild P s
  = (tt,
     set_m_SwapChainFramebuffers
       (fill_framebuffers P (ext s) (seqZ 0 (GetBackBufferCount P (ext s)))
          (resize (Z.to_nat (GetBackBufferCount P (ext s))) None (m_SwapChainFramebuffers s)))
       s,
     map DeviceCreateFramebuffer (seqZ 0 (GetBackBufferCount P (ext s)))).
Proof.
  unfold BackBufferResized_rebuild.
  unfold bind at 1, gets at 1. unfold bind at 1, modify at 1.
  rewrite rebuild_loop_run. reflexivity.
Qed.

Lemma fill_framebuffers_length (e : Ext) (indices : list Z) (v : list FramebufferHandle) :
  length (fill_framebuffers P e indices v) = length v.
Proof.
  unfold fill_framebuffers. revert v.
  induction indices as [|index indices IH]; intros v; [done|].
  cbn [foldl]. by rewrite IH, length_insert.
Qed.

Lemma fill_framebuffers_lookup (e : Ext) (indices : list Z) (v : list FramebufferHandle)
    (i : nat) :
  (i < length v)%nat →
  Forall (λ index, 0 ≤ index) indices →
  fill_framebuffers P e indices v !! i
  = if decide (Z.of_nat i ∈ indices) then Some (framebuffer_for P (Z.of_nat i) e)
    else v !! i.
Proof.
  unfold fill_framebuffers. revert v.
  induction indices as [|index indices IH]; intros v Hi Hpos.
  - cbn [foldl]. by rewrite decide_False by apply not_elem_of_nil.
  - cbn [foldl]. apply Forall_cons in Hpos as [Hindex Hpos].
    rewrite IH by (by rewrite ?length_insert).
    destruct (decide (Z.of_nat i ∈ indices)) as [Hrest|Hrest].
    + rewrite decide_True; [done|]. apply elem_of_cons. by right.
    + destruct (decide (Z.of_nat i = index)) as [<-|Hne].
      * rewrite decide_True by (apply elem_of_cons; by left).
        rewrite Nat2Z.id. by apply list_lookup_insert_eq.
      * rewrite decide_False.
        -- apply list_lookup_insert_ne. lia.
        -- intros [?|?]%elem_of_cons; done.
Qed.

Lemma BackBufferResized_rebuild_match s :
  framebuffers_match P (state (BackBufferResized_rebuild P s)).
Proof.
  rewrite BackBufferResized_rebuild_run. unfold framebuffers_match, state.
  cbn [fst snd m_SwapChainFramebuffers set_m_SwapChainFramebuffers ext].
  set (n := GetBackBufferCount P (ext s)).
  rewrite fill_framebuffers_length, length_resize. split; [done|].
  intros i Hi.
  rewrite fill_framebuffers_lookup.
  - rewrite decide_True; [done|]. apply elem_of_seqZ. lia.
  - by rewrite length_resize.
  - apply Forall_forall. intros index Hindex%elem_of_seqZ. lia.
Qed.

Lemma BackBufferResized_run s :
  ∃ e, BackBufferResized P s
       = (tt, state (BackBufferResized_rebuild P (set_ext e s)),
          map (λ it, PassBackBufferResized it
                       (backBufferWidth (m_DeviceParams s))
                       (backBufferHeight (m_DeviceParams s))
                       (swapChainSampleCount (m_DeviceParams s)))
              (m_vRenderPasses s)
          ++ map DeviceCreateFramebuffer (seqZ 0 (GetBackBufferCount P e))).
Proof.
  destruct (BackBufferResized_notify_run s) as [e He].
  exists e. unfold BackBufferResized, bind. rewrite He.
  by rewrite BackBufferResized_rebuild_run.
Qed.

Lemma BackBufferResized_match s : framebuffers_match P (state (BackBufferResized P s)).
Proof.
  destruct (BackBufferResized_run s) as [e ->]. apply BackBufferResized_rebuild_match.
Qed.

(** Symbolic execution of a computation: unfold the plumbing, and replace a
    call that has a run lemma by its outcome. *)
Ltac run_plumbing :=
  unfold bind, gets, ext_call, modify, emit, ret;
  cbn beta iota zeta delta [fst snd].

Lemma UpdateWindowSize_no_window s :
  m_NativeWindow s = None →
  UpdateWindowSize P s = (tt, set_m_windowVisible false s, []).
Proof. intros Hw. unfold UpdateWindowSize, bind, gets, modify. by rewrite Hw. Qed.

Lemma UpdateWindowSize_minimized s (w : ANativeWindow) :
  m_NativeWindow s = Some w →
  ANativeWindow_getWidth P w (ext s) = 0 ∨ ANativeWindow_getHeight P w (ext s) = 0 →
  UpdateWindowSize P s = (tt, set_m_windowVisible false s, []).
Proof.
  intros Hw Hzero. unfold UpdateWindowSize, bind, gets, modify. rewrite Hw.
  assert ((ANativeWindow_getWidth P w (ext s) =? 0)
          || (ANativeWindow_getHeight P w (ext s) =? 0) = true) as ->; [|done].
  apply orb_true_iff. destruct Hzero as [->| ->]; auto.
Qed.

Lemma UpdateWindowSize_unchanged s (w : ANativeWindow) :
  m_NativeWindow s = Some w →
  ANativeWindow_getWidth P w (ext s) ≠ 0 →
  ANativeWindow_getHeight P w (ext s) ≠ 0 →
  resize_needed P s (ANativeWindow_getWidth P w (ext s))
    (ANativeWindow_getHeight P w (ext s)) = false →
  UpdateWindowSize P s
  = (tt,
     set_m_DeviceParams (set_vsyncEnabled (m_RequestedVSync s) (m_DeviceParams s))
       (set_m_windowIsInFocus true (set_m_windowVisible true s)),
     []).
Proof.
  intros Hw Hwidth Hheight Hsame. unfold UpdateWindowSize.
  unfold bind at 1, gets at 1. rewrite Hw.
  unfold bind at 1, gets at 1. unfold bind at 1, gets at 1.
  rewrite (proj2 (Z.eqb_neq _ _) Hwidth), (proj2 (Z.eqb_neq _ _) Hheight).
  cbn [orb]. run_plumbing.
  unfold resize_needed in Hsame. cbn [m_DeviceParams m_RequestedVSync set_m_windowVisible
    set_m_windowIsInFocus]. rewrite Hsame. reflexivity.
Qed.

Lemma UpdateWindowSize_resize s (w : ANativeWindow) :
  m_NativeWindow s = Some w →
  ANativeWindow_getWidth P w (ext s) ≠ 0 →
  ANativeWindow_getHeight P w (ext s) ≠ 0 →
  resize_needed P s (ANativeWindow_getWidth P w (ext s))
    (ANativeWindow_getHeight P w (ext s)) = true →
  let width := ANativeWindow_getWidth P w (ext s) in
  let height := ANativeWindow_getHeight P w (ext s) in
  ∃ e,
    UpdateWindowSize P s
    = (tt,
       set_m_DeviceParams (resized_params s width height)
         (state (BackBufferResized_rebuild P (set_ext e (resizing_state s width height)))),
       map PassBackBufferResizing (m_vRenderPasses s)
       ++ [BackendResizeSwapChain]
       ++ map (λ it, PassBackBufferResized it (to_uint32 width) (to_uint32 height)
                       (swapChainSampleCount (m_DeviceParams s)))
              (m_vRenderPasses s)
       ++ map DeviceCreateFramebuffer (seqZ 0 (GetBackBufferCount P e))).
Proof.
  intros Hw Hwidth Hheight Hneed width height. unfold UpdateWindowSize.
  unfold bind at 1, gets at 1. rewrite Hw.
  unfold bind at 1, gets at 1. unfold bind at 1, gets at 1.
  rewrite (proj2 (Z.eqb_neq _ _) Hwidth), (proj2 (Z.eqb_neq _ _) Hheight).
  cbn [orb]. fold width height.
  unfold bind at 1, modify at 1. unfold bind at 1, modify at 1.
  unfold bind at 1, gets at 1. unfold bind at 1, gets at 1.
  unfold resize_needed in Hneed. fold width height in Hneed.
  cbn [m_DeviceParams m_RequestedVSync set_m_windowVisible set_m_windowIsInFocus].
  rewrite Hneed.
  run_plumbing.
  match goal with
  | |- context [BackBufferResizing P ?st] =>
      destruct (BackBufferResizing_run st) as [e1 He1]; rewrite He1; clear He1
  end.
  run_plumbing.
  match goal with
  | |- context [BackBufferResized P ?st] =>
      destruct (BackBufferResized_run st) as [e2 He2]; rewrite He2; clear He2
  end.
  exists e2. rewrite !BackBufferResized_rebuild_run. unfold state. cbn [fst snd].
  f_equal; try reflexivity.
  cbn [app]. by rewrite ?app_nil_r, <- ?app_assoc.
Qed.

Lemma framebuffers_match_set_m_DeviceParams (dp : DeviceCreationParameters) s :
  framebuffers_match P s → framebuffers_match P (set_m_DeviceParams dp s).
Proof. done. Qed.

Lemma UpdateWindowSize_log_nil_or_resize s :
  log (UpdateWindowSize P s) = [] ∨
  ∃ dp s', state (UpdateWindowSize P s) = set_m_DeviceParams dp (state (BackBufferResized_rebuild P s')).
Proof.
  destruct (m_NativeWindow s) as [w|] eqn:Hw.
  2: { left. by rewrite UpdateWindowSize_no_window. }
  destruct (decide (ANativeWindow_getWidth P w (ext s) = 0)) as [Hwidth|Hwidth].
  { left. rewrite (UpdateWindowSize_minimized s w); auto. }
  destruct (decide (ANativeWindow_getHeight P w (ext s) = 0)) as [Hheight|Hheight].
  { left. rewrite (UpdateWindowSize_minimized s w); auto. }
  destruct (resize_needed P s (ANativeWindow_getWidth P w (ext s))
              (ANativeWindow_getHeight P w (ext s))) eqn:Hneed.
  - right. destruct (UpdateWindowSize_resize s w Hw Hwidth Hheight Hneed) as [e ->].
    eauto.
  - left. by rewrite (UpdateWindowSize_unchanged s w).
Qed.

(** C2: right after BackBufferResized, whatever the state it started from,
    the framebuffer vector has as many entries as the backend reports back
    buffers and entry [i] is the framebuffer created over back buffer [i];
    hence, along any sequence of resize events, this holds after each event
    whose processing went through the resize sequence. *)
Theorem C2_framebuffers_match_backbuffers :
  (∀ s, framebuffers_match P (state (BackBufferResized P s))) ∧
  (∀ (events : list (Ext → Ext)) s,
     Forall (λ r, BackendResizeSwapChain ∈ r.2 → framebuffers_match P r.1)
            (process_resize_events P events s)).
Proof.
  split; [apply BackBufferResized_match|].
  intros events. induction events as [|change events IH]; intros s; cbn [process_resize_events].
  - apply Forall_nil_2.
  - apply Forall_cons. split; [|apply IH].
    cbn [fst snd]. intros Hin.
    destruct (UpdateWindowSize_log_nil_or_resize (set_ext (change (ext s)) s))
      as [Hnil|(dp & s' & ->)].
    + rewrite Hnil in Hin. by apply elem_of_nil in Hin.
    + apply framebuffers_match_set_m_DeviceParams, BackBufferResized_rebuild_match.
Qed.

(** C1 (amended): when UpdateWindowSize goes through a resize, the calls
    it makes are, in this order: BackBufferResizing on every registered pass
    in list order, the backend's ResizeSwapChain, BackBufferResized(width,
    height, sampleCount) on every registered pass in list order, and then
    the creation of one framebuffer per back buffer of the resized
    swapchain. *)
Theorem C1_resize_order (w : ANativeWindow) s :
  m_NativeWindow s = Some w →
  ANativeWindow_getWidth P w (ext s) ≠ 0 →
  ANativeWindow_getHeight P w (ext s) ≠ 0 →
  resize_needed P s (ANativeWindow_getWidth P w (ext s))
    (ANativeWindow_getHeight P w (ext s)) = true →
  let width := ANativeWindow_getWidth P w (ext s) in
  let height := ANativeWindow_getHeight P w (ext s) in
  let r := UpdateWindowSize P s in
  log r
  = map PassBackBufferResizing (m_vRenderPasses s)
    ++ [BackendResizeSwapChain]
    ++ map (λ it, PassBackBufferResized it (to_uint32 width) (to_uint32 height)
                    (swapChainSampleCount (m_DeviceParams s)))
           (m_vRenderPasses s)
    ++ map DeviceCreateFramebuffer (seqZ 0 (GetBackBufferCount P (ext (state r)))) ∧
  backBufferWidth (m_DeviceParams (state r)) = to_uint32 width ∧
  backBufferHeight (m_DeviceParams (state r)) = to_uint32 height ∧
  swapChainSampleCount (m_DeviceParams (state r)) = swapChainSampleCount (m_DeviceParams s) ∧
  framebuffers_match P (state r).
Proof.
  intros Hw Hwidth Hheight Hneed width height r.
  destruct (UpdateWindowSize_resize s w Hw Hwidth Hheight Hneed) as [e He].
  subst r. fold width height in He. rewrite He. unfold log, state at 1 2 3 4 5.
  cbn [fst snd]. rewrite BackBufferResized_rebuild_run. unfold state. cbn [fst snd].
  split_and!; try reflexivity.
  apply framebuffers_match_set_m_DeviceParams.
  pose proof (BackBufferResized_rebuild_match (set_ext e (resizing_state s width height))) as Hm.
  by rewrite BackBufferResized_rebuild_run in Hm.
Qed.

(** C9 (amended): with a native window of non-zero size, UpdateWindowSize
    goes through the resize sequence exactly when the surface width or
    height differs from the stored back-buffer width or height, or the
    requested vsync setting differs from the stored one and the graphics API
    is Vulkan; every pass is then notified of both steps.  Otherwise no call
    is made, the framebuffers stay, and the stored device parameters change
    in the vsync flag only, which takes the requested value. *)
Theorem C9_resize_trigger (w : ANativeWindow) s :
  m_NativeWindow s = Some w →
  ANativeWindow_getWidth P w (ext s) ≠ 0 →
  ANativeWindow_getHeight P w (ext s) ≠ 0 →
  let width := ANativeWindow_getWidth P w (ext s) in
  let height := ANativeWindow_getHeight P w (ext s) in
  let dp := m_DeviceParams s in
  let r := UpdateWindowSize P s in
  let differs :=
    to_int32 (backBufferWidth dp) ≠ width ∨ to_int32 (backBufferHeight dp) ≠ height ∨
    (vsyncEnabled dp ≠ m_RequestedVSync s ∧ GetGraphicsAPI P = VULKAN) in
  (BackendResizeSwapChain ∈ log r ↔ differs) ∧
  (differs →
     ∀ p, p ∈ m_vRenderPasses s →
       PassBackBufferResizing p ∈ log r ∧
       PassBackBufferResized p (to_uint32 width) (to_uint32 height)
         (swapChainSampleCount dp) ∈ log r) ∧
  (¬ differs →
     log r = [] ∧
     m_DeviceParams (state r) = set_vsyncEnabled (m_RequestedVSync s) dp ∧
     m_SwapChainFramebuffers (state r) = m_SwapChainFramebuffers s ∧
     m_vRenderPasses (state r) = m_vRenderPasses s ∧
     ext (state r) = ext s).
Proof.
  intros Hw Hwidth Hheight width height dp r differs.
  assert (Hiff : resize_needed P s width height = true ↔ differs).
  { unfold resize_needed, differs. fold dp.
    rewrite !orb_true_iff, andb_true_iff, !negb_true_iff, !Z.eqb_neq, bool_decide_eq_true.
    rewrite eqb_false_iff. tauto. }
  destruct (resize_needed P s width height) eqn:Hneed.
  - destruct (UpdateWindowSize_resize s w Hw Hwidth Hheight Hneed) as [e He].
    subst r. fold width height in He. rewrite He. unfold log. cbn [fst snd].
    assert (Hmid : BackendResizeSwapChain ∈
              map PassBackBufferResizing (m_vRenderPasses s) ++ [BackendResizeSwapChain] ++
              map (λ it, PassBackBufferResized it (to_uint32 width) (to_uint32 height)
                           (swapChainSampleCount (m_DeviceParams s))) (m_vRenderPasses s) ++
              map DeviceCreateFramebuffer (seqZ 0 (GetBackBufferCount P e))).
    { apply elem_of_app. right. apply elem_of_cons. by left. }
    split_and!.
    + split; [intros _; by apply Hiff | done].
    + intros _ p Hp. split.
      * apply elem_of_app. left. by apply (list_elem_of_fmap_2 PassBackBufferResizing).
      * apply elem_of_app. right. apply elem_of_cons. right. apply elem_of_app. left.
        by apply (list_elem_of_fmap_2
                    (λ it, PassBackBufferResized it (to_uint32 width) (to_uint32 height)
                             (swapChainSampleCount (m_DeviceParams s)))).
    + intros Hno. destruct Hno. by apply Hiff.
  - assert (Hno : ¬ differs) by (intros Hd; apply Hiff in Hd; done).
    subst r. rewrite (UpdateWindowSize_unchanged s w Hw Hwidth Hheight Hneed).
    unfold log, state. cbn [fst snd].
    split_and!.
    + split; [intros Hin; by apply elem_of_nil in Hin | done].
    + done.
    + done.
Qed.

(** ** Input routing *)

Lemma dispatch_loop_calls (args : InputEvent) (its : list IRenderPass) s :
  ∃ calls : list (IRenderPass * bool),
    log (dispatch_loop P args its s) = map (λ c, PassInput c.1 args c.2) calls ∧
    calls.*1 `prefix_of` its ∧
    (∀ (i : nat) p, calls !! i = Some (p, true) → S i = length calls) ∧
    (calls.*1 = its ∨ ∃ p, last calls = Some (p, true)).
Proof.
  revert s. induction its as [|it its IH]; intros s.
  - exists []. split_and!; [done|done| |by left].
    intros i p Hi. by rewrite lookup_nil in Hi.
  - cbn [dispatch_loop]. unfold bind at 1, ext_query at 1.
    destruct (pass_Input P it args (ext s)) as [consumed e].
    unfold bind at 1, emit at 1. destruct consumed.
    + exists [(it, true)]. split_and!.
      * done.
      * by apply prefix_cons, prefix_nil.
      * intros [|i] p Hi; [done|]. cbn in Hi. discriminate Hi.
      * right. by exists it.
    + destruct (IH (set_ext e s)) as (calls & Hlog & Hprefix & Hlast & Hend).
      exists ((it, false) :: calls). split_and!.
      * unfold log in *. destruct (dispatch_loop P args its (set_ext e s)) as [[u s'] l].
        cbn [fst snd] in *. cbn [app map]. by rewrite Hlog.
      * cbn [fmap list_fmap fst]. by apply prefix_cons.
      * intros [|i] p Hi; [done|]. cbn [lookup list_lookup length] in *.
        f_equal. by apply (Hlast i p).
      * destruct Hend as [Hall|[p Hp]].
        -- left. cbn [fmap list_fmap fst]. by rewrite <- Hall.
        -- right. exists p. destruct calls; [done|]. done.
Qed.

Lemma route_input_dispatch (args : InputEvent) s :
  route_input P args s
  = dispatch_loop P (delivered_args s args) (reverse (m_vRenderPasses s)) s.
Proof.
  destruct args; cbn [route_input delivered_args];
    unfold KeyboardUpdate, KeyboardCharInput, MousePosUpdate, MouseButtonUpdate,
      MouseScrollUpdate, bind, gets; cbn [app];
    try (by destruct (dispatch_loop _ _ _ _) as [[? ?] ?]).
  destruct (supportExplicitDisplayScaling (m_DeviceParams s));
    by destruct (dispatch_loop _ _ _ _) as [[? ?] ?].
Qed.

(** C3 (amended): an input event entering through any of the five entry
    points is offered to the passes in reverse list order, the pass at the
    back of the list first and the pass at the front last, each through the
    handler of that event; the first pass that answers [true] is the last one
    called, and when none does every pass has been called once, in that
    order. *)
Theorem C3_input_dispatch_back_to_front (args : InputEvent) s :
  let passes := m_vRenderPasses s in
  ∃ calls : list (IRenderPass * bool),
    log (route_input P args s)
    = map (λ c, PassInput c.1 (delivered_args s args) c.2) calls ∧
    calls.*1 `prefix_of` reverse passes ∧
    (∀ (i : nat) p, calls !! i = Some (p, true) → S i = length calls) ∧
    (calls.*1 = reverse passes ∨ ∃ p, last calls = Some (p, true)) ∧
    ((∀ c, c ∈ calls → c.2 = false) → calls.*1 = reverse passes) ∧
    (∀ p rest, passes = rest ++ [p] → ∃ consumed, head calls = Some (p, consumed)).
Proof.
  intros passes. rewrite route_input_dispatch.
  destruct (dispatch_loop_calls (delivered_args s args) (reverse passes) s)
    as (calls & Hlog & Hprefix & Hlast & Hend).
  exists calls. split_and!; try done.
  - intros Hnone. destruct Hend as [Hall|[p Hp]]; [done|].
    apply last_Some in Hp as [calls' ->].
    specialize (Hnone (p, true)). cbn [snd] in Hnone.
    discriminate Hnone. apply elem_of_app. right. by apply list_elem_of_singleton.
  - intros p rest Hpasses. rewrite Hpasses, reverse_snoc in Hprefix, Hend.
    destruct calls as [|[q b] calls].
    + destruct Hend as [Hall|[q Hq]]; done.
    + exists b. cbn [head]. destruct Hprefix as [k Hk].
      cbn [fmap list_fmap fst app] in Hk. by injection Hk as -> _.
Qed.

(** ** The tick *)

Lemma DisplayScaleChanged_run s :
  ∃ e, DisplayScaleChanged P s
       = (tt, set_ext e s,
          map (λ it, PassDisplayScaleChanged it (m_DPIScaleFactorX s) (m_DPIScaleFactorY s))
              (m_vRenderPasses s)).
Proof.
  unfold DisplayScaleChanged. unfold bind at 1, gets at 1.
  destruct (for_each_ext_only
              (λ it, bind (gets m_DPIScaleFactorX) (λ sx,
                     bind (gets m_DPIScaleFactorY) (λ sy,
                     bind (emit (PassDisplayScaleChanged it sx sy)) (λ _,
                     ext_call (pass_DisplayScaleChanged P it sx sy)))))
              (λ it s, pass_DisplayScaleChanged P it (m_DPIScaleFactorX s)
                         (m_DPIScaleFactorY s) (ext s))
              (λ it s, [PassDisplayScaleChanged it (m_DPIScaleFactorX s) (m_DPIScaleFactorY s)])
              (λ _ _, eq_refl) (λ _ _ _, eq_refl)
              (m_vRenderPasses s) s) as [e He].
  exists e. rewrite He. by rewrite flat_map_singleton.
Qed.

Lemma Animate_run (elapsedTime : float) s :
  ∃ e, Animate P elapsedTime s
       = (tt, set_ext e s, animate_log (m_vRenderPasses s) elapsedTime).
Proof.
  unfold Animate. unfold bind at 1, gets at 1.
  destruct (for_each_ext_only
              (λ it, bind (emit (PassAnimate it (float_of_double elapsedTime))) (λ _,
                     bind (ext_call (pass_Animate P it (float_of_double elapsedTime))) (λ _,
                     bind (emit (PassSetLatewarpOptions it)) (λ _,
                     ext_call (pass_SetLatewarpOptions P it)))))
              (λ it s, pass_SetLatewarpOptions P it
                         (pass_Animate P it (float_of_double elapsedTime) (ext s)))
              (λ it _, [PassAnimate it (float_of_double elapsedTime);
                        PassSetLatewarpOptions it])
              (λ _ _, eq_refl) (λ _ _ _, eq_refl)
              (m_vRenderPasses s) s) as [e He].
  exists e. by rewrite He.
Qed.

Lemma Render_run s :
  ∃ e, Render P s
       = (tt, set_ext e s,
          map (λ it, PassRender it
                       (vector_at (m_SwapChainFramebuffers s)
                          (GetCurrentBackBufferIndex P (ext s))))
              (m_vRenderPasses s)).
Proof.
  unfold Render. unfold bind at 1, gets at 1. unfold bind at 1, gets at 1.
  unfold bind at 1, gets at 1.
  set (framebuffer := vector_at (m_SwapChainFramebuffers s)
                        (GetCurrentBackBufferIndex P (ext s))).
  destruct (for_each_ext_only
              (λ it, bind (emit (PassRender it framebuffer)) (λ _,
                     ext_call (pass_Render P it framebuffer)))
              (λ it s, pass_Render P it framebuffer (ext s))
              (λ it _, [PassRender it framebuffer])
              (λ _ _, eq_refl) (λ _ _ _, eq_refl)
              (m_vRenderPasses s) s) as [e He].
  exists e. rewrite He. by rewrite flat_map_singleton.
Qed.

Lemma call_hook_run (h : Hook) (frameIndex : Z) s :
  ∃ e, call_hook P h frameIndex s
       = (tt, set_ext e s, hook_log (m_callbacks s) h frameIndex).
Proof.
  unfold call_hook, hook_log, bind, gets, emit, ext_call, modify, ret.
  destruct (m_callbacks s h).
  - by eexists.
  - exists (ext s). by rewrite set_ext_ext.
Qed.

(** Projections of updated records. *)
Ltac state_simpl :=
  cbn [fst snd
    m_SkipRenderOnFirstFrame m_windowVisible m_windowIsInFocus m_DeviceParams m_NativeWindow
    m_EnableRenderDuringWindowMovement m_vRenderPasses m_PreviousFrameTimestamp
    m_DPIScaleFactorX m_DPIScaleFactorY m_PrevDPIScaleFactorX m_PrevDPIScaleFactorY
    m_RequestedVSync m_InstanceCreated m_AverageFrameTime m_AverageTimeUpdateInterval
    m_FrameTimeSum m_NumberOfAccumulatedFrames m_FrameIndex m_SwapChainFramebuffers
    m_callbacks m_WindowTitle m_DeviceIDs m_RemovedDevices ext set_m_windowVisible
    set_m_windowIsInFocus set_m_DeviceParams set_m_NativeWindow set_m_vRenderPasses
    set_m_PreviousFrameTimestamp set_m_DPIScaleFactorX set_m_DPIScaleFactorY
    set_m_PrevDPIScaleFactorX set_m_PrevDPIScaleFactorY set_m_RequestedVSync
    set_m_InstanceCreated set_m_AverageFrameTime set_m_FrameTimeSum
    set_m_NumberOfAccumulatedFrames set_m_FrameIndex set_m_SwapChainFramebuffers
    set_m_WindowTitle set_m_DeviceIDs set_m_RemovedDevices set_ext].

(** One step of symbolic execution: a call with a run lemma is replaced by
    its outcome, an oracle's answer is named, a branch is chosen. *)
Ltac run_sub :=
  let e := fresh "e" in
  let H := fresh "Hrun" in
  match goal with
  | |- context [DisplayScaleChanged P ?st] =>
      destruct (DisplayScaleChanged_run st) as [e H]; rewrite H; clear H
  | |- context [Animate P ?el ?st] =>
      destruct (Animate_run el st) as [e H]; rewrite H; clear H
  | |- context [Render P ?st] =>
      destruct (Render_run st) as [e H]; rewrite H; clear H
  | |- context [call_hook P ?h ?i ?st] =>
      destruct (call_hook_run h i st) as [e H]; rewrite H; clear H
  end.

Ltac run_oracle :=
  let r := fresh "answer" in
  let e := fresh "e" in
  match goal with
  | |- context [BeginFrame P ?dp ?x] => destruct (BeginFrame P dp x) as [r e]
  | |- context [Present P ?dp ?x] => destruct (Present P dp x) as [r e]
  | |- context [clock_gettime P ?x] => destruct (clock_gettime P x) as [r e]
  | |- context [waitForIdle P ?x] => destruct (waitForIdle P x) as [r e]
  end.

Ltac run_branch :=
  match goal with
  | |- context [if ?c then _ else _] => destruct c eqn:?
  end.

Ltac run_steps :=
  repeat first [ run_sub | progress run_plumbing | progress state_simpl
               | progress unfold ext_query | run_oracle | run_branch ].

(** Witnesses read off the executed log; any value does where the call
    was not made. *)
Ltac pick_began :=
  first [ match goal with |- context [BackendBeginFrame ?b :: _] => exists b end
        | exists true ].

Ltac pick_present :=
  first [ match goal with |- context [BackendPresent ?r :: _] => exists r end
        | exists true ].

Ltac pick_framebuffer :=
  first [ match goal with |- context [map (λ it, PassRender it ?fb) _] => exists fb end
        | exists None ].

Lemma AnimateRenderPresent_active_run (elapsedTime : float) s :
  ∃ (scaleChanged : list Event) (began presentSuccess : bool)
    (framebuffer : option FramebufferHandle),
    result (AnimateRenderPresent_active P elapsedTime s)
    = (if (0 <? m_FrameIndex s) || negb (m_SkipRenderOnFirstFrame s)
       then if began then presentSuccess else true else true) ∧
    log (AnimateRenderPresent_active P elapsedTime s)
    = active_log (m_callbacks s) (m_vRenderPasses s) elapsedTime (m_FrameIndex s)
        (m_SkipRenderOnFirstFrame s) scaleChanged began presentSuccess framebuffer ∧
    Forall (λ e, is_PassDisplayScaleChanged e = true) scaleChanged.
Proof.
  unfold AnimateRenderPresent_active, result, log, active_log, render_present_log.
  run_plumbing.
  destruct (float_neq (m_PrevDPIScaleFactorX s) (m_DPIScaleFactorX s)
            || float_neq (m_PrevDPIScaleFactorY s) (m_DPIScaleFactorY s)).
  - exists (map (λ it, PassDisplayScaleChanged it (m_DPIScaleFactorX s) (m_DPIScaleFactorY s))
                (m_vRenderPasses s)).
    run_steps.
    all: cbn [app]; rewrite ?app_nil_r.
    all: pick_began; pick_present; pick_framebuffer.
    all: split_and!; [reflexivity|reflexivity|].
    all: apply Forall_forall; intros ? (it & -> & _)%list_elem_of_fmap; done.
  - exists [].
    run_steps.
    all: cbn [app]; rewrite ?app_nil_r.
    all: pick_began; pick_present; pick_framebuffer.
    all: split_and!; [reflexivity|reflexivity|apply Forall_nil_2].
Qed.

Lemma ShouldRenderUnfocused_loop_run (its : list IRenderPass) s :
  ∃ (answer : bool) (e : Ext) (l : list Event),
    ShouldRenderUnfocused_loop P its s = (answer, set_ext e s, l) ∧
    Forall (λ ev, is_PassShouldRenderUnfocused ev = true) l.
Proof.
  revert s. induction its as [|it its IH]; intros s.
  - exists false, (ext s), []. by rewrite set_ext_ext.
  - cbn [ShouldRenderUnfocused_loop]. unfold bind at 1, ext_query at 1.
    destruct (pass_ShouldRenderUnfocused P it (ext s)) as [r e].
    unfold bind at 1, emit at 1. destruct r.
    + exists true, e, [PassShouldRenderUnfocused it true]. split; [done|].
      by apply Forall_cons.
    + destruct (IH (set_ext e s)) as (answer & e' & l & -> & Hl).
      exists answer, e', (PassShouldRenderUnfocused it false :: l). split; [done|].
      by apply Forall_cons.
Qed.

Lemma ShouldRenderUnfocused_run s :
  ∃ (answer : bool) (e : Ext) (l : list Event),
    ShouldRenderUnfocused P s = (answer, set_ext e s, l) ∧
    Forall (λ ev, is_PassShouldRenderUnfocused ev = true) l.
Proof.
  unfold ShouldRenderUnfocused, bind, gets.
  destruct (ShouldRenderUnfocused_loop_run (reverse (m_vRenderPasses s)) s)
    as (answer & e & l & -> & Hl).
  by exists answer, e, l.
Qed.

Lemma UpdateAllInputs_run (passes : list IRenderPass) s :
  UpdateAllInputs passes s = (tt, s, []).
Proof.
  unfold UpdateAllInputs, bind, gets.
  assert (Hloop : ∀ ids, for_each ids (λ j, UpdateGamepad j passes) s = (tt, s, [])).
  { induction ids as [|j ids IH]; [done|].
    cbn [for_each]. unfold UpdateGamepad at 1. run_plumbing. by rewrite IH. }
  by rewrite Hloop.
Qed.

Lemma UpdateAverageFrameTime_log (elapsedTime : float) s :
  ∃ s', UpdateAverageFrameTime elapsedTime s = (tt, s', []).
Proof.
  destruct (UpdateAverageFrameTime_run elapsedTime s) as (Hlog & _).
  unfold log in Hlog. destruct (UpdateAverageFrameTime elapsedTime s) as [[[] s'] l].
  cbn [snd] in Hlog. subst l. by exists s'.
Qed.

Lemma AnimateRenderPresent_finish_run (elapsedTime curTime : float) s :
  ∃ s', AnimateRenderPresent_finish P elapsedTime curTime s
        = (true, s', [ThreadSleep; DeviceRunGarbageCollection]).
Proof.
  unfold AnimateRenderPresent_finish. run_plumbing.
  match goal with
  | |- context [UpdateAverageFrameTime ?el ?st] =>
      destruct (UpdateAverageFrameTime_log el st) as [s' ->]
  end.
  by eexists.
Qed.

(** The log of a whole tick: the unfocused-rendering queries, then the
    guarded part when the window is visible and either in focus or wanted by
    a pass, then the sleep and garbage collection unless the tick has left
    early. *)
Lemma AnimateRenderPresent_run s :
  ∃ (unfocused : list Event) (active : bool) (elapsedTime : float)
    (scaleChanged : list Event) (began presentSuccess : bool)
    (framebuffer : option FramebufferHandle),
    let inner := if (0 <? m_FrameIndex s) || negb (m_SkipRenderOnFirstFrame s)
                 then if began then presentSuccess else true else true in
    let carryOn := if active then inner else true in
    result (AnimateRenderPresent P s) = carryOn ∧
    log (AnimateRenderPresent P s)
    = unfocused
      ++ (if active then
            active_log (m_callbacks s) (m_vRenderPasses s) elapsedTime (m_FrameIndex s)
              (m_SkipRenderOnFirstFrame s) scaleChanged began presentSuccess framebuffer
          else [])
      ++ (if carryOn then [ThreadSleep; DeviceRunGarbageCollection] else []) ∧
    Forall (λ ev, is_PassShouldRenderUnfocused ev = true) unfocused ∧
    Forall (λ ev, is_PassDisplayScaleChanged ev = true) scaleChanged ∧
    (m_windowVisible s = true → m_windowIsInFocus s = true → active = true) ∧
    (m_windowVisible s = false → active = false).
Proof.
  unfold AnimateRenderPresent, current_time. run_plumbing. unfold ext_query.
  destruct (clock_gettime P (ext s)) as [now e0]. run_plumbing.
  unfold EraseDisconnectedDevices, modify. rewrite UpdateAllInputs_run.
  run_plumbing. state_simpl.
  set (curTime := PrimFloat.add _ _).
  set (elapsedTime := PrimFloat.sub _ _).
  set (s0 := set_m_RemovedDevices _ _).
  assert (Hactive : ∀ (unfocused : list Event) (e : Ext),
    Forall (λ ev, is_PassShouldRenderUnfocused ev = true) unfocused →
    ∃ (scaleChanged : list Event) (began presentSuccess : bool)
      (framebuffer : option FramebufferHandle),
      let inner := if (0 <? m_FrameIndex s) || negb (m_SkipRenderOnFirstFrame s)
                   then if began then presentSuccess else true else true in
      let r := AnimateRenderPresent_active P elapsedTime (set_ext e s0) in
      let r' := (if result r then AnimateRenderPresent_finish P elapsedTime curTime
                 else λ s2, (false, s2, [])) (state r) in
      result r' = inner ∧
      unfocused ++ log r ++ log r'
      = unfocused
        ++ active_log (m_callbacks s) (m_vRenderPasses s) elapsedTime (m_FrameIndex s)
             (m_SkipRenderOnFirstFrame s) scaleChanged began presentSuccess framebuffer
        ++ (if inner then [ThreadSleep; DeviceRunGarbageCollection] else []) ∧
      Forall (λ ev, is_PassDisplayScaleChanged ev = true) scaleChanged).
  { intros unfocused e Hunfocused.
    destruct (AnimateRenderPresent_active_run elapsedTime (set_ext e s0))
      as (scaleChanged & began & presentSuccess & framebuffer & Hres & Hlog & Hsc).
    exists scaleChanged, began, presentSuccess, framebuffer.
    cbv zeta. rewrite Hres, Hlog. subst s0. state_simpl.
    destruct (if (0 <? m_FrameIndex s) || negb (m_SkipRenderOnFirstFrame s)
              then if began then presentSuccess else true else true).
    - destruct (AnimateRenderPresent_finish_run elapsedTime curTime
                  (state (AnimateRenderPresent_active P elapsedTime
                            (set_ext e (set_m_RemovedDevices []
                               (set_m_DeviceIDs
                                  (foldl (λ ids id, erase_first id ids) (m_DeviceIDs s)
                                     (reverse (m_RemovedDevices s)))
                                  (set_ext e0 s))))))) as [s' ->].
      done.
    - done. }
  assert (Hidle : ∀ s1,
    ∃ s', AnimateRenderPresent_finish P elapsedTime curTime s1
          = (true, s', [ThreadSleep; DeviceRunGarbageCollection]))
    by (intros s1; apply AnimateRenderPresent_finish_run).
  destruct (m_windowVisible s) eqn:Hvis; [destruct (m_windowIsInFocus s) eqn:Hfoc|];
    cbn [andb orb negb].
  - destruct (Hactive [] (ext s0)) as (sc & began & ps & fb & Hres & Hlog & Hsc);
      [apply Forall_nil_2|].
    rewrite set_ext_ext in Hres, Hlog. cbv zeta in Hres, Hlog.
    unfold result, state, log in *.
    destruct (AnimateRenderPresent_active P elapsedTime s0) as [[a0 s2] l0].
    cbn [fst snd] in *.
    destruct ((if a0 then AnimateRenderPresent_finish P elapsedTime curTime
               else λ s3, (false, s3, [])) s2) as [[b s3] l2].
    cbn [fst snd app] in *.
    exists [], true, elapsedTime, sc, began, ps, fb.
    split_and!; done.
  - destruct (ShouldRenderUnfocused_run s0) as (answer & e & l & Heq & Hl).
    rewrite Heq. destruct answer.
    + destruct (Hactive l e Hl) as (sc & began & ps & fb & Hres & Hlog & Hsc).
      cbv zeta in Hres, Hlog. unfold result, state, log in *.
      destruct (AnimateRenderPresent_active P elapsedTime (set_ext e s0)) as [[a0 s2] l0].
      cbn [fst snd] in *.
      destruct ((if a0 then AnimateRenderPresent_finish P elapsedTime curTime
                 else λ s3, (false, s3, [])) s2) as [[b s3] l2].
      cbn [fst snd app] in *.
      exists l, true, elapsedTime, sc, began, ps, fb.
      split_and!; try done.
    + destruct (Hidle (set_ext e s0)) as [s' Hs'].
      unfold result, log. rewrite Hs'. cbn [fst snd app].
      exists l, false, elapsedTime, [], true, true, None.
      split_and!; done.
  - destruct (Hidle s0) as [s' Hs'].
    unfold result, log. rewrite Hs'. cbn [fst snd app].
    exists [], false, elapsedTime, [], true, true, None.
    split_and!; done.
Qed.


(** A property of events holds along the guarded part of a tick as soon as
    it holds for each call the part can make. *)
Lemma hook_log_Forall (Q : Event → Prop) (cb : PipelineCallbacks) (h : Hook) (i : Z) :
  (cb h = true → Q (HookCall h i)) → Forall Q (hook_log cb h i).
Proof.
  intros HQ. unfold hook_log. destruct (cb h); [|apply Forall_nil_2].
  apply Forall_cons. split; [by apply HQ|apply Forall_nil_2].
Qed.

Lemma animate_log_Forall (Q : Event → Prop) (passes : list IRenderPass) (el : float) :
  (∀ p, p ∈ passes → Q (PassAnimate p (float_of_double el)) ∧ Q (PassSetLatewarpOptions p)) →
  Forall Q (animate_log passes el).
Proof.
  intros HQ. unfold animate_log. induction passes as [|p passes IH]; [apply Forall_nil_2|].
  cbn [flat_map app]. destruct (HQ p) as [Ha Hl]; [apply elem_of_cons; by left|].
  apply Forall_cons. split; [done|]. apply Forall_cons. split; [done|].
  apply IH. intros q Hq. apply HQ. apply elem_of_cons. by right.
Qed.

Lemma render_present_log_Forall (Q : Event → Prop) (cb : PipelineCallbacks)
    (passes : list IRenderPass) (fi : Z) (fb : option FramebufferHandle) (ok : bool) :
  (∀ h, h ∈ [beforeRender; afterRender; beforePresent; afterPresent] →
        cb h = true → Q (HookCall h fi)) →
  (∀ p, p ∈ passes → Q (PassRender p fb)) →
  Q (BackendPresent ok) →
  Forall Q (render_present_log cb passes fi fb ok).
Proof.
  intros Hhook Hrender Hpresent. unfold render_present_log.
  repeat (first [apply Forall_app; split | apply Forall_cons; split]); try done.
  - apply hook_log_Forall, Hhook. repeat constructor.
  - apply Forall_forall. intros e (p & -> & Hp)%list_elem_of_fmap. by apply Hrender.
  - apply hook_log_Forall, Hhook. repeat constructor.
  - apply hook_log_Forall, Hhook. repeat constructor.
  - apply hook_log_Forall, Hhook. repeat constructor.
Qed.

Lemma active_log_Forall (Q : Event → Prop) (cb : PipelineCallbacks)
    (passes : list IRenderPass) (el : float) (sim : Z) (skip : bool)
    (scaleChanged : list Event) (began ok : bool) (fb : option FramebufferHandle) :
  Forall Q scaleChanged →
  (∀ h, h ∈ [beforeAnimate; afterAnimate] → cb h = true → Q (HookCall h sim)) →
  (∀ p, p ∈ passes → Q (PassAnimate p (float_of_double el)) ∧ Q (PassSetLatewarpOptions p)) →
  ((0 <? sim) || negb skip = true →
     Q (BackendBeginFrame began) ∧
     (began = true →
        Forall Q (render_present_log cb passes (if skip then to_uint32 (sim - 1) else sim)
                    fb ok))) →
  Forall Q (active_log cb passes el sim skip scaleChanged began ok fb).
Proof.
  intros Hsc Hhook Hanimate Hrender. unfold active_log.
  repeat (apply Forall_app; split); try done.
  - apply hook_log_Forall, Hhook. repeat constructor.
  - by apply animate_log_Forall.
  - apply hook_log_Forall, Hhook. repeat constructor.
  - destruct ((0 <? sim) || negb skip); [|apply Forall_nil_2].
    destruct Hrender as [Hbegin Hrest]; [done|].
    apply Forall_cons. split; [done|].
    destruct began; [by apply Hrest|apply Forall_nil_2].
Qed.

Lemma Forall_kind_impl (kind : Event → bool) (Q : Event → Prop) (l : list Event) :
  Forall (λ ev, kind ev = true) l →
  (∀ ev, kind ev = true → Q ev) →
  Forall Q l.
Proof. intros Hl HQ. eapply Forall_impl; [exact Hl|]. intros ev. apply HQ. Qed.

(** A property of events holds along a whole tick as soon as it holds for
    the calls of the guarded part and for the calls around it. *)
Lemma AnimateRenderPresent_log_Forall (Q : Event → Prop) s :
  (∀ p answer, Q (PassShouldRenderUnfocused p answer)) →
  (∀ p sx sy, Q (PassDisplayScaleChanged p sx sy)) →
  (∀ p dt, Q (PassAnimate p dt)) →
  (∀ p, Q (PassSetLatewarpOptions p)) →
  Q ThreadSleep → Q DeviceRunGarbageCollection →
  (∀ h, h ∈ [beforeAnimate; afterAnimate] → Q (HookCall h (m_FrameIndex s))) →
  ((0 <? m_FrameIndex s) || negb (m_SkipRenderOnFirstFrame s) = true →
     (∀ began, Q (BackendBeginFrame began)) ∧
     (∀ p fb, Q (PassRender p fb)) ∧
     (∀ ok, Q (BackendPresent ok)) ∧
     (∀ h, h ∈ [beforeRender; afterRender; beforePresent; afterPresent] →
        Q (HookCall h (if m_SkipRenderOnFirstFrame s
                       then to_uint32 (m_FrameIndex s - 1) else m_FrameIndex s)))) →
  Forall Q (log (AnimateRenderPresent P s)).
Proof.
  intros Hunf Hdsc Hanim Hlate Hsleep Hgc Hhook Hrender.
  destruct (AnimateRenderPresent_run s)
    as (unfocused & active & el & sc & began & ok & fb & _ & -> & Hu & Hs & _).
  repeat (apply Forall_app; split).
  - apply (Forall_kind_impl _ _ _ Hu). by intros [].
  - destruct active; [|apply Forall_nil_2].
    apply active_log_Forall.
    + apply (Forall_kind_impl _ _ _ Hs). by intros [].
    + intros h Hh _. by apply Hhook.
    + done.
    + intros Hcond. destruct (Hrender Hcond) as (Hb & Hr & Hp & Hh).
      split; [done|]. intros _. apply render_present_log_Forall; [|done|done].
      intros h Hin _. by apply Hh.
  - match goal with |- Forall _ (if ?c then _ else _) => destruct c end;
      [|apply Forall_nil_2].
    by repeat (apply Forall_cons; split).
Qed.

Lemma hook_log_elem (cb : PipelineCallbacks) (h : Hook) (i : Z) :
  cb h = true → HookCall h i ∈ hook_log cb h i.
Proof. intros Hcb. unfold hook_log. rewrite Hcb. apply elem_of_cons. by left. Qed.

Lemma animate_log_elem (passes : list IRenderPass) (el : float) p :
  p ∈ passes → PassAnimate p (float_of_double el) ∈ animate_log passes el.
Proof.
  intros Hp. unfold animate_log. apply list_elem_of_In, in_flat_map.
  exists p. split; [by apply list_elem_of_In|]. by left.
Qed.

Lemma render_log_elem (passes : list IRenderPass) (fb : option FramebufferHandle) p :
  p ∈ passes → PassRender p fb ∈ map (λ it, PassRender it fb) passes.
Proof. intros Hp. by apply (list_elem_of_fmap_2 (λ it, PassRender it fb)). Qed.

(** Search for an event through the appended pieces of a log. *)
Ltac in_log :=
  solve
    [ by apply hook_log_elem
    | by apply animate_log_elem
    | by apply render_log_elem
    | apply elem_of_cons; left; reflexivity
    | apply elem_of_cons; right; in_log
    | apply elem_of_app; left; in_log
    | apply elem_of_app; right; in_log ].

Lemma hook_frameIndex_render (skip : bool) (sim : Z) (h : Hook) :
  0 ≤ sim < 2 ^ 32 →
  (0 <? sim) || negb skip = true →
  h ∈ [beforeRender; afterRender; beforePresent; afterPresent] →
  (if skip then to_uint32 (sim - 1) else sim) = hook_frameIndex skip sim h.
Proof.
  intros Hsim Hcond Hh.
  assert (Hidx : (if skip then to_uint32 (sim - 1) else sim) = (if skip then sim - 1 else sim)).
  { destruct skip; [|done]. rewrite orb_false_r in Hcond. apply Z.ltb_lt in Hcond.
    apply to_uint32_small. lia. }
  rewrite Hidx.
  repeat (apply elem_of_cons in Hh as [->|Hh]; [done|]). by apply elem_of_nil in Hh.
Qed.

(** C7: in a tick, beforeAnimate and afterAnimate receive the simulation
    frame index, and the four render and present hooks receive it minus one
    when skip-render-on-first-frame is enabled and unchanged when it is
    disabled.  With the mode enabled the tick at simulation index 0 makes no
    BeginFrame, Render or Present call and calls none of the four hooks.  In
    a visible, focused window every tick animates every pass, and every tick
    other than that skipped one attempts BeginFrame and, when it succeeds,
    renders every pass and presents, the hooks registered being called with
    the indices above; in particular the first tick renders when the mode is
    disabled. *)
Theorem C7_skip_render_frame_index s :
  0 ≤ m_FrameIndex s < 2 ^ 32 →
  let r := AnimateRenderPresent P s in
  let sim := m_FrameIndex s in
  let skip := m_SkipRenderOnFirstFrame s in
  let registered := m_callbacks s in
  (∀ h i, HookCall h i ∈ log r → i = hook_frameIndex skip sim h) ∧
  (skip = true → sim = 0 → ∀ e, e ∈ log r → is_render_or_present e = false) ∧
  (m_windowVisible s = true → m_windowIsInFocus s = true →
     (∀ p, p ∈ m_vRenderPasses s → ∃ dt, PassAnimate p dt ∈ log r) ∧
     (∀ h, h ∈ [beforeAnimate; afterAnimate] → registered h = true →
           HookCall h sim ∈ log r) ∧
     (skip = false ∨ 0 < sim →
        ∃ began, BackendBeginFrame began ∈ log r ∧
          (began = true →
             (∀ p, p ∈ m_vRenderPasses s → ∃ fb, PassRender p fb ∈ log r) ∧
             (∃ ok, BackendPresent ok ∈ log r) ∧
             (∀ h, h ∈ [beforeRender; afterRender; beforePresent; afterPresent] →
                   registered h = true →
                   HookCall h (hook_frameIndex skip sim h) ∈ log r)))).
Proof.
  intros Hsim r sim skip registered. split_and!.
  - intros h i Hin.
    assert (HQ : Forall (λ e, match e with
                              | HookCall h i => i = hook_frameIndex skip sim h
                              | _ => True
                              end) (log r)).
    { apply AnimateRenderPresent_log_Forall; try done.
      - intros h' Hh'.
        repeat (apply elem_of_cons in Hh' as [->|Hh']; [done|]). by apply elem_of_nil in Hh'.
      - intros Hcond. split_and!; try done.
        intros h' Hh'. by apply hook_frameIndex_render. }
    rewrite Forall_forall in HQ. exact (HQ _ Hin).
  - intros Hskip Hzero.
    apply Forall_forall, AnimateRenderPresent_log_Forall; try done.
    + intros h Hh.
      repeat (apply elem_of_cons in Hh as [->|Hh]; [done|]). by apply elem_of_nil in Hh.
    + fold sim skip. rewrite Hskip, Hzero. done.
  - intros Hvis Hfoc.
    destruct (AnimateRenderPresent_run s)
      as (unfocused & active & el & sc & began & ok & fb & _ & Hlog & _ & _ & Hact & _).
    subst r. rewrite Hlog, (Hact Hvis Hfoc). clear Hlog Hact.
    fold sim skip registered. unfold active_log.
    split_and!.
    + intros p Hp. exists (float_of_double el). in_log.
    + intros h Hh Hreg.
      repeat (apply elem_of_cons in Hh as [->|Hh]; [in_log|]). by apply elem_of_nil in Hh.
    + intros Hrender.
      assert (Hcond : (0 <? sim) || negb skip = true).
      { destruct Hrender as [->|Hpos]; [apply orb_true_r|].
        apply orb_true_iff. left. by apply Z.ltb_lt. }
      rewrite Hcond. exists began. split; [in_log|].
      intros ->. unfold render_present_log. split_and!.
      * intros p Hp. exists fb. in_log.
      * exists ok. in_log.
      * intros h Hh Hreg.
        rewrite <- (hook_frameIndex_render skip sim h Hsim Hcond Hh).
        repeat (apply elem_of_cons in Hh as [->|Hh]; [in_log|]). by apply elem_of_nil in Hh.
Qed.

(** ** Message loop *)

Lemma AnimateRenderPresent_present_failed s :
  BackendPresent false ∈ log (AnimateRenderPresent P s) →
  result (AnimateRenderPresent P s) = false ∧
  ∃ pre post,
    log (AnimateRenderPresent P s) = pre ++ BackendPresent false :: post ∧
    Forall (λ e, ∃ i, e = HookCall afterPresent i) post.
Proof.
  destruct (AnimateRenderPresent_run s)
    as (unfocused & active & el & sc & began & ok & fb & Hres & Hlog & Hu & Hs & _).
  cbv zeta in Hres, Hlog. rewrite Hres, Hlog. clear Hres Hlog.
  intros Hin.
  destruct (decide (active = true ∧ (0 <? m_FrameIndex s) || negb (m_SkipRenderOnFirstFrame s) = true
                    ∧ began = true ∧ ok = false)) as [(-> & Hcond & -> & ->)|Hnot].
  - rewrite Hcond. split; [done|].
    unfold active_log, render_present_log. rewrite Hcond.
    eexists (unfocused ++ sc ++ hook_log _ beforeAnimate _ ++ animate_log _ _
             ++ hook_log _ afterAnimate _
             ++ BackendBeginFrame true :: (hook_log _ beforeRender _
             ++ map (λ it, PassRender it fb) (m_vRenderPasses s)
             ++ hook_log _ afterRender _ ++ hook_log _ beforePresent _)),
            (hook_log _ afterPresent _).
    split.
    + rewrite app_nil_r. rewrite <- ?app_assoc. cbn [app]. by rewrite <- ?app_assoc.
    + apply hook_log_Forall. eauto.
  - exfalso.
    match type of Hin with _ ∈ ?l =>
      assert (Hall : Forall (λ e, e ≠ BackendPresent false) l)
    end; [|rewrite Forall_forall in Hall; exact (Hall _ Hin eq_refl)].
    repeat (apply Forall_app; split).
    + apply (Forall_kind_impl _ _ _ Hu). by intros [].
    + destruct active; [|apply Forall_nil_2].
      apply active_log_Forall; try done.
      * apply (Forall_kind_impl _ _ _ Hs). by intros [].
      * intros Hcond. split; [done|]. intros ->.
        apply render_present_log_Forall; try done.
        destruct ok; [done|]. destruct Hnot. done.
    + match goal with |- Forall _ (if ?c then _ else _) => destruct c end;
        [|apply Forall_nil_2].
      by repeat (apply Forall_cons; split).
Qed.

Lemma RunMessageLoop_while_continues (k : nat) s0 s (l0 : list Event) :
  loop_continues P k s0 s l0 →
  ∀ fuel,
    RunMessageLoop_while P (k + fuel) s0
    = (result (RunMessageLoop_while P fuel s),
       state (RunMessageLoop_while P fuel s),
       l0 ++ log (RunMessageLoop_while P fuel s)).
Proof.
  induction 1 as [s|k s s' l Hgo Hbody Hrest IH]; intros fuel.
  - cbn [Nat.add app]. unfold result, state, log.
    by destruct (RunMessageLoop_while P fuel s) as [[? ?] ?].
  - cbn [Nat.add RunMessageLoop_while]. unfold bind at 1, gets at 1. rewrite Hgo.
    cbn [Z.eqb]. unfold bind at 1.
    unfold result, state, log in Hbody |- *.
    destruct (RunMessageLoop_body P s) as [[left s1] l1]. cbn [fst snd] in *. subst left.
    rewrite IH. cbn [app]. unfold result, state, log. cbn [fst snd].
    by rewrite app_assoc.
Qed.

Lemma RunMessageLoop_while_breaks (fuel : nat) s :
  app_destroyRequested P (ext s) = 0 →
  m_windowVisible (state (RunMessageLoop_poll P s)) = true →
  result (AnimateRenderPresent P (state (RunMessageLoop_poll P s))) = false →
  RunMessageLoop_while P (S fuel) s
  = (true, state (AnimateRenderPresent P (state (RunMessageLoop_poll P s))),
     log (RunMessageLoop_poll P s)
     ++ log (AnimateRenderPresent P (state (RunMessageLoop_poll P s)))).
Proof.
  intros Hgo Hvis Hfail.
  cbn [RunMessageLoop_while]. unfold bind at 1, gets at 1. rewrite Hgo. cbn [Z.eqb].
  unfold RunMessageLoop_body, RunMessageLoop_tick. run_plumbing.
  unfold result, state, log in *.
  destruct (RunMessageLoop_poll P s) as [[[] s1] l1]. cbn [fst snd] in *.
  rewrite Hvis.
  destruct (AnimateRenderPresent P s1) as [[ok s2] l2]. cbn [fst snd] in *. subst ok.
  cbn [negb app]. by rewrite !app_nil_r.
Qed.

(** C6: if, in an iteration of the loop of RunMessageLoop, the tick's call
    of Present returns false, then AnimateRenderPresent returns false with
    nothing called after Present but the afterPresent hook, and
    RunMessageLoop, given fuel for that iteration, returns: its calls are
    those made up to and in that tick followed by the device's waitForIdle,
    whatever fuel is left, so no further tick is started. *)
Theorem C6_present_failure_ends_loop (k : nat) sinit s (l0 : list Event) :
  loop_continues P k (state (RunMessageLoop_init P sinit)) s l0 →
  app_destroyRequested P (ext s) = 0 →
  let s1 := state (RunMessageLoop_poll P s) in
  let tick := AnimateRenderPresent P s1 in
  m_windowVisible s1 = true →
  BackendPresent false ∈ log tick →
  result tick = false ∧
  (∃ pre post,
     log tick = pre ++ BackendPresent false :: post ∧
     Forall (λ e, ∃ i, e = HookCall afterPresent i) post) ∧
  ∀ fuel, (k < fuel)%nat →
    ∃ waitSuccess,
      result (RunMessageLoop P fuel sinit) = true ∧
      log (RunMessageLoop P fuel sinit)
      = log (RunMessageLoop_init P sinit) ++ l0 ++ log (RunMessageLoop_poll P s)
        ++ log tick ++ [DeviceWaitForIdle waitSuccess].
Proof.
  intros Hloop Hgo s1 tick Hvis Hin.
  destruct (AnimateRenderPresent_present_failed s1 Hin) as [Hfail Hshape].
  split; [done|]. split; [done|].
  intros fuel Hfuel.
  assert (Hrun : ∃ waitSuccess s',
    RunMessageLoop P fuel sinit
    = (true, s',
       log (RunMessageLoop_init P sinit) ++ l0 ++ log (RunMessageLoop_poll P s)
       ++ log tick ++ [DeviceWaitForIdle waitSuccess])).
  { replace fuel with (k + S (fuel - S k))%nat by lia.
    unfold RunMessageLoop. run_plumbing.
    unfold result, state, log in Hloop |- *.
    destruct (RunMessageLoop_init P sinit) as [[[] s0] linit]. cbn [fst snd] in *.
    rewrite (RunMessageLoop_while_continues k s0 s l0 Hloop).
    rewrite (RunMessageLoop_while_breaks _ s Hgo Hvis Hfail).
    unfold result, state, log. cbn [fst snd].
    unfold ext_query.
    destruct (waitForIdle P _) as [waitSuccess e].
    exists waitSuccess. eexists. f_equal.
    cbn [app]. by rewrite <- ?app_assoc. }
  destruct Hrun as (waitSuccess & s' & ->). by exists waitSuccess.
Qed.

(** ** Creation *)

Ltac run_create_oracle :=
  let r := fresh "answer" in
  let e := fresh "e" in
  match goal with
  | |- context [CreateInstanceInternal P ?dp ?x] =>
      destruct (CreateInstanceInternal P dp x) as [r e]
  | |- context [CreateDevice P ?dp ?x] => destruct (CreateDevice P dp x) as [r e]
  | |- context [CreateSwapChain P ?dp ?x] => destruct (CreateSwapChain P dp x) as [r e]
  | |- context [match ?c with Some _ => _ | None => _ end] => destruct c eqn:?
  end.

Lemma CreateWindowDeviceAndSwapChain_create_success
    (params : DeviceCreationParameters) (title : option string) s :
  let r := CreateWindowDeviceAndSwapChain_create P params title s in
  result r = true →
  (∃ w, m_NativeWindow (state r) = Some w) ∧
  m_vRenderPasses (state r) = m_vRenderPasses s ∧
  swapChainSampleCount (m_DeviceParams (state r)) = swapChainSampleCount params ∧
  m_RequestedVSync (state r) = vsyncEnabled params ∧
  Forall (λ e, is_PassRender e = false) (log r).
Proof.
  unfold CreateWindowDeviceAndSwapChain_create, CreateInstance, EnumerateInputDevices.
  unfold result, state, log.
  repeat first [ progress run_plumbing | progress state_simpl | progress unfold ext_query
               | run_create_oracle | run_branch ].
  all: cbn [fst snd app]; intros Hok; try discriminate Hok.
  all: split_and!; [by eexists|reflexivity|reflexivity|reflexivity|].
  all: by repeat (apply Forall_cons; split).
Qed.

Lemma zeroed_state_resize_needed s (width height : Z) :
  width ≠ 0 → resize_needed P (zeroed_state s) width height = true.
Proof.
  intros Hwidth. unfold resize_needed, zeroed_state.
  cbn [m_DeviceParams set_m_DeviceParams backBufferWidth set_backBufferHeight
       set_backBufferWidth].
  change (to_int32 0) with 0.
  by rewrite (proj2 (Z.eqb_neq 0 width)) by done.
Qed.

(** C8: CreateWindowDeviceAndSwapChain, once device and swapchain are
    created, runs the resize routine on a state whose stored back-buffer
    width and height are zero.  Hence, when it returns success and leaves the
    window visible, the surface had a non-zero size and every pass registered
    at the time of the call has received BackBufferResized with the surface
    width and height (as [uint32_t]) and the sample count of the creation
    parameters; no pass has been asked to render during the call. *)
Theorem C8_initial_resize_notifies_passes
    (params : DeviceCreationParameters) (title : option string) s :
  let created := CreateWindowDeviceAndSwapChain_create P params title s in
  let resizing := UpdateWindowSize P (zeroed_state (state created)) in
  let r := CreateWindowDeviceAndSwapChain P params title s in
  result r = true →
  m_windowVisible (state r) = true →
  backBufferWidth (m_DeviceParams (zeroed_state (state created))) = 0 ∧
  backBufferHeight (m_DeviceParams (zeroed_state (state created))) = 0 ∧
  state r = state resizing ∧
  log r = log created ++ log resizing ∧
  ∃ w,
    m_NativeWindow (state created) = Some w ∧
    let width := ANativeWindow_getWidth P w (ext (state created)) in
    let height := ANativeWindow_getHeight P w (ext (state created)) in
    width ≠ 0 ∧ height ≠ 0 ∧
    (∀ p, p ∈ m_vRenderPasses s →
       PassBackBufferResized p (to_uint32 width) (to_uint32 height)
         (swapChainSampleCount params) ∈ log r) ∧
    (0 < width < 2 ^ 32 → to_uint32 width = width) ∧
    (0 < height < 2 ^ 32 → to_uint32 height = height) ∧
    backBufferWidth (m_DeviceParams (state r)) = to_uint32 width ∧
    backBufferHeight (m_DeviceParams (state r)) = to_uint32 height ∧
    Forall (λ e, is_PassRender e = false) (log r).
Proof.
  intros created resizing r Hok Hvis.
  assert (Hr : r = (result created, (if result created then state resizing else state created),
                    log created ++ (if result created then log resizing else []))).
  { subst r resizing created. unfold CreateWindowDeviceAndSwapChain,
      CreateWindowDeviceAndSwapChain_finish. run_plumbing.
    unfold result, state, log.
    destruct (CreateWindowDeviceAndSwapChain_create P params title s) as [[ok c] lc].
    cbn [fst snd]. destruct ok; [|by rewrite app_nil_r].
    set (z := zeroed_state c).
    repeat match goal with
           | |- context [UpdateWindowSize P ?st] =>
               lazymatch st with z => fail | _ => change st with z end
           end.
    destruct (UpdateWindowSize P z) as [[[] s'] l']. cbn [fst snd].
    by rewrite app_nil_r. }
  rewrite Hr in Hok, Hvis |- *. unfold result at 1 in Hok. cbn [fst snd] in Hok.
  unfold state at 1 in Hvis. cbn [fst snd] in Hvis.
  unfold state at 1, log at 1. cbn [fst snd]. rewrite Hok in Hvis |- *.
  destruct (CreateWindowDeviceAndSwapChain_create_success params title s Hok)
    as ((w & Hw) & Hpasses & Hsamples & _ & Hcreated).
  fold created in Hw, Hpasses, Hsamples, Hcreated.
  split_and!; try done.
  exists w. split; [done|].
  set (c := state created) in *.
  set (z := zeroed_state c) in *.
  assert (Hwz : m_NativeWindow z = Some w) by done.
  set (width := ANativeWindow_getWidth P w (ext c)).
  set (height := ANativeWindow_getHeight P w (ext c)).
  assert (Hwidth : width ≠ 0).
  { intros Hzero. subst resizing.
    rewrite (UpdateWindowSize_minimized z w Hwz) in Hvis by (left; exact Hzero). done. }
  assert (Hheight : height ≠ 0).
  { intros Hzero. subst resizing.
    rewrite (UpdateWindowSize_minimized z w Hwz) in Hvis by (right; exact Hzero). done. }
  destruct (UpdateWindowSize_resize z w Hwz Hwidth Hheight
              (zeroed_state_resize_needed c _ _ Hwidth)) as [e He].
  cbv zeta in He. subst resizing. rewrite He. unfold log, state. cbn [fst snd].
  split_and!; try done.
  - intros p Hp. rewrite <- Hpasses in Hp. rewrite <- Hsamples.
    apply elem_of_app. right. apply elem_of_app. right. apply elem_of_cons. right.
    apply elem_of_app. left.
    by apply (list_elem_of_fmap_2
                (λ it, PassBackBufferResized it (to_uint32 width) (to_uint32 height)
                         (swapChainSampleCount (m_DeviceParams z)))).
  - intros Hrange. apply to_uint32_small. lia.
  - intros Hrange. apply to_uint32_small. lia.
  - apply Forall_app. split; [done|].
    repeat (first [apply Forall_app; split | apply Forall_cons; split]);
      try done; apply Forall_forall; intros ev (x & -> & _)%list_elem_of_fmap; done.
Qed.

(** ** Registration notifies the pass *)

Lemma run_PassOp_run (op : PassOp) s :
  ∃ e, run_PassOp P op s
       = (tt, set_ext e (set_m_vRenderPasses (PassOp_passes op (m_vRenderPasses s)) s),
          PassOp_log (m_DeviceParams s) op).
Proof.
  destruct op as [p|p|p]; cbn [run_PassOp PassOp_passes PassOp_log].
  - unfold AddRenderPassToFront, call_BackBufferResizing, call_BackBufferResized.
    run_plumbing. state_simpl. eexists. reflexivity.
  - unfold AddRenderPassToBack, call_BackBufferResizing, call_BackBufferResized.
    run_plumbing. state_simpl. eexists. reflexivity.
  - exists (ext s). reflexivity.
Qed.

(** X1: registering a pass, at the front or at the back, notifies that
    pass and no other: BackBufferResizing, then BackBufferResized with the
    stored back-buffer width, height and sample count.  Removing a pass
    notifies nobody.  So over any sequence of list operations the calls made
    are these pairs, in the order of the operations; the stored device
    parameters and the framebuffer set are left as they were. *)
Theorem run_PassOps_notifies_registered (ops : list PassOp) s :
  let r := run_PassOps P ops s in
  log r = flat_map (PassOp_log (m_DeviceParams s)) ops ∧
  m_vRenderPasses (state r) = foldl (λ l op, PassOp_passes op l) (m_vRenderPasses s) ops ∧
  m_DeviceParams (state r) = m_DeviceParams s ∧
  m_SwapChainFramebuffers (state r) = m_SwapChainFramebuffers s.
Proof.
  revert s. induction ops as [|op ops IH]; intros s; [done|].
  cbv zeta. unfold run_PassOps. cbn [for_each]. rewrite bind_run.
  destruct (run_PassOp_run op s) as [e ->]. unfold result, state, log. cbn [fst snd].
  specialize (IH (set_ext e (set_m_vRenderPasses (PassOp_passes op (m_vRenderPasses s)) s))).
  cbv zeta in IH. unfold run_PassOps, state, log in IH.
  destruct IH as (-> & -> & -> & ->). done.
Qed.

(** ** Creation and shutdown, step by step *)

Lemma CreateInstance_run (params : InstanceParameters) s :
  let r := CreateInstance P params s in
  (m_InstanceCreated s = true → r = (true, s, [])) ∧
  (m_InstanceCreated s = false →
     log r = [BackendCreateInstanceInternal (result r)] ∧
     m_InstanceCreated (state r) = result r ∧
     instanceParameters (m_DeviceParams (state r)) = params).
Proof.
  cbv zeta. unfold CreateInstance, result, state, log.
  destruct (m_InstanceCreated s) eqn:Hcreated.
  - run_plumbing. rewrite Hcreated. split; by intros.
  - run_plumbing. rewrite Hcreated. unfold ext_query. run_plumbing. state_simpl.
    destruct (CreateInstanceInternal P _ _) as [answer e]. state_simpl.
    split; [by intros|intros _; by destruct (m_DeviceParams s)].
Qed.

(** X2: CreateInstance asks the backend only while no instance exists.
    With an instance it returns true, makes no call and ignores its
    parameters; without one it stores the parameters, calls
    CreateInstanceInternal once and both returns and records the answer.
    After a successful call every further call is without effect. *)
Theorem CreateInstance_asks_backend_once (params params' : InstanceParameters) s :
  let r := CreateInstance P params s in
  (m_InstanceCreated s = true → r = (true, s, [])) ∧
  (m_InstanceCreated s = false →
     log r = [BackendCreateInstanceInternal (result r)] ∧
     m_InstanceCreated (state r) = result r ∧
     instanceParameters (m_DeviceParams (state r)) = params) ∧
  (result r = true → CreateInstance P params' (state r) = (true, state r, [])).
Proof.
  cbv zeta. destruct (CreateInstance_run params s) as [Hcreated Hfresh]. cbv zeta in *.
  split; [exact Hcreated|]. split; [exact Hfresh|].
  intros Hok. apply (CreateInstance_run params'). 
  destruct (m_InstanceCreated s) eqn:Hflag.
  - by rewrite Hcreated.
  - destruct Hfresh as (_ & -> & _); done.
Qed.

Ltac pick_instance :=
  first [ match goal with
          | |- context [BackendCreateInstanceInternal ?b :: _] => exists b
          end
        | exists true ].

Ltac pick_device :=
  first [ match goal with |- context [BackendCreateDevice ?b :: _] => exists b end
        | exists true ].

Ltac pick_swapchain :=
  first [ match goal with |- context [BackendCreateSwapChain ?b :: _] => exists b end
        | exists true ].

(** X3: CreateHeadlessDevice forces the headless flag on whatever the
    parameters say, creates the instance if there is none and, only with an
    instance, the device; its result is the device's answer, false without
    an instance.  It makes no other call and leaves window visibility and
    the framebuffer set alone. *)
Theorem CreateHeadlessDevice_steps (params : DeviceCreationParameters) s :
  let r := CreateHeadlessDevice P params s in
  ∃ instanceOk deviceOk : bool,
    log r = (if m_InstanceCreated s then [] else [BackendCreateInstanceInternal instanceOk])
            ++ (if m_InstanceCreated s || instanceOk then [BackendCreateDevice deviceOk]
                else []) ∧
    result r = (m_InstanceCreated s || instanceOk) && deviceOk ∧
    m_InstanceCreated (state r) = m_InstanceCreated s || instanceOk ∧
    headlessDevice (instanceParameters (m_DeviceParams (state r))) = true ∧
    backBufferWidth (m_DeviceParams (state r)) = backBufferWidth params ∧
    backBufferHeight (m_DeviceParams (state r)) = backBufferHeight params ∧
    m_windowVisible (state r) = m_windowVisible s ∧
    m_SwapChainFramebuffers (state r) = m_SwapChainFramebuffers s.
Proof.
  cbv zeta. unfold CreateHeadlessDevice, CreateInstance, result, state, log.
  destruct (m_InstanceCreated s) eqn:Hcreated.
  all: repeat first [ progress run_plumbing | progress state_simpl | progress unfold ext_query
                    | rewrite Hcreated | run_create_oracle | run_branch ].
  all: cbn [fst snd app orb andb].
  all: pick_instance; pick_device.
  all: split_and!; try reflexivity.
  all: by destruct params.
Qed.

Lemma CreateWindowDeviceAndSwapChain_create_steps
    (params : DeviceCreationParameters) (title : option string) s :
  let c := CreateWindowDeviceAndSwapChain_create P params title s in
  ∃ instanceOk window deviceOk swapChainOk : bool,
    result c = (m_InstanceCreated s || instanceOk) && window && deviceOk && swapChainOk ∧
    log c = creation_log (m_InstanceCreated s) instanceOk window deviceOk swapChainOk ∧
    m_InstanceCreated (state c) = m_InstanceCreated s || instanceOk ∧
    m_RequestedVSync (state c) = vsyncEnabled params ∧
    m_vRenderPasses (state c) = m_vRenderPasses s ∧
    m_windowVisible (state c) = m_windowVisible s ∧
    m_SwapChainFramebuffers (state c) = m_SwapChainFramebuffers s.
Proof.
  cbv zeta.
  unfold CreateWindowDeviceAndSwapChain_create, CreateInstance, EnumerateInputDevices.
  unfold result, state, log, creation_log.
  destruct (m_InstanceCreated s) eqn:Hcreated.
  all: repeat first [ progress run_plumbing | progress state_simpl | progress unfold ext_query
                    | rewrite Hcreated | run_create_oracle | run_branch ].
  all: cbn [fst snd app orb andb].
  all: pick_instance.
  all: first [ match goal with
               | Hwindow : app_window P _ = None |- _ => exists false
               end
             | exists true ].
  all: pick_device; pick_swapchain.
  all: split_and!; reflexivity.
Qed.

Lemma CreateWindowDeviceAndSwapChain_run
    (params : DeviceCreationParameters) (title : option string) s :
  let created := CreateWindowDeviceAndSwapChain_create P params title s in
  let resizing := UpdateWindowSize P (zeroed_state (state created)) in
  CreateWindowDeviceAndSwapChain P params title s
  = (result created, (if result created then state resizing else state created),
     log created ++ (if result created then log resizing else [])).
Proof.
  cbv zeta. unfold CreateWindowDeviceAndSwapChain, CreateWindowDeviceAndSwapChain_finish.
  run_plumbing. unfold result, state, log.
  destruct (CreateWindowDeviceAndSwapChain_create P params title s) as [[ok c] lc].
  cbn [fst snd]. destruct ok; [|by rewrite app_nil_r].
  set (z := zeroed_state c).
  repeat match goal with
         | |- context [UpdateWindowSize P ?st] =>
             lazymatch st with z => fail | _ => change st with z end
         end.
  destruct (UpdateWindowSize P z) as [[[] s'] l']. cbn [fst snd].
  by rewrite app_nil_r.
Qed.

(** X4: CreateWindowDeviceAndSwapChain takes its steps in a fixed order
    and stops at the first that fails: the instance unless one exists, the
    native window, the device, the swapchain.  Its result is true exactly
    when all of them succeeded.  When it returns false the backend creation
    calls up to the failing step are the only calls made: no pass is
    notified, no swapchain is resized, and window visibility and the
    framebuffer set stay as they were; an instance created on the way stays
    recorded. *)
Theorem CreateWindowDeviceAndSwapChain_stops_at_first_failure
    (params : DeviceCreationParameters) (title : option string) s :
  let r := CreateWindowDeviceAndSwapChain P params title s in
  ∃ instanceOk window deviceOk swapChainOk : bool,
    let steps := creation_log (m_InstanceCreated s) instanceOk window deviceOk swapChainOk in
    let ok := (m_InstanceCreated s || instanceOk) && window && deviceOk && swapChainOk in
    result r = ok ∧
    steps `prefix_of` log r ∧
    (ok = false →
       log r = steps ∧
       m_windowVisible (state r) = m_windowVisible s ∧
       m_SwapChainFramebuffers (state r) = m_SwapChainFramebuffers s ∧
       m_vRenderPasses (state r) = m_vRenderPasses s ∧
       m_RequestedVSync (state r) = vsyncEnabled params ∧
       m_InstanceCreated (state r) = m_InstanceCreated s || instanceOk).
Proof.
  cbv zeta. rewrite CreateWindowDeviceAndSwapChain_run.
  destruct (CreateWindowDeviceAndSwapChain_create_steps params title s)
    as (instanceOk & window & deviceOk & swapChainOk & Hres & Hlog & Hrest).
  exists instanceOk, window, deviceOk, swapChainOk.
  unfold result at 1, log at 1, state. cbn [fst snd]. rewrite Hlog.
  split; [exact Hres|]. split; [by apply prefix_app_r|].
  intros Hfail. rewrite Hres, Hfail. rewrite app_nil_r.
  unfold state in Hrest. by destruct Hrest as (-> & -> & -> & -> & ->).
Qed.

Lemma Shutdown_run s :
  ∃ e, Shutdown P s
       = (tt,
          set_ext e (set_m_InstanceCreated false
                       (set_m_NativeWindow None (set_m_SwapChainFramebuffers [] s))),
          BackendDestroyDeviceAndSwapChain ::
          match m_NativeWindow s with Some w => [NativeWindowRelease w] | None => [] end).
Proof.
  unfold Shutdown. run_plumbing. state_simpl.
  destruct (m_NativeWindow s) as [w|] eqn:Hw; run_plumbing; state_simpl.
  - eexists. reflexivity.
  - eexists. unfold set_ext, set_m_InstanceCreated, set_m_NativeWindow,
      set_m_SwapChainFramebuffers. state_simpl. rewrite Hw. reflexivity.
Qed.

(** X5: Shutdown empties the framebuffer set, has the backend destroy
    device and swapchain, releases the native window exactly when one is
    held and forgets it, and clears the instance flag; the registered passes
    and the visibility flag are not touched.  A second Shutdown calls the
    backend again but releases no window. *)
Theorem Shutdown_releases_window_once s :
  let r := Shutdown P s in
  log r = BackendDestroyDeviceAndSwapChain ::
          match m_NativeWindow s with Some w => [NativeWindowRelease w] | None => [] end ∧
  m_SwapChainFramebuffers (state r) = [] ∧
  m_NativeWindow (state r) = None ∧
  m_InstanceCreated (state r) = false ∧
  m_vRenderPasses (state r) = m_vRenderPasses s ∧
  m_windowVisible (state r) = m_windowVisible s ∧
  log (Shutdown P (state r)) = [BackendDestroyDeviceAndSwapChain].
Proof.
  cbv zeta. destruct (Shutdown_run s) as [e ->]. unfold state at 1 2 3 4 5, log at 1.
  cbn [fst snd]. split_and!; reflexivity.
Qed.

(** X6: what a manager that has been shut down does when used again.  A
    resize command finds no window: it marks the window invisible and makes
    no call.  Every framebuffer query answers null.  CreateInstance goes to
    the backend again, whatever happened before the shutdown. *)
Theorem Shutdown_then_use (params : InstanceParameters) s :
  let s' := state (Shutdown P s) in
  UpdateWindowSize P s' = (tt, set_m_windowVisible false s', []) ∧
  (∀ index, 0 ≤ index → GetFramebuffer index s' = (Some None, s', [])) ∧
  log (CreateInstance P params s')
  = [BackendCreateInstanceInternal (result (CreateInstance P params s'))].
Proof.
  cbv zeta. destruct (Shutdown_run s) as [e ->]. unfold state at 1 2 3 4 5 6.
  cbn [fst snd].
  split; [by apply UpdateWindowSize_no_window|]. split.
  - intros index Hindex. unfold GetFramebuffer. run_plumbing. state_simpl.
    change (Z.of_nat (length [])) with 0.
    by rewrite (proj2 (Z.ltb_ge index 0)) by lia.
  - by destruct (CreateInstance_run params (set_ext e (set_m_InstanceCreated false
              (set_m_NativeWindow None (set_m_SwapChainFramebuffers [] s)))))
      as (_ & [? _]).
Qed.

(** ** The tick, state and calls together *)

Lemma AnimateRenderPresent_active_shape (elapsedTime : float) s :
  ∃ (began presentSuccess : bool) (framebuffer : option FramebufferHandle) (e : Ext),
    AnimateRenderPresent_active P elapsedTime s
    = ((if (0 <? m_FrameIndex s) || negb (m_SkipRenderOnFirstFrame s)
        then if began then presentSuccess else true else true),
       set_ext e (scale_acknowledged s),
       active_log (m_callbacks s) (m_vRenderPasses s) elapsedTime (m_FrameIndex s)
         (m_SkipRenderOnFirstFrame s) (scale_log s) began presentSuccess framebuffer).
Proof.
  unfold AnimateRenderPresent_active, active_log, render_present_log,
    scale_acknowledged, scale_log, scale_changed.
  run_plumbing.
  destruct (float_neq (m_PrevDPIScaleFactorX s) (m_DPIScaleFactorX s)
            || float_neq (m_PrevDPIScaleFactorY s) (m_DPIScaleFactorY s)).
  - run_steps.
    all: cbn [app]; rewrite ?app_nil_r.
    all: pick_began; pick_present; pick_framebuffer.
    all: eexists; reflexivity.
  - run_steps.
    all: cbn [app]; rewrite ?app_nil_r.
    all: pick_began; pick_present; pick_framebuffer.
    all: eexists; reflexivity.
Qed.

Lemma ShouldRenderUnfocused_loop_calls (its : list IRenderPass) s :
  ∃ (answer : bool) (e : Ext) (calls : list (IRenderPass * bool)),
    ShouldRenderUnfocused_loop P its s
    = (answer, set_ext e s, map (λ c, PassShouldRenderUnfocused c.1 c.2) calls) ∧
    calls.*1 `prefix_of` its ∧
    (∀ (i : nat) p, calls !! i = Some (p, true) → S i = length calls) ∧
    (answer = true → ∃ p, last calls = Some (p, true)) ∧
    (answer = false → calls = map (λ p, (p, false)) its).
Proof.
  revert s. induction its as [|it its IH]; intros s.
  - exists false, (ext s), []. rewrite set_ext_ext. split_and!; try done.
  - cbn [ShouldRenderUnfocused_loop]. unfold bind at 1, ext_query at 1.
    destruct (pass_ShouldRenderUnfocused P it (ext s)) as [r e].
    unfold bind at 1, emit at 1. destruct r.
    + exists true, e, [(it, true)]. split_and!; try done.
      * by apply prefix_cons, prefix_nil.
      * intros [|i] p Hi; [done|]. by destruct i.
      * intros _. by exists it.
    + destruct (IH (set_ext e s)) as (answer & e' & calls & -> & Hprefix & Hlast & Hyes & Hno).
      exists answer, e', ((it, false) :: calls). split_and!; try done.
      * by apply prefix_cons.
      * intros [|i] p Hi; [done|]. cbn [length]. f_equal. by apply (Hlast i p).
      * intros Hanswer. destruct (Hyes Hanswer) as [p Hp]. exists p.
        destruct calls as [|c calls]; [done|]. exact Hp.
      * intros Hanswer. cbn [map]. f_equal. by apply Hno.
Qed.

(** X7: ShouldRenderUnfocused asks the passes from the back of the list
    towards the front and stops at the first that answers yes; that yes is
    its answer.  It answers no only after every registered pass has been
    asked once and has said no; with no pass registered it answers no
    without a call.  It changes nothing in the manager. *)
Theorem ShouldRenderUnfocused_back_to_front s :
  let r := ShouldRenderUnfocused P s in
  ∃ (e : Ext) (calls : list (IRenderPass * bool)),
    state r = set_ext e s ∧
    log r = map (λ c, PassShouldRenderUnfocused c.1 c.2) calls ∧
    calls.*1 `prefix_of` reverse (m_vRenderPasses s) ∧
    (∀ (i : nat) p, calls !! i = Some (p, true) → S i = length calls) ∧
    (result r = true → ∃ p, last calls = Some (p, true)) ∧
    (result r = false → calls = map (λ p, (p, false)) (reverse (m_vRenderPasses s))) ∧
    (m_vRenderPasses s = [] → result r = false ∧ log r = []).
Proof.
  cbv zeta. unfold ShouldRenderUnfocused, bind, gets.
  destruct (ShouldRenderUnfocused_loop_calls (reverse (m_vRenderPasses s)) s)
    as (answer & e & calls & Hrun & Hprefix & Hlast & Hyes & Hno).
  rewrite Hrun. unfold result, state, log. cbn [fst snd app].
  exists e, calls. split_and!; try done.
  intros Hempty. rewrite Hempty in Hrun. cbn in Hrun. by injection Hrun as <- _ <-.
Qed.

Lemma ShouldRenderUnfocused_calls s :
  ∃ (answer : bool) (e : Ext) (calls : list (IRenderPass * bool)),
    ShouldRenderUnfocused P s
    = (answer, set_ext e s, map (λ c, PassShouldRenderUnfocused c.1 c.2) calls) ∧
    (∀ (i : nat) p, calls !! i = Some (p, true) → S i = length calls) ∧
    (answer = true → ∃ p, last calls = Some (p, true)) ∧
    (answer = false → calls = map (λ p, (p, false)) (reverse (m_vRenderPasses s))).
Proof.
  unfold ShouldRenderUnfocused, bind, gets.
  destruct (ShouldRenderUnfocused_loop_calls (reverse (m_vRenderPasses s)) s)
    as (answer & e & calls & -> & Hprefix & Hlast & Hyes & Hno).
  exists answer, e, calls. cbn [fst snd app]. done.
Qed.

Lemma UpdateAverageFrameTime_clock (elapsedTime : float) s1 s2 :
  m_FrameTimeSum s1 = m_FrameTimeSum s2 →
  m_NumberOfAccumulatedFrames s1 = m_NumberOfAccumulatedFrames s2 →
  m_AverageFrameTime s1 = m_AverageFrameTime s2 →
  m_AverageTimeUpdateInterval s1 = m_AverageTimeUpdateInterval s2 →
  let r1 := state (UpdateAverageFrameTime elapsedTime s1) in
  let r2 := state (UpdateAverageFrameTime elapsedTime s2) in
  m_FrameTimeSum r1 = m_FrameTimeSum r2 ∧
  m_NumberOfAccumulatedFrames r1 = m_NumberOfAccumulatedFrames r2 ∧
  m_AverageFrameTime r1 = m_AverageFrameTime r2.
Proof.
  intros Hsum Hn Havg Hinterval.
  destruct (UpdateAverageFrameTime_run elapsedTime s1) as (_ & _ & H1).
  destruct (UpdateAverageFrameTime_run elapsedTime s2) as (_ & _ & H2).
  cbv zeta in *. rewrite Hsum, Hn, Havg, Hinterval in H1.
  destruct (float_gt _ _ && _).
  - destruct H1 as (-> & -> & ->), H2 as (-> & -> & ->). done.
  - destruct H1 as (-> & -> & ->), H2 as (-> & -> & ->). done.
Qed.

Lemma AnimateRenderPresent_finish_shape (elapsedTime curTime : float) s :
  ∃ s', AnimateRenderPresent_finish P elapsedTime curTime s
        = (true,
           set_m_FrameIndex (to_uint32 (m_FrameIndex s + 1))
             (set_m_PreviousFrameTimestamp curTime s'),
           [ThreadSleep; DeviceRunGarbageCollection]) ∧
        m_FrameTimeSum s' = m_FrameTimeSum (state (UpdateAverageFrameTime elapsedTime s)) ∧
        m_NumberOfAccumulatedFrames s'
        = m_NumberOfAccumulatedFrames (state (UpdateAverageFrameTime elapsedTime s)) ∧
        m_AverageFrameTime s' = m_AverageFrameTime (state (UpdateAverageFrameTime elapsedTime s)) ∧
        m_vRenderPasses s' = m_vRenderPasses s ∧
        m_SwapChainFramebuffers s' = m_SwapChainFramebuffers s ∧
        m_DeviceParams s' = m_DeviceParams s ∧
        m_windowVisible s' = m_windowVisible s ∧
        m_windowIsInFocus s' = m_windowIsInFocus s ∧
        m_RemovedDevices s' = m_RemovedDevices s ∧
        m_PrevDPIScaleFactorX s' = m_PrevDPIScaleFactorX s ∧
        m_PrevDPIScaleFactorY s' = m_PrevDPIScaleFactorY s ∧
        m_DPIScaleFactorX s' = m_DPIScaleFactorX s ∧
        m_DPIScaleFactorY s' = m_DPIScaleFactorY s.
Proof.
  exists (state (UpdateAverageFrameTime elapsedTime
                   (set_ext (runGarbageCollection P (ext s)) s))).
  split.
  - unfold AnimateRenderPresent_finish, UpdateAverageFrameTime, state.
    run_plumbing. state_simpl.
    destruct (float_gt _ _ && _); run_plumbing; state_simpl; reflexivity.
  - destruct (UpdateAverageFrameTime_clock elapsedTime
                (set_ext (runGarbageCollection P (ext s)) s) s) as (-> & -> & ->);
      try reflexivity.
    unfold UpdateAverageFrameTime, state. run_plumbing. state_simpl.
    destruct (float_gt _ _ && _); run_plumbing; state_simpl; by split_and!.
Qed.

(** A tick taken apart, by the state of the window: hidden, visible and
    in focus, visible and out of focus. *)
Lemma AnimateRenderPresent_hidden s :
  m_windowVisible s = false →
  AnimateRenderPresent P s
  = AnimateRenderPresent_finish P
      (PrimFloat.sub (result (current_time P s)) (m_PreviousFrameTimestamp s))
      (result (current_time P s)) (tick_start P s).
Proof.
  intros Hv.
  unfold tick_start, AnimateRenderPresent, current_time, EraseDisconnectedDevices.
  unfold ext_query. run_plumbing.
  destruct (clock_gettime P (ext s)) as [now e0]. run_plumbing.
  rewrite UpdateAllInputs_run. unfold result, state, log.
  run_plumbing. state_simpl. rewrite Hv. cbn [andb orb negb fst snd app].
  set (curTime := PrimFloat.add _ _).
  set (elapsedTime := PrimFloat.sub _ _).
  set (s1 := set_m_RemovedDevices _ _).
  clearbody s1 elapsedTime curTime.
  destruct (AnimateRenderPresent_finish_run elapsedTime curTime s1) as [sf ->].
  reflexivity.
Qed.

Lemma AnimateRenderPresent_focused s :
  m_windowVisible s = true → m_windowIsInFocus s = true →
  let curTime := result (current_time P s) in
  let elapsedTime := PrimFloat.sub curTime (m_PreviousFrameTimestamp s) in
  let active := AnimateRenderPresent_active P elapsedTime (tick_start P s) in
  let finish := AnimateRenderPresent_finish P elapsedTime curTime (state active) in
  AnimateRenderPresent P s
  = if result active then (true, state finish, log active ++ log finish)
    else (false, state active, log active).
Proof.
  intros Hv Hf.
  cbv zeta. unfold tick_start, AnimateRenderPresent, current_time, EraseDisconnectedDevices.
  unfold ext_query. run_plumbing.
  destruct (clock_gettime P (ext s)) as [now e0]. run_plumbing.
  rewrite UpdateAllInputs_run. unfold result, state, log.
  run_plumbing. state_simpl.
  set (curTime := PrimFloat.add _ _).
  set (elapsedTime := PrimFloat.sub _ _).
  set (s1 := set_m_RemovedDevices _ _).
  clearbody s1 elapsedTime curTime. rewrite Hv, Hf. cbn [andb orb negb fst snd app].
  destruct (AnimateRenderPresent_active P elapsedTime s1) as [[ok sa] la]. cbn [fst snd].
  destruct ok; [|rewrite app_nil_r; reflexivity].
  destruct (AnimateRenderPresent_finish_run elapsedTime curTime sa) as [sf ->].
  reflexivity.
Qed.

Lemma AnimateRenderPresent_unfocused s :
  m_windowVisible s = true → m_windowIsInFocus s = false →
  let curTime := result (current_time P s) in
  let elapsedTime := PrimFloat.sub curTime (m_PreviousFrameTimestamp s) in
  let asked := ShouldRenderUnfocused P (tick_start P s) in
  let active := AnimateRenderPresent_active P elapsedTime (state asked) in
  AnimateRenderPresent P s
  = if result asked then
      if result active then
        (true, state (AnimateRenderPresent_finish P elapsedTime curTime (state active)),
         log asked ++ log active
         ++ log (AnimateRenderPresent_finish P elapsedTime curTime (state active)))
      else (false, state active, log asked ++ log active)
    else
      (true, state (AnimateRenderPresent_finish P elapsedTime curTime (state asked)),
       log asked ++ log (AnimateRenderPresent_finish P elapsedTime curTime (state asked))).
Proof.
  intros Hv Hf.
  cbv zeta. unfold tick_start, AnimateRenderPresent, current_time, EraseDisconnectedDevices.
  unfold ext_query. run_plumbing.
  destruct (clock_gettime P (ext s)) as [now e0]. run_plumbing.
  rewrite UpdateAllInputs_run. unfold result, state, log.
  run_plumbing. state_simpl.
  set (curTime := PrimFloat.add _ _).
  set (elapsedTime := PrimFloat.sub _ _).
  set (s1 := set_m_RemovedDevices _ _).
  clearbody s1 elapsedTime curTime. rewrite Hv, Hf. cbn [andb orb negb fst snd app].
  destruct (ShouldRenderUnfocused P s1) as [[wanted su] lu]. cbn [fst snd].
  destruct wanted.
  - destruct (AnimateRenderPresent_active P elapsedTime su) as [[ok sa] la]. cbn [fst snd].
    destruct ok; [|rewrite app_nil_r; reflexivity].
    destruct (AnimateRenderPresent_finish_run elapsedTime curTime sa) as [sf ->].
    reflexivity.
  - cbn [fst snd].
    destruct (AnimateRenderPresent_finish_run elapsedTime curTime su) as [sf ->].
    reflexivity.
Qed.

Lemma tick_kept_refl s : m_RemovedDevices s = [] → tick_kept s s.
Proof. intros Hremoved. unfold tick_kept. by split_and!. Qed.

Lemma tick_kept_trans s s2 s3 : tick_kept s s2 → tick_kept s2 s3 → tick_kept s s3.
Proof.
  unfold tick_kept. intros Hfirst Hsecond. destruct_and!. split_and!; congruence.
Qed.

Lemma tick_kept_set_ext (e : Ext) s s2 : tick_kept s s2 → tick_kept s (set_ext e s2).
Proof. intros Hkept. exact Hkept. Qed.

Lemma tick_kept_scale_acknowledged s s2 :
  tick_kept s s2 → tick_kept s (scale_acknowledged s2).
Proof.
  intros Hkept. unfold scale_acknowledged. destruct (scale_changed s2); exact Hkept.
Qed.

Lemma tick_start_kept s : tick_kept s (tick_start P s).
Proof.
  unfold tick_start, current_time, EraseDisconnectedDevices, ext_query, state.
  run_plumbing. destruct (clock_gettime P (ext s)) as [now e0]. run_plumbing.
  unfold tick_kept. state_simpl. by split_and!.
Qed.

Lemma tick_start_prev_scale s :
  m_PrevDPIScaleFactorX (tick_start P s) = m_PrevDPIScaleFactorX s ∧
  m_PrevDPIScaleFactorY (tick_start P s) = m_PrevDPIScaleFactorY s.
Proof.
  unfold tick_start, current_time, EraseDisconnectedDevices, ext_query, state.
  run_plumbing. destruct (clock_gettime P (ext s)) as [now e0]. run_plumbing.
  state_simpl. by split.
Qed.

(** The end of a tick, reached from a state that the tick has kept: the
    frame is counted, the clock is fed and the timestamp moved. *)
Lemma AnimateRenderPresent_finish_counted (elapsedTime curTime : float) s s2 :
  tick_kept s s2 →
  let fed := state (UpdateAverageFrameTime elapsedTime s) in
  ∃ sf,
    AnimateRenderPresent_finish P elapsedTime curTime s2
    = (true, sf, [ThreadSleep; DeviceRunGarbageCollection]) ∧
    m_FrameIndex sf = to_uint32 (m_FrameIndex s + 1) ∧
    m_PreviousFrameTimestamp sf = curTime ∧
    m_FrameTimeSum sf = m_FrameTimeSum fed ∧
    m_NumberOfAccumulatedFrames sf = m_NumberOfAccumulatedFrames fed ∧
    m_AverageFrameTime sf = m_AverageFrameTime fed ∧
    m_RemovedDevices sf = [] ∧
    m_vRenderPasses sf = m_vRenderPasses s ∧
    m_SwapChainFramebuffers sf = m_SwapChainFramebuffers s ∧
    m_DeviceParams sf = m_DeviceParams s ∧
    m_windowVisible sf = m_windowVisible s ∧
    m_PrevDPIScaleFactorX sf = m_PrevDPIScaleFactorX s2 ∧
    m_PrevDPIScaleFactorY sf = m_PrevDPIScaleFactorY s2 ∧
    m_DPIScaleFactorX sf = m_DPIScaleFactorX s ∧
    m_DPIScaleFactorY sf = m_DPIScaleFactorY s.
Proof.
  intros Hkept. cbv zeta.
  destruct (AnimateRenderPresent_finish_shape elapsedTime curTime s2)
    as (s' & -> & Hsum & Hn & Havg & Hpasses & Hfb & Hdp & Hvis & Hfocus & Hremoved & Hpx & Hpy
        & Hsx & Hsy).
  unfold tick_kept in Hkept. destruct_and!.
  destruct (UpdateAverageFrameTime_clock elapsedTime s2 s) as (Hsum' & Hn' & Havg');
    [done..|].
  cbv zeta in Hsum', Hn', Havg'.
  eexists. split; [reflexivity|]. state_simpl.
  split_and!; congruence.
Qed.

(** Every tick ends in one of two ways: through its end, from a state
    the tick has kept, or early, in such a state. *)
Lemma AnimateRenderPresent_outcome s :
  let curTime := result (current_time P s) in
  let elapsedTime := PrimFloat.sub curTime (m_PreviousFrameTimestamp s) in
  ∃ (s2 : DeviceManager Ext) (ok : bool) (l : list Event),
    tick_kept s s2 ∧
    AnimateRenderPresent P s
    = (ok,
       (if ok then state (AnimateRenderPresent_finish P elapsedTime curTime s2) else s2),
       l).
Proof.
  cbv zeta.
  pose proof (tick_start_kept s) as Hstart.
  destruct (m_windowVisible s) eqn:Hv; [destruct (m_windowIsInFocus s) eqn:Hf|].
  - rewrite (AnimateRenderPresent_focused s Hv Hf). cbv zeta.
    generalize (result (current_time P s)). intros curTime.
    generalize (PrimFloat.sub curTime (m_PreviousFrameTimestamp s)). intros elapsedTime.
    destruct (AnimateRenderPresent_active_shape elapsedTime (tick_start P s))
      as (began & ok & fb & e & ->).
    unfold result, state, log. cbn [fst snd].
    exists (set_ext e (scale_acknowledged (tick_start P s))).
    match goal with |- context [if ?c then (true, _, _) else _] => destruct c end.
    + eexists true, _. split; [|reflexivity].
      apply tick_kept_set_ext, tick_kept_scale_acknowledged, Hstart.
    + eexists false, _. split; [|reflexivity].
      apply tick_kept_set_ext, tick_kept_scale_acknowledged, Hstart.
  - rewrite (AnimateRenderPresent_unfocused s Hv Hf). cbv zeta.
    generalize (result (current_time P s)). intros curTime.
    generalize (PrimFloat.sub curTime (m_PreviousFrameTimestamp s)). intros elapsedTime.
    destruct (ShouldRenderUnfocused_calls (tick_start P s))
      as (wanted & e1 & calls & -> & _).
    unfold result, state, log. cbn [fst snd].
    destruct wanted.
    + destruct (AnimateRenderPresent_active_shape elapsedTime (set_ext e1 (tick_start P s)))
        as (began & ok & fb & e & ->).
      cbn [fst snd].
      exists (set_ext e (scale_acknowledged (set_ext e1 (tick_start P s)))).
      match goal with |- context [if ?c then (true, _, _) else _] => destruct c end.
      * eexists true, _. split; [|reflexivity].
        apply tick_kept_set_ext, tick_kept_scale_acknowledged, tick_kept_set_ext, Hstart.
      * eexists false, _. split; [|reflexivity].
        apply tick_kept_set_ext, tick_kept_scale_acknowledged, tick_kept_set_ext, Hstart.
    + exists (set_ext e1 (tick_start P s)). eexists true, _. split; [|reflexivity].
      apply tick_kept_set_ext, Hstart.
  - rewrite (AnimateRenderPresent_hidden s Hv).
    generalize (result (current_time P s)). intros curTime.
    generalize (PrimFloat.sub curTime (m_PreviousFrameTimestamp s)). intros elapsedTime.
    exists (tick_start P s), true.
    destruct (AnimateRenderPresent_finish_run elapsedTime curTime (tick_start P s)) as [sf ->].
    eexists. split; [exact Hstart|reflexivity].
Qed.


(** X9: a tick with the window not visible calls no pass, no callback
    and no frame function of the backend: it sleeps, lets the device collect
    garbage, and returns true. *)
Theorem AnimateRenderPresent_hidden_window_idles s :
  m_windowVisible s = false →
  let r := AnimateRenderPresent P s in
  result r = true ∧ log r = [ThreadSleep; DeviceRunGarbageCollection].
Proof.
  intros Hv. cbv zeta. rewrite (AnimateRenderPresent_hidden s Hv).
  generalize (result (current_time P s)). intros curTime.
  by destruct (AnimateRenderPresent_finish_run
                 (PrimFloat.sub curTime (m_PreviousFrameTimestamp s)) curTime
                 (tick_start P s)) as [sf ->].
Qed.

Lemma unfocused_queries_false (l : list IRenderPass) p :
  PassShouldRenderUnfocused p true ∉ map (λ q, PassShouldRenderUnfocused q false) l.
Proof. intros (q & Heq & _)%list_elem_of_fmap. discriminate Heq. Qed.

(** X10: a tick with the window visible but out of focus first asks the
    passes whether to render unfocused.  When no pass says yes, every pass
    has been asked, from the back of the list to the front, and nothing else
    happens but the sleep and the garbage collection: nothing is animated,
    rendered or presented.  When a pass says yes, every registered pass is
    animated in that tick. *)
Theorem AnimateRenderPresent_out_of_focus s :
  m_windowVisible s = true → m_windowIsInFocus s = false →
  let r := AnimateRenderPresent P s in
  let passes := m_vRenderPasses s in
  ((∀ p, PassShouldRenderUnfocused p true ∉ log r) →
     result r = true ∧
     log r = map (λ p, PassShouldRenderUnfocused p false) (reverse passes)
             ++ [ThreadSleep; DeviceRunGarbageCollection]) ∧
  (∀ p, PassShouldRenderUnfocused p true ∈ log r →
     ∀ q, q ∈ passes → ∃ dt, PassAnimate q dt ∈ log r).
Proof.
  intros Hv Hf. cbv zeta. rewrite (AnimateRenderPresent_unfocused s Hv Hf). cbv zeta.
  generalize (result (current_time P s)). intros curTime.
  generalize (PrimFloat.sub curTime (m_PreviousFrameTimestamp s)). intros elapsedTime.
  destruct (tick_start_kept s) as (_ & _ & _ & _ & _ & _ & Hpasses & _).
  destruct (ShouldRenderUnfocused_calls (tick_start P s))
    as (wanted & e1 & calls & -> & Hlast & Hyes & Hno).
  rewrite Hpasses in Hno.
  unfold result, state, log. cbn [fst snd].
  destruct wanted.
  - destruct (Hyes eq_refl) as [p Hp].
    assert (Hin : PassShouldRenderUnfocused p true
                  ∈ map (λ c, PassShouldRenderUnfocused c.1 c.2) calls).
    { apply (list_elem_of_fmap_2 (λ c, PassShouldRenderUnfocused c.1 c.2) calls (p, true)).
      rewrite last_lookup in Hp. by apply list_elem_of_lookup_2 in Hp. }
    destruct (AnimateRenderPresent_active_shape elapsedTime (set_ext e1 (tick_start P s)))
      as (began & ok & fb & e & ->).
    cbn [fst snd]. state_simpl. rewrite Hpasses.
    split.
    + intros Hnone. exfalso.
      match goal with
      | Hnone : ∀ p, _ ∉ (if ?c then _ else _).2 |- _ => destruct c
      end; cbn [snd] in Hnone; apply (Hnone p), elem_of_app; by left.
    + intros _ _ q Hq. exists (float_of_double elapsedTime).
      assert (Hanimate : PassAnimate q (float_of_double elapsedTime)
                ∈ active_log (m_callbacks (tick_start P s)) (m_vRenderPasses s) elapsedTime
                    (m_FrameIndex (tick_start P s))
                    (m_SkipRenderOnFirstFrame (tick_start P s))
                    (scale_log (set_ext e1 (tick_start P s))) began ok fb).
      { unfold active_log. apply elem_of_app. right. apply elem_of_app. right.
        apply elem_of_app. left. by apply animate_log_elem. }
      match goal with
      | |- _ ∈ (if ?c then _ else _).2 => destruct c
      end; cbn [snd]; apply elem_of_app; right.
      * apply elem_of_app. by left.
      * exact Hanimate.
  - rewrite (Hno eq_refl).
    destruct (AnimateRenderPresent_finish_run elapsedTime curTime
                (set_ext e1 (tick_start P s))) as [sf ->].
    cbn [fst snd]. rewrite map_map. cbn [fst snd]. split.
    + intros _. by split.
    + intros p [Hin|Hin]%elem_of_app.
      * by apply unfocused_queries_false in Hin.
      * apply elem_of_cons in Hin as [Heq|Hin]; [discriminate Heq|].
        apply elem_of_cons in Hin as [Heq|Hin]; [discriminate Heq|].
        by apply not_elem_of_nil in Hin.
Qed.

Lemma tick_start_scale s :
  scale_changed (tick_start P s) = scale_changed s ∧
  scale_log (tick_start P s) = scale_log s.
Proof.
  destruct (tick_start_prev_scale s) as [Hpx Hpy].
  destruct (tick_start_kept s)
    as (_ & _ & _ & _ & _ & _ & Hpasses & _ & _ & _ & _ & Hsx & Hsy & _).
  assert (Hchanged : scale_changed (tick_start P s) = scale_changed s)
    by (unfold scale_changed; congruence).
  split; [exact Hchanged|]. unfold scale_log. by rewrite Hchanged, Hpasses, Hsx, Hsy.
Qed.

Lemma active_log_scale (cb : PipelineCallbacks) (passes : list IRenderPass) (el : float)
    (sim : Z) (skip : bool) (scaleChanged : list Event) (began ok : bool)
    (fb : option FramebufferHandle) :
  active_log cb passes el sim skip scaleChanged began ok fb
  = scaleChanged ++ active_log cb passes el sim skip [] began ok fb.
Proof. reflexivity. Qed.

Lemma active_log_no_scale (cb : PipelineCallbacks) (passes : list IRenderPass) (el : float)
    (sim : Z) (skip : bool) (began ok : bool) (fb : option FramebufferHandle) :
  Forall (λ e, is_PassDisplayScaleChanged e = false)
         (active_log cb passes el sim skip [] began ok fb).
Proof.
  apply active_log_Forall; [apply Forall_nil_2|done|done|].
  intros _. split; [done|]. intros _. by apply render_present_log_Forall.
Qed.

Lemma AnimateRenderPresent_scale_run s :
  m_windowVisible s = true → m_windowIsInFocus s = true →
  (∃ rest, log (AnimateRenderPresent P s) = scale_log s ++ rest ∧
           Forall (λ e, is_PassDisplayScaleChanged e = false) rest) ∧
  m_PrevDPIScaleFactorX (state (AnimateRenderPresent P s))
  = (if scale_changed s then m_DPIScaleFactorX s else m_PrevDPIScaleFactorX s) ∧
  m_PrevDPIScaleFactorY (state (AnimateRenderPresent P s))
  = (if scale_changed s then m_DPIScaleFactorY s else m_PrevDPIScaleFactorY s) ∧
  m_DPIScaleFactorX (state (AnimateRenderPresent P s)) = m_DPIScaleFactorX s ∧
  m_DPIScaleFactorY (state (AnimateRenderPresent P s)) = m_DPIScaleFactorY s.
Proof.
  intros Hv Hf.
  rewrite (AnimateRenderPresent_focused s Hv Hf). cbv zeta.
  generalize (result (current_time P s)). intros curTime.
  generalize (PrimFloat.sub curTime (m_PreviousFrameTimestamp s)). intros elapsedTime.
  destruct (tick_start_scale s) as [Hchanged Hlog].
  destruct (tick_start_prev_scale s) as [Hpx Hpy].
  pose proof (tick_start_kept s) as Hstart.
  destruct (AnimateRenderPresent_active_shape elapsedTime (tick_start P s))
    as (began & ok & fb & e & ->).
  rewrite active_log_scale, Hlog.
  set (s2 := set_ext e (scale_acknowledged (tick_start P s))).
  assert (Hkept : tick_kept s s2)
    by apply tick_kept_set_ext, tick_kept_scale_acknowledged, Hstart.
  assert (Hs2 : m_PrevDPIScaleFactorX s2
                = (if scale_changed s then m_DPIScaleFactorX s else m_PrevDPIScaleFactorX s) ∧
                m_PrevDPIScaleFactorY s2
                = (if scale_changed s then m_DPIScaleFactorY s else m_PrevDPIScaleFactorY s)).
  { subst s2. unfold scale_acknowledged. rewrite Hchanged.
    destruct Hstart as (_ & _ & _ & _ & _ & _ & _ & _ & _ & _ & _ & Hsx & Hsy & _).
    destruct (scale_changed s); state_simpl; split; congruence. }
  destruct Hs2 as [Hs2x Hs2y].
  clearbody s2.
  set (carryOn := if (0 <? m_FrameIndex (tick_start P s))
                     || negb (m_SkipRenderOnFirstFrame (tick_start P s))
                  then if began then ok else true else true).
  clearbody carryOn.
  unfold result, state, log. cbn [fst snd].
  destruct (AnimateRenderPresent_finish_counted elapsedTime curTime s s2 Hkept)
    as (sf & -> & _ & _ & _ & _ & _ & _ & _ & _ & _ & _ & Hfx & Hfy & Hfsx & Hfsy).
  destruct Hkept as (_ & _ & _ & _ & _ & _ & _ & _ & _ & _ & _ & Hsx & Hsy & _).
  destruct carryOn; cbn [fst snd].
  - rewrite Hfx, Hfy, Hfsx, Hfsy.
    split_and!; try assumption; try reflexivity.
    eexists. rewrite <- app_assoc. split; [reflexivity|].
    apply Forall_app. split; [apply active_log_no_scale|].
    by repeat (apply Forall_cons; split).
  - split_and!; try assumption.
    eexists. split; [reflexivity|]. apply active_log_no_scale.
Qed.

(** X11: in a tick with the window visible and in focus, the passes are
    told of a display scale change exactly when a current scale factor
    differs from the one last announced; they are told first thing, in list
    order, with the current factors, and not again later in the tick.  The
    announced factors are then the current ones, so that the next tick
    announces nothing unless a factor has changed or is not a number. *)
Theorem AnimateRenderPresent_announces_scale_change s :
  m_windowVisible s = true → m_windowIsInFocus s = true →
  let r := AnimateRenderPresent P s in
  let sx := m_DPIScaleFactorX s in
  let sy := m_DPIScaleFactorY s in
  (∃ rest, log r = scale_log s ++ rest ∧
           Forall (λ e, is_PassDisplayScaleChanged e = false) rest) ∧
  m_PrevDPIScaleFactorX (state r) = (if scale_changed s then sx else m_PrevDPIScaleFactorX s) ∧
  m_PrevDPIScaleFactorY (state r) = (if scale_changed s then sy else m_PrevDPIScaleFactorY s) ∧
  m_DPIScaleFactorX (state r) = sx ∧
  m_DPIScaleFactorY (state r) = sy ∧
  (PrimFloat.eqb sx sx = true → PrimFloat.eqb sy sy = true → scale_changed (state r) = false).
Proof.
  intros Hv Hf. cbv zeta.
  destruct (AnimateRenderPresent_scale_run s Hv Hf) as (Hlog & Hpx & Hpy & Hsx & Hsy).
  split_and!; try assumption.
  intros Hnx Hny. unfold scale_changed. rewrite Hpx, Hpy, Hsx, Hsy.
  destruct (scale_changed s) eqn:Hchanged.
  - unfold float_neq. by rewrite Hnx, Hny.
  - exact Hchanged.
Qed.

Lemma WindowPosCallback_idle (x y : Z) s :
  m_EnableRenderDuringWindowMovement s = false ∨ m_SwapChainFramebuffers s = [] →
  WindowPosCallback P x y s
  = (tt, set_m_DPIScaleFactorY (display_density P (ext s))
           (set_m_DPIScaleFactorX (display_density P (ext s)) s), []).
Proof.
  intros Hidle. unfold WindowPosCallback. run_plumbing. state_simpl.
  destruct Hidle as [-> | ->]; [reflexivity|].
  cbn [length Z.of_nat Z.ltb Z.compare]. by rewrite andb_false_r.
Qed.

(** X12: WindowPosCallback always refreshes both scale factors from the
    display density.  It runs a tick only when rendering during window
    movement is enabled and the framebuffer set is not empty: then the
    beforeFrame callback, if set, is called with the frame index and one
    tick follows.  Otherwise it makes no call at all, and a change of
    density is announced to every pass at the start of the next tick with
    the window visible and in focus. *)
Theorem WindowPosCallback_renders_only_when_enabled (x y : Z) s :
  let density := display_density P (ext s) in
  let moved := set_m_DPIScaleFactorY density (set_m_DPIScaleFactorX density s) in
  let r := WindowPosCallback P x y s in
  (m_EnableRenderDuringWindowMovement s = false ∨ m_SwapChainFramebuffers s = [] →
     r = (tt, moved, []) ∧
     (m_windowVisible s = true → m_windowIsInFocus s = true →
      float_neq (m_PrevDPIScaleFactorX s) density
      || float_neq (m_PrevDPIScaleFactorY s) density = true →
      ∃ rest,
        log (AnimateRenderPresent P moved)
        = map (λ it, PassDisplayScaleChanged it density density) (m_vRenderPasses s) ++ rest)) ∧
  (m_EnableRenderDuringWindowMovement s = true → m_SwapChainFramebuffers s ≠ [] →
     ∃ e,
       log r = (if m_callbacks s beforeFrame then [HookCall beforeFrame (m_FrameIndex s)]
                else [])
               ++ log (AnimateRenderPresent P (set_ext e moved)) ∧
       m_DPIScaleFactorX (state r) = density ∧
       m_DPIScaleFactorY (state r) = density).
Proof.
  cbv zeta. split.
  - intros Hidle. split; [exact (WindowPosCallback_idle x y s Hidle)|].
    intros Hv Hf Hchanged.
    set (moved := set_m_DPIScaleFactorY _ _).
    destruct (AnimateRenderPresent_scale_run moved Hv Hf) as ((rest & Hlog & _) & _).
    exists rest. rewrite Hlog. unfold scale_log, scale_changed. subst moved. state_simpl.
    by rewrite Hchanged.
  - intros Henabled Hfbs.
    set (density := display_density P (ext s)).
    set (moved := set_m_DPIScaleFactorY density (set_m_DPIScaleFactorX density s)).
    assert (Hrun : ∃ e,
      WindowPosCallback P x y s
      = (tt, state (AnimateRenderPresent P (set_ext e moved)),
         (if m_callbacks s beforeFrame then [HookCall beforeFrame (m_FrameIndex s)] else [])
         ++ log (AnimateRenderPresent P (set_ext e moved)))).
    { unfold WindowPosCallback, call_hook. run_plumbing. state_simpl.
      rewrite Henabled.
      assert ((0 <? Z.of_nat (length (m_SwapChainFramebuffers s))) = true) as ->.
      { apply Z.ltb_lt. destruct (m_SwapChainFramebuffers s); [done|cbn [length]; lia]. }
      cbn [andb]. fold density. fold moved.
      change (m_callbacks moved beforeFrame) with (m_callbacks s beforeFrame).
      change (m_FrameIndex moved) with (m_FrameIndex s).
      destruct (m_callbacks s beforeFrame).
      - cbn beta iota. change (ext moved) with (ext s).
        exists (hook_call P beforeFrame (m_FrameIndex s) (ext s)).
        unfold state, log. cbn [fst snd app].
        destruct (AnimateRenderPresent P _) as [[ok sa] la]. cbn [fst snd].
        by rewrite app_nil_r.
      - exists (ext s). unfold state, log. cbn [fst snd app].
        replace (set_ext (ext s) moved) with moved by reflexivity.
        destruct (AnimateRenderPresent P moved) as [[ok sa] la]. cbn [fst snd].
        by rewrite app_nil_r. }
    destruct Hrun as [e Hrun]. exists e. rewrite Hrun.
    unfold state at 1 3, log at 1. cbn [fst snd]. split; [reflexivity|].
    generalize (set_ext e moved) (eq_refl : m_DPIScaleFactorX (set_ext e moved) = density)
      (eq_refl : m_DPIScaleFactorY (set_ext e moved) = density).
    intros s1 Hx Hy.
    destruct (AnimateRenderPresent_outcome s1) as (s2 & ok & l & Hkept & ->).
    cbv zeta.
    destruct (AnimateRenderPresent_finish_counted
                (PrimFloat.sub (result (current_time P s1)) (m_PreviousFrameTimestamp s1))
                (result (current_time P s1)) s1 s2 Hkept)
      as (sf & -> & _ & _ & _ & _ & _ & _ & _ & _ & _ & _ & _ & _ & Hfx & Hfy).
    unfold state. cbn [fst snd].
    unfold tick_kept in Hkept. destruct_and!.
    destruct ok; split; congruence.
Qed.

(** X13: Render reads the framebuffer at the current back-buffer index
    once and hands that same framebuffer to every pass, in list order.  With
    the framebuffer set in step with the swapchain and the index below the
    back-buffer count, it is the framebuffer built over the current back
    buffer.  With the index at or past the end of the set, as when the set
    is empty, the access is out of range.  Render changes no field of the
    manager. *)
Theorem Render_hands_current_framebuffer s :
  let index := GetCurrentBackBufferIndex P (ext s) in
  let r := Render P s in
  (∃ e, state r = set_ext e s) ∧
  (∃ fb, log r = map (λ it, PassRender it fb) (m_vRenderPasses s)) ∧
  (framebuffers_match P s → 0 ≤ index < GetBackBufferCount P (ext s) →
     log r = map (λ it, PassRender it (Some (framebuffer_for P index (ext s))))
                 (m_vRenderPasses s)) ∧
  (Z.of_nat (length (m_SwapChainFramebuffers s)) ≤ index →
     log r = map (λ it, PassRender it None) (m_vRenderPasses s)).
Proof.
  cbv zeta. destruct (Render_run s) as [e ->]. unfold state, log. cbn [fst snd].
  split; [by exists e|]. split; [by eexists|]. split.
  - intros [Hlen Hlookup] Hindex.
    unfold vector_at. rewrite (proj2 (Z.leb_le 0 _)) by lia.
    rewrite Hlookup by lia. unfold framebuffer_for. by rewrite Z2Nat.id by lia.
  - intros Hpast. unfold vector_at.
    destruct (0 <=? GetCurrentBackBufferIndex P (ext s)) eqn:Hsign; [|done].
    rewrite lookup_ge_None_2; [done|]. apply Z.leb_le in Hsign. lia.
Qed.

(** ** The message loop, its ways in and out *)

Lemma RunMessageLoop_init_run s :
  ∃ e, RunMessageLoop_init P s
       = (tt, set_ext e (set_m_PreviousFrameTimestamp (result (current_time P s)) s), []).
Proof.
  unfold RunMessageLoop_init, current_time, result, ext_query. run_plumbing.
  destruct (clock_gettime P (ext s)) as [now e]. run_plumbing. state_simpl.
  eexists. reflexivity.
Qed.

(** X14: when destruction has already been requested as RunMessageLoop
    starts, it reads the clock into the previous frame timestamp, polls
    nothing, ticks nothing, waits for the device to be idle and returns; no
    frame is counted. *)
Theorem RunMessageLoop_returns_on_destroy_request (fuel : nat) s :
  app_destroyRequested P (ext (state (RunMessageLoop_init P s))) ≠ 0 →
  let r := RunMessageLoop P (S fuel) s in
  result r = true ∧
  (∃ waitSuccess, log r = [DeviceWaitForIdle waitSuccess]) ∧
  m_PreviousFrameTimestamp (state r) = result (current_time P s) ∧
  m_FrameIndex (state r) = m_FrameIndex s.
Proof.
  intros Hdestroy. cbv zeta.
  assert (Hrun : ∃ (waitSuccess : bool) (e' : Ext),
    RunMessageLoop P (S fuel) s
    = (true, set_ext e' (set_m_PreviousFrameTimestamp (result (current_time P s)) s),
       [DeviceWaitForIdle waitSuccess])).
  { unfold RunMessageLoop. unfold bind at 1.
    destruct (RunMessageLoop_init_run s) as [e Hinit]. rewrite Hinit in Hdestroy |- *.
    generalize dependent (result (current_time P s)). intros curTime Hdestroy.
    unfold state in Hdestroy. cbn [fst snd] in Hdestroy.
    cbn [RunMessageLoop_while]. run_plumbing. state_simpl.
    apply Z.eqb_neq in Hdestroy. cbn [ext set_ext] in Hdestroy. rewrite Hdestroy.
    unfold ext_query. run_plumbing. state_simpl.
    destruct (waitForIdle P e) as [waitSuccess e']. cbn [fst snd app].
    by exists waitSuccess, e'. }
  destruct Hrun as (waitSuccess & e' & ->). unfold result, state, log. cbn [fst snd].
  split_and!; try reflexivity. by exists waitSuccess.
Qed.

Lemma RunMessageLoop_tick_hidden s :
  m_windowVisible s = false → RunMessageLoop_tick P s = (false, s, []).
Proof. intros Hv. unfold RunMessageLoop_tick. run_plumbing. by rewrite Hv. Qed.

Lemma RunMessageLoop_poll_run s :
  ∃ s' l, RunMessageLoop_poll P s
          = (tt, s', LooperPollAll (if m_windowVisible s then 0 else -1) :: l) ∧
    (∀ polled, ALooper_pollAll P (if m_windowVisible s then 0 else -1) (ext s) = polled →
       polled.1.1 < 0 ∨ polled.1.2 = None → s' = set_ext polled.2 s ∧ l = []).
Proof.
  unfold RunMessageLoop_poll, ext_query. run_plumbing.
  destruct (ALooper_pollAll P _ (ext s)) as [[code source] e] eqn:Hpoll. run_plumbing.
  destruct (0 <=? code) eqn:Hcode; [destruct source as [source|]|].
  - run_plumbing. destruct (source_process P source (set_ext e s)) as [[[] s'] l].
    exists s', (SourceProcess source :: l). split; [reflexivity|].
    intros polled <- [Hneg|Hnone]; cbn [fst snd] in *; [|done].
    apply Z.leb_le in Hcode. lia.
  - exists (set_ext e s), []. split; [reflexivity|]. by intros polled <-.
  - exists (set_ext e s), []. split; [reflexivity|]. by intros polled <-.
Qed.

Lemma RunMessageLoop_tick_visible s :
  m_windowVisible s = true →
  RunMessageLoop_tick P s
  = (negb (AnimateRenderPresent P s).1.1, (AnimateRenderPresent P s).1.2,
     (AnimateRenderPresent P s).2).
Proof.
  intros Hv. unfold RunMessageLoop_tick. run_plumbing. rewrite Hv.
  destruct (AnimateRenderPresent P s) as [[ok sa] la]. cbn [fst snd].
  by rewrite app_nil_r.
Qed.

(** X15: one pass through the body of the message loop.  The looper is
    polled first, without waiting (timeout 0) while the window is visible,
    without limit (timeout -1) while it is not.  A negative poll result or a
    null source leaves the manager alone.  The tick runs only if the window
    is visible once the polled source has been processed; if it is not, the
    body makes no further call and the loop goes on. *)
Theorem RunMessageLoop_body_blocks_while_hidden s :
  let p := RunMessageLoop_poll P s in
  let timeout := if m_windowVisible s then 0 else -1 in
  head (log p) = Some (LooperPollAll timeout) ∧
  (∀ polled, ALooper_pollAll P timeout (ext s) = polled →
     polled.1.1 < 0 ∨ polled.1.2 = None →
     state p = set_ext polled.2 s ∧ log p = [LooperPollAll timeout]) ∧
  (m_windowVisible (state p) = false → RunMessageLoop_body P s = (false, state p, log p)) ∧
  (m_windowVisible (state p) = true →
     log (RunMessageLoop_body P s) = log p ++ log (AnimateRenderPresent P (state p)) ∧
     result (RunMessageLoop_body P s) = negb (result (AnimateRenderPresent P (state p)))).
Proof.
  cbv zeta. unfold RunMessageLoop_body. rewrite bind_run.
  destruct (RunMessageLoop_poll_run s) as (s' & l & -> & Hquiet).
  unfold result, state, log. cbn [fst snd head].
  split; [reflexivity|]. split.
  - intros polled Hpolled Hnone. destruct (Hquiet polled Hpolled Hnone) as [-> ->]. done.
  - split.
    + intros Hv. rewrite (RunMessageLoop_tick_hidden s' Hv). cbn [fst snd].
      by rewrite app_nil_r.
    + intros Hv. rewrite (RunMessageLoop_tick_visible s' Hv). done.
Qed.

(** ** The stored size after a resize *)

Lemma to_int32_to_uint32 (z : Z) : - 2 ^ 31 ≤ z < 2 ^ 31 → to_int32 (to_uint32 z) = z.
Proof.
  intros Hz. unfold to_int32, to_uint32.
  rewrite Zplus_mod_idemp_l. rewrite Z.mod_small by lia. lia.
Qed.

Lemma UpdateWindowSize_stored (w : ANativeWindow) s :
  m_NativeWindow s = Some w →
  let width := ANativeWindow_getWidth P w (ext s) in
  let height := ANativeWindow_getHeight P w (ext s) in
  width ≠ 0 → height ≠ 0 →
  - 2 ^ 31 ≤ width < 2 ^ 31 → - 2 ^ 31 ≤ height < 2 ^ 31 →
  let s' := state (UpdateWindowSize P s) in
  m_NativeWindow s' = Some w ∧
  m_RequestedVSync s' = m_RequestedVSync s ∧
  m_windowVisible s' = true ∧
  m_windowIsInFocus s' = true ∧
  to_int32 (backBufferWidth (m_DeviceParams s')) = width ∧
  to_int32 (backBufferHeight (m_DeviceParams s')) = height ∧
  vsyncEnabled (m_DeviceParams s') = m_RequestedVSync s.
Proof.
  intros Hw width height Hwidth Hheight Hwrange Hhrange. cbv zeta.
  destruct (resize_needed P s width height) eqn:Hneed.
  - destruct (UpdateWindowSize_resize s w Hw Hwidth Hheight Hneed) as [e ->].
    cbv zeta. rewrite BackBufferResized_rebuild_run. unfold state. cbn [fst snd].
    unfold resizing_state, resized_params. state_simpl.
    cbn [backBufferWidth backBufferHeight vsyncEnabled set_vsyncEnabled set_backBufferHeight
         set_backBufferWidth].
    fold width. fold height.
    rewrite !to_int32_to_uint32 by assumption. by split_and!.
  - rewrite (UpdateWindowSize_unchanged s w Hw Hwidth Hheight Hneed).
    unfold state. cbn [fst snd]. state_simpl.
    cbn [backBufferWidth backBufferHeight vsyncEnabled set_vsyncEnabled].
    unfold resize_needed in Hneed.
    apply orb_false_elim in Hneed as [Hneed _].
    apply orb_false_elim in Hneed as [Hsamew Hsameh].
    apply negb_false_iff, Z.eqb_eq in Hsamew, Hsameh. by split_and!.
Qed.

(** X16: after UpdateWindowSize has run on a window of non-zero size
    that fits an [int], the stored back-buffer size read back through
    GetWindowDimensions is the surface size, the vsync setting is the
    requested one, and the window counts as visible and in focus.  As long
    as the surface keeps that size, running UpdateWindowSize again makes no
    call: nothing is resized twice. *)
Theorem UpdateWindowSize_settles (w : ANativeWindow) s :
  m_NativeWindow s = Some w →
  let width := ANativeWindow_getWidth P w (ext s) in
  let height := ANativeWindow_getHeight P w (ext s) in
  width ≠ 0 → height ≠ 0 →
  - 2 ^ 31 ≤ width < 2 ^ 31 → - 2 ^ 31 ≤ height < 2 ^ 31 →
  let s' := state (UpdateWindowSize P s) in
  result (GetWindowDimensions s') = (width, height) ∧
  vsyncEnabled (m_DeviceParams s') = m_RequestedVSync s ∧
  m_windowVisible s' = true ∧
  m_windowIsInFocus s' = true ∧
  (ANativeWindow_getWidth P w (ext s') = width →
   ANativeWindow_getHeight P w (ext s') = height →
   log (UpdateWindowSize P s') = []).
Proof.
  intros Hw width height Hwidth Hheight Hwrange Hhrange s'.
  destruct (UpdateWindowSize_stored w s Hw Hwidth Hheight Hwrange Hhrange)
    as (Hw' & Hreq & Hvis & Hfocus & Hsw & Hsh & Hvsync).
  fold width height s' in Hw', Hreq, Hvis, Hfocus, Hsw, Hsh, Hvsync.
  clearbody s'.
  split_and!; try assumption.
  - unfold GetWindowDimensions, result. run_plumbing. by rewrite Hsw, Hsh.
  - intros Hwidth' Hheight'.
    rewrite (UpdateWindowSize_unchanged s' w Hw'); [reflexivity|congruence|congruence|].
    rewrite Hwidth', Hheight'. unfold resize_needed.
    rewrite Hsw, Hsh, Hvsync, Hreq, !Z.eqb_refl.
    by destruct (m_RequestedVSync s).
Qed.

(** ** Connected input devices *)

Lemma erase_first_sublist (id : Z) (l : list Z) : erase_first id l `sublist_of` l.
Proof.
  induction l as [|x l IH]; [done|]. cbn [erase_first].
  destruct (decide (x = id)); [by apply sublist_cons|by apply sublist_skip].
Qed.

Lemma erase_first_count (id x : Z) (l : list Z) :
  count_occ Z.eq_dec (erase_first id l) x
  = if decide (x = id) then pred (count_occ Z.eq_dec l x) else count_occ Z.eq_dec l x.
Proof.
  induction l as [|y l IH]; [by destruct (decide (x = id))|].
  cbn [erase_first]. destruct (decide (y = id)) as [->|Hy].
  - cbn [count_occ]. destruct (Z.eq_dec id x) as [->|Hx].
    + by rewrite decide_True.
    + by rewrite decide_False by congruence.
  - cbn [count_occ]. rewrite IH. destruct (Z.eq_dec y x) as [->|Hx].
    + by rewrite !decide_False.
    + done.
Qed.

Lemma erase_all_sublist (removed ids : list Z) :
  foldl (λ ids id, erase_first id ids) ids removed `sublist_of` ids.
Proof.
  revert ids. induction removed as [|id removed IH]; intros ids; [done|].
  cbn [foldl]. etrans; [apply IH|apply erase_first_sublist].
Qed.

Lemma erase_all_count (removed ids : list Z) (x : Z) :
  count_occ Z.eq_dec (foldl (λ ids id, erase_first id ids) ids removed) x
  = (count_occ Z.eq_dec ids x - count_occ Z.eq_dec removed x)%nat.
Proof.
  revert ids. induction removed as [|id removed IH]; intros ids.
  - cbn [foldl count_occ]. lia.
  - cbn [foldl count_occ]. rewrite IH, erase_first_count.
    destruct (Z.eq_dec id x) as [->|Hx].
    + rewrite decide_True by done. lia.
    + rewrite decide_False by congruence. lia.
Qed.

Lemma count_occ_reverse (l : list Z) (x : Z) :
  count_occ Z.eq_dec (reverse l) x = count_occ Z.eq_dec l x.
Proof.
  induction l as [|y l IH]; [done|].
  rewrite reverse_cons, count_occ_app, IH. cbn [count_occ].
  destruct (Z.eq_dec y x); lia.
Qed.

(** X17: EraseDisconnectedDevices takes, for every entry of the list of
    removed devices, one entry with that id out of the list of connected
    devices, if there is one, and empties the list of removed devices.  So
    afterwards each id is connected as many times as before less the number
    of times it was removed, never below zero; the remaining devices keep
    their order; a device connected and then disconnected is gone after the
    next erase, and an id that was never connected is ignored. *)
Theorem EraseDisconnectedDevices_removes_one_per_entry s :
  let s' := state (EraseDisconnectedDevices s) in
  m_RemovedDevices s' = [] ∧
  m_DeviceIDs s' `sublist_of` m_DeviceIDs s ∧
  (∀ id, count_occ Z.eq_dec (m_DeviceIDs s') id
         = (count_occ Z.eq_dec (m_DeviceIDs s) id
            - count_occ Z.eq_dec (m_RemovedDevices s) id)%nat) ∧
  (∀ id, id ∉ m_DeviceIDs s → m_RemovedDevices s = [] →
     m_DeviceIDs (state (EraseDisconnectedDevices
                           (state (DisconnectDevice id (state (ConnectDevice id s))))))
     = m_DeviceIDs s).
Proof.
  cbv zeta. unfold EraseDisconnectedDevices, DisconnectDevice, ConnectDevice, modify, state.
  cbn [fst snd]. state_simpl. split_and!.
  - reflexivity.
  - apply erase_all_sublist.
  - intros id. by rewrite erase_all_count, count_occ_reverse.
  - intros id Hid ->. cbn [app reverse foldl].
    change (reverse [id]) with [id]. cbn [foldl].
    induction (m_DeviceIDs s) as [|x l IH]; cbn [app erase_first].
    + by rewrite decide_True.
    + apply not_elem_of_cons in Hid as [Hx Hid].
      rewrite decide_False by congruence. f_equal. by apply IH.
Qed.

End Proofs.

(** * The D3D11 backend *)

Section DX11_Proofs.

Import DX11.

Lemma centre_axis (dl dr l r : Z) :
  - 2 ^ 28 ≤ dl ≤ 2 ^ 28 → - 2 ^ 28 ≤ dr ≤ 2 ^ 28 →
  - 2 ^ 28 ≤ l ≤ 2 ^ 28 → - 2 ^ 28 ≤ r ≤ 2 ^ 28 →
  dl ≤ dr → l ≤ r →
  let lo := int_sub (int_add dl (int_div (int_sub dr dl) 2)) (int_div (int_sub r l) 2) in
  let hi := int_add lo (int_sub r l) in
  lo = dl + (dr - dl) / 2 - (r - l) / 2 ∧ hi = lo + (r - l).
Proof.
  intros Hdl Hdr Hl Hr Hd Hw. cbv zeta. unfold int_add, int_sub, int_div.
  rewrite (to_int32_small (dr - dl)) by lia.
  rewrite (to_int32_small (r - l)) by lia.
  rewrite !Z.quot_div_nonneg by lia.
  assert (Hhalfd : 0 ≤ (dr - dl) / 2 ≤ 2 ^ 29) by (split; [apply Z.div_pos|apply Z.div_le_upper_bound]; lia).
  assert (Hhalfw : 0 ≤ (r - l) / 2 ≤ 2 ^ 29) by (split; [apply Z.div_pos|apply Z.div_le_upper_bound]; lia).
  rewrite (to_int32_small ((dr - dl) / 2)) by lia.
  rewrite (to_int32_small ((r - l) / 2)) by lia.
  rewrite (to_int32_small (dl + (dr - dl) / 2)) by lia.
  rewrite (to_int32_small (dl + (dr - dl) / 2 - (r - l) / 2)) by lia.
  rewrite (to_int32_small (dl + (dr - dl) / 2 - (r - l) / 2 + (r - l))) by lia.
  by split.
Qed.

Lemma centre_axis_clamped (dl dr l r : Z) :
  dl ≤ dr → l ≤ r →
  let lo := dl + (dr - dl) / 2 - (r - l) / 2 in
  let hi := lo + (r - l) in
  let lo' := Z.max lo dl in
  let hi' := Z.min hi dr in
  dl ≤ lo' ∧ lo' ≤ hi' ∧ hi' ≤ dr ∧
  (r - l ≤ dr - dl →
     hi' - lo' = r - l ∧ -1 ≤ (lo' + hi') - (dl + dr) ≤ 1) ∧
  (dr - dl ≤ r - l → lo' = dl ∧ hi' = dr).
Proof.
  intros Hd Hw. cbv zeta.
  pose proof (Z.div_mod (dr - dl) 2 ltac:(lia)) as Hdm.
  pose proof (Z.mod_pos_bound (dr - dl) 2 ltac:(lia)) as Hdb.
  pose proof (Z.div_mod (r - l) 2 ltac:(lia)) as Hwm.
  pose proof (Z.mod_pos_bound (r - l) 2 ltac:(lia)) as Hwb.
  lia.
Qed.

Lemma MoveWindowOntoAdapter_skips_null (skipped : list (option RECT))
    (rest : list (option RECT)) (rect : RECT) :
  Forall (λ output, output = None) skipped →
  MoveWindowOntoAdapter (skipped ++ rest) rect = MoveWindowOntoAdapter rest rect.
Proof.
  induction 1 as [|output skipped -> _ IH]; [done|]. exact IH.
Qed.

(** X18: MoveWindowOntoAdapter uses the first output the adapter
    enumerates that is not null, and reports false, leaving the rectangle
    alone, when the enumeration ends without one.  With coordinates of
    magnitude up to 2^28, the rectangle it leaves lies within the desktop
    rectangle of that output.  In a direction where the window is no larger
    than the desktop, the window keeps its size and is centred, to within
    one pixel of rounding; where it is at least as large it is clamped to
    the desktop edges. *)
Theorem MoveWindowOntoAdapter_centres_and_clamps
    (skipped rest : list (option RECT)) (desktop rect : RECT) :
  Forall (λ output, output = None) skipped →
  within (2 ^ 28) desktop → within (2 ^ 28) rect →
  RECT_left desktop ≤ RECT_right desktop → RECT_top desktop ≤ RECT_bottom desktop →
  RECT_left rect ≤ RECT_right rect → RECT_top rect ≤ RECT_bottom rect →
  let moved := (MoveWindowOntoAdapter (skipped ++ Some desktop :: rest) rect).2 in
  let deskW := RECT_right desktop - RECT_left desktop in
  let deskH := RECT_bottom desktop - RECT_top desktop in
  let winW := RECT_right rect - RECT_left rect in
  let winH := RECT_bottom rect - RECT_top rect in
  MoveWindowOntoAdapter skipped rect = (false, rect) ∧
  (MoveWindowOntoAdapter (skipped ++ Some desktop :: rest) rect).1 = true ∧
  (RECT_left desktop ≤ RECT_left moved ∧ RECT_left moved ≤ RECT_right moved ∧
   RECT_right moved ≤ RECT_right desktop) ∧
  (RECT_top desktop ≤ RECT_top moved ∧ RECT_top moved ≤ RECT_bottom moved ∧
   RECT_bottom moved ≤ RECT_bottom desktop) ∧
  (winW ≤ deskW →
     RECT_right moved - RECT_left moved = winW ∧
     -1 ≤ (RECT_left moved + RECT_right moved)
          - (RECT_left desktop + RECT_right desktop) ≤ 1) ∧
  (winH ≤ deskH →
     RECT_bottom moved - RECT_top moved = winH ∧
     -1 ≤ (RECT_top moved + RECT_bottom moved)
          - (RECT_top desktop + RECT_bottom desktop) ≤ 1) ∧
  (deskW ≤ winW →
     RECT_left moved = RECT_left desktop ∧ RECT_right moved = RECT_right desktop) ∧
  (deskH ≤ winH →
     RECT_top moved = RECT_top desktop ∧ RECT_bottom moved = RECT_bottom desktop).
Proof.
  intros Hskipped (Hdl & Hdt & Hdr & Hdb) (Hl & Ht & Hr & Hb) Hdw Hdh Hw Hh. cbv zeta.
  rewrite (MoveWindowOntoAdapter_skips_null skipped (Some desktop :: rest) rect Hskipped).
  cbn [MoveWindowOntoAdapter fst snd].
  split.
  { rewrite <- (app_nil_r skipped).
    by rewrite (MoveWindowOntoAdapter_skips_null skipped [] rect Hskipped). }
  split; [reflexivity|].
  unfold centre_on_desktop. cbn [RECT_left RECT_right RECT_top RECT_bottom].
  destruct (centre_axis (RECT_left desktop) (RECT_right desktop) (RECT_left rect)
              (RECT_right rect)) as [-> ->]; try assumption.
  destruct (centre_axis (RECT_top desktop) (RECT_bottom desktop) (RECT_top rect)
              (RECT_bottom rect)) as [-> ->]; try assumption.
  pose proof (centre_axis_clamped (RECT_left desktop) (RECT_right desktop) (RECT_left rect)
                (RECT_right rect) Hdw Hw) as Hx.
  pose proof (centre_axis_clamped (RECT_top desktop) (RECT_bottom desktop) (RECT_top rect)
                (RECT_bottom rect) Hdh Hh) as Hy.
  cbv zeta in Hx, Hy.
  destruct Hx as (Hx1 & Hx2 & Hx3 & Hxfit & Hxbig).
  destruct Hy as (Hy1 & Hy2 & Hy3 & Hyfit & Hybig).
  by split_and!.
Qed.

Section Adapters.

Variable GetAdapterName : DXGI_ADAPTER_DESC → string.
Variable GetDesc : IDXGIAdapter → option DXGI_ADAPTER_DESC.

Lemma EnumerateAdapters_loop_run (rest : list IDXGIAdapter) :
  ∀ (fuel : nat) (enumerated : list IDXGIAdapter) (outAdapters : list AdapterInfo),
    length outAdapters = length enumerated →
    (length rest < fuel)%nat →
    EnumerateAdapters_loop GetAdapterName GetDesc fuel (enumerated ++ rest) outAdapters
    = Some (bool_decide (length (described_prefix GetAdapterName GetDesc rest) = length rest),
            outAdapters ++ described_prefix GetAdapterName GetDesc rest).
Proof.
  induction rest as [|adapter rest IH]; intros fuel enumerated outAdapters Hlen Hfuel.
  - destruct fuel as [|fuel]; [cbn in Hfuel; lia|]. cbn [EnumerateAdapters_loop].
    rewrite Hlen, lookup_ge_None_2 by (rewrite app_nil_r; lia).
    cbn [described_prefix]. by rewrite app_nil_r.
  - destruct fuel as [|fuel]; [cbn in Hfuel; lia|]. cbn [EnumerateAdapters_loop].
    rewrite Hlen, list_lookup_middle by done.
    cbn [described_prefix]. destruct (GetDesc adapter) as [desc|].
    + replace (enumerated ++ adapter :: rest) with ((enumerated ++ [adapter]) ++ rest)
        by (by rewrite <- app_assoc).
      rewrite (IH fuel (enumerated ++ [adapter])
                 (outAdapters ++ [adapterInfo_of GetAdapterName adapter desc])).
      * rewrite <- app_assoc. cbn [app length]. f_equal. f_equal.
        apply bool_decide_ext. lia.
      * rewrite !length_app. cbn [length]. lia.
      * cbn [length] in Hfuel. lia.
    + by rewrite app_nil_r.
Qed.

(** X19: EnumerateAdapters.  Without a DXGI factory it reports false
    and leaves the output vector as it is.  With one, given enough rounds
    for the adapters present, it discards what the vector held and collects
    one entry per adapter, in enumeration order, with name, vendor and
    device id, video memory and LUID taken from the adapter's description;
    it reports true when every description could be read, and false at the
    first that could not, the vector then holding the adapters before it. *)
Theorem EnumerateAdapters_collects_in_order (fuel : nat) (factory : list IDXGIAdapter)
    (outAdapters : list AdapterInfo) :
  (length factory < fuel)%nat →
  let collected := described_prefix GetAdapterName GetDesc factory in
  EnumerateAdapters GetAdapterName GetDesc fuel None outAdapters = Some (false, outAdapters) ∧
  EnumerateAdapters GetAdapterName GetDesc fuel (Some factory) outAdapters
  = Some (bool_decide (length collected = length factory), collected) ∧
  (∀ (i : nat) info, collected !! i = Some info →
     ∃ adapter desc, factory !! i = Some adapter ∧ GetDesc adapter = Some desc ∧
                     info = adapterInfo_of GetAdapterName adapter desc) ∧
  (length collected = length factory ∨
   ∃ adapter, factory !! length collected = Some adapter ∧ GetDesc adapter = None).
Proof.
  intros Hfuel. cbv zeta. split; [reflexivity|]. split.
  - cbn [EnumerateAdapters].
    by apply (EnumerateAdapters_loop_run factory fuel [] []).
  - clear Hfuel. split.
    + induction factory as [|adapter rest IH]; intros i info Hi; [done|].
      cbn [described_prefix] in Hi. destruct (GetDesc adapter) as [desc|] eqn:Hdesc; [|done].
      destruct i as [|i].
      * injection Hi as <-. by exists adapter, desc.
      * by apply IH.
    + induction factory as [|adapter rest IH]; [by left|].
      cbn [described_prefix]. destruct (GetDesc adapter) as [desc|] eqn:Hdesc.
      * destruct IH as [IH|(failing & Hlookup & Hfails)].
        -- left. cbn [length]. by rewrite IH.
        -- right. by exists failing.
      * right. by exists adapter.
Qed.

End Adapters.

Section BeginFrame_Proofs.

Context {E : Type}.
Variable SwapChain_GetDesc : E → option DXGI_SWAP_CHAIN_DESC.
Variable glfwSetWindowMonitor : Z → Z → Z → Z → E → E.
Variable P : Platform (World E).

Ltac dx_plumbing :=
  unfold bind, gets, ext_call, modify, emit, ret;
  cbn beta iota zeta delta [fst snd].

(** X20: BeginFrame of the D3D11 backend always returns true.  When
    the swap chain's description cannot be read, or its windowed flag equals
    the stored one, it does nothing.  When the flag has changed, it goes
    through the same resize protocol as the window-size routine: every pass
    is told BackBufferResizing, the back-buffer size of the device
    parameters becomes the size in the new description, the swap chain is
    resized, every pass is told BackBufferResized with that size, and the
    framebuffer set is rebuilt, one framebuffer per back buffer. *)
Theorem BeginFrame_follows_resize_protocol (s : DeviceManager (World E)) :
  let r := BeginFrame SwapChain_GetDesc glfwSetWindowMonitor P s in
  let unchanged := state r = s ∧ log r = [] in
  result r = true ∧
  match SwapChain_GetDesc (world (ext s)) with
  | None => unchanged
  | Some newSwapChainDesc =>
      if Windowed (m_SwapChainDesc (ext s)) =? Windowed newSwapChainDesc then unchanged
      else
        log r
        = map PassBackBufferResizing (m_vRenderPasses s)
          ++ [BackendResizeSwapChain]
          ++ map (λ it, PassBackBufferResized it (BufferDesc_Width newSwapChainDesc)
                          (BufferDesc_Height newSwapChainDesc)
                          (swapChainSampleCount (m_DeviceParams s)))
                 (m_vRenderPasses s)
          ++ map DeviceCreateFramebuffer (seqZ 0 (GetBackBufferCount P (ext (state r)))) ∧
        backBufferWidth (m_DeviceParams (state r)) = BufferDesc_Width newSwapChainDesc ∧
        backBufferHeight (m_DeviceParams (state r)) = BufferDesc_Height newSwapChainDesc ∧
        m_vRenderPasses (state r) = m_vRenderPasses s ∧
        framebuffers_match P (state r)
  end.
Proof.
  cbv zeta. unfold BeginFrame. dx_plumbing.
  destruct (SwapChain_GetDesc (world (ext s))) as [newSwapChainDesc|];
    [|dx_plumbing; by split_and!].
  dx_plumbing.
  destruct (Windowed (m_SwapChainDesc (ext s)) =? Windowed newSwapChainDesc);
    cbn [negb]; [dx_plumbing; by split_and!|].
  match goal with
  | |- context [BackBufferResizing P ?st] =>
      destruct (BackBufferResizing_run P st) as [e1 He1]; rewrite He1; clear He1
  end.
  dx_plumbing.
  destruct (negb (Windowed newSwapChainDesc =? 0)); dx_plumbing.
  all: match goal with
       | |- context [BackBufferResized P ?st] =>
           destruct (BackBufferResized_run P st) as [e2 He2];
           pose proof (BackBufferResized_rebuild_match P (set_ext e2 st)) as Hmatch;
           rewrite He2; clear He2
       end.
  all: rewrite BackBufferResized_rebuild_run in Hmatch |- *.
  all: unfold result, state, log in *; cbn [fst snd] in *.
  all: split; [reflexivity|]; split_and!; try reflexivity; try exact Hmatch.
  all: cbn [app]; by rewrite ?app_nil_r, <- ?app_assoc.
Qed.

End BeginFrame_Proofs.

End DX11_Proofs.

(** * The ImGui render pass *)

Section ImGui_Proofs.

Import ImGui.

Context {E : Type}.
Variables GLFW_PRESS GLFW_REPEAT : Z.
Variables GLFW_MOUSE_BUTTON_LEFT GLFW_MOUSE_BUTTON_RIGHT GLFW_MOUSE_BUTTON_MIDDLE : Z.
Variable prepare_frame : float → ImGuiIO → E → E.
Variable ImGui_NewFrame : ImGuiIO → E → (bool * bool) * E.
Variable buildUI : E → E.
Variable ImGui_Render : E → E.
Variable imgui_nvrhi_render : option IFramebuffer → E → E.

Implicit Types (r : ImGui_Renderer E) (tracked seen : list bool).

Ltac imgui_simpl :=
  cbn [imgui_nvrhi m_beginFrameCalled keyDown mouseDown io rest set_m_beginFrameCalled
       set_keyDown set_mouseDown set_io set_rest KeysDown MouseDown WantCaptureKeyboard
       WantCaptureMouse set_KeysDown set_MouseDown].

Tactic Notation "imgui_simpl" "in" hyp(H) :=
  cbn [imgui_nvrhi m_beginFrameCalled keyDown mouseDown io rest set_m_beginFrameCalled
       set_keyDown set_mouseDown set_io set_rest KeysDown MouseDown WantCaptureKeyboard
       WantCaptureMouse set_KeysDown set_MouseDown] in H.

Lemma array_store_in_range (a : list bool) (i : Z) (x : bool) :
  0 ≤ i < Z.of_nat (length a) → array_store a i x = Some (<[Z.to_nat i := x]> a).
Proof.
  intros Hi. unfold array_store.
  by rewrite (proj2 (Z.leb_le 0 i)), (proj2 (Z.ltb_lt i _)) by lia.
Qed.

Lemma array_store_out_of_range (a : list bool) (i : Z) (x : bool) :
  i < 0 ∨ Z.of_nat (length a) ≤ i → array_store a i x = None.
Proof.
  intros Hi. unfold array_store.
  destruct (0 <=? i) eqn:Hlow; [|done]. apply Z.leb_le in Hlow.
  by rewrite (proj2 (Z.ltb_ge i _)) by lia.
Qed.

Lemma reconcile_loop_run (indices : list nat) tracked :
  ∀ seen,
    NoDup indices →
    Forall (λ i, (i < length tracked)%nat ∧ (i < length seen)%nat) indices →
    ∃ seen',
      reconcile_loop indices tracked seen = Some seen' ∧
      length seen' = length seen ∧
      (∀ i held was, i ∈ indices → tracked !! i = Some held → seen !! i = Some was →
         seen' !! i = Some (was && held)) ∧
      (∀ i, i ∉ indices → seen' !! i = seen !! i).
Proof.
  induction indices as [|i indices IH]; intros seen Hnodup Hrange.
  - exists seen. split_and!; try done. intros i held was Hi. by apply elem_of_nil in Hi.
  - apply NoDup_cons in Hnodup as [Hfresh Hnodup].
    apply Forall_cons in Hrange as [[Hit His] Hrange].
    destruct (lookup_lt_is_Some_2 tracked i Hit) as [t Ht].
    destruct (lookup_lt_is_Some_2 seen i His) as [x Hx].
    cbn [reconcile_loop]. unfold array_at. rewrite Hx, Ht.
    set (seen1 := if x && negb t then <[i:=false]> seen else seen).
    assert (Hlen1 : length seen1 = length seen).
    { subst seen1. destruct (x && negb t); [by rewrite length_insert|done]. }
    assert (Hat : seen1 !! i = Some (x && t)).
    { subst seen1. destruct x, t; cbn [andb negb]; try done.
      by rewrite list_lookup_insert_eq. }
    assert (Hother : ∀ j, j ≠ i → seen1 !! j = seen !! j).
    { intros j Hj. subst seen1. destruct (x && negb t); [|done].
      by rewrite list_lookup_insert_ne. }
    destruct (IH seen1 Hnodup) as (seen' & -> & Hlen & Hin & Hout).
    { eapply Forall_impl; [exact Hrange|]. intros j [? ?]. split; [done|]. by rewrite Hlen1. }
    exists seen'. split; [done|]. split; [congruence|]. split.
    + intros j held was [->|Hj]%elem_of_cons Hheld Hwas.
      * rewrite Hout by done. rewrite Hat. congruence.
      * apply (Hin j held was Hj Hheld). rewrite Hother; [done|]. by intros ->.
    + intros j [Hji Hj]%not_elem_of_cons. rewrite Hout by done. by apply Hother.
Qed.

Lemma reconcile_run tracked seen :
  (length tracked ≤ length seen)%nat →
  ∃ seen',
    reconcile tracked seen = Some seen' ∧
    length seen' = length seen ∧
    (∀ i held was, tracked !! i = Some held → seen !! i = Some was →
       seen' !! i = Some (was && held)) ∧
    (∀ i, (length tracked ≤ i)%nat → seen' !! i = seen !! i).
Proof.
  intros Hlen. unfold reconcile.
  destruct (reconcile_loop_run (seq 0 (length tracked)) tracked seen)
    as (seen' & Hrun & Hlen' & Hin & Hout).
  - apply NoDup_seq.
  - apply Forall_forall. intros i [_ Hi]%elem_of_seq. lia.
  - exists seen'. split_and!; try done.
    + intros i held was Hheld Hwas. apply (Hin i held was); try done.
      apply elem_of_seq. split; [lia|]. apply lookup_lt_Some in Hheld. lia.
    + intros i Hi. apply Hout. intros [_ Hlt]%elem_of_seq. lia.
Qed.

Lemma ImGui_Render_run (framebuffer : option IFramebuffer) r :
  imgui_nvrhi r = true →
  (length (keyDown r) ≤ length (KeysDown (io r)))%nat →
  (length (mouseDown r) ≤ length (MouseDown (io r)))%nat →
  ∃ keys buttons,
    Render buildUI ImGui_Render imgui_nvrhi_render framebuffer r
    = Some ({| imgui_nvrhi := true; m_beginFrameCalled := false;
               keyDown := keyDown r; mouseDown := mouseDown r;
               io := {| KeysDown := keys; MouseDown := buttons;
                        WantCaptureKeyboard := WantCaptureKeyboard (io r);
                        WantCaptureMouse := WantCaptureMouse (io r) |};
               rest := imgui_nvrhi_render framebuffer (ImGui_Render (buildUI (rest r))) |},
            [buildUI_call; Render_call; nvrhi_render_call framebuffer]) ∧
    reconcile (keyDown r) (KeysDown (io r)) = Some keys ∧
    reconcile (mouseDown r) (MouseDown (io r)) = Some buttons.
Proof.
  intros Hinit Hkeys Hbuttons. unfold Render. rewrite Hinit. cbn [negb].
  destruct (reconcile_run (mouseDown r) (MouseDown (io r)) Hbuttons) as (buttons & Hb & _).
  destruct (reconcile_run (keyDown r) (KeysDown (io r)) Hkeys) as (keys & Hk & _).
  exists keys, buttons. imgui_simpl. rewrite Hb. imgui_simpl. rewrite Hk.
  unfold set_io, set_KeysDown, set_MouseDown, set_m_beginFrameCalled, set_rest.
  imgui_simpl. by rewrite Hinit.
Qed.

Lemma ImGui_Render_reconciled (framebuffer : option IFramebuffer) r :
  imgui_nvrhi r = true →
  (length (keyDown r) ≤ length (KeysDown (io r)))%nat →
  (length (mouseDown r) ≤ length (MouseDown (io r)))%nat →
  ∃ r',
    Render buildUI ImGui_Render imgui_nvrhi_render framebuffer r
    = Some (r', [buildUI_call; Render_call; nvrhi_render_call framebuffer]) ∧
    m_beginFrameCalled r' = false ∧
    keyDown r' = keyDown r ∧ mouseDown r' = mouseDown r ∧
    WantCaptureKeyboard (io r') = WantCaptureKeyboard (io r) ∧
    WantCaptureMouse (io r') = WantCaptureMouse (io r) ∧
    length (KeysDown (io r')) = length (KeysDown (io r)) ∧
    length (MouseDown (io r')) = length (MouseDown (io r)) ∧
    (∀ i held was, keyDown r !! i = Some held → KeysDown (io r) !! i = Some was →
       KeysDown (io r') !! i = Some (was && held)) ∧
    (∀ i held was, mouseDown r !! i = Some held → MouseDown (io r) !! i = Some was →
       MouseDown (io r') !! i = Some (was && held)) ∧
    (∀ i, (length (keyDown r) ≤ i)%nat → KeysDown (io r') !! i = KeysDown (io r) !! i) ∧
    (∀ i, (length (mouseDown r) ≤ i)%nat → MouseDown (io r') !! i = MouseDown (io r) !! i).
Proof.
  intros Hinit Hkeys Hbuttons.
  destruct (ImGui_Render_run framebuffer r Hinit Hkeys Hbuttons) as (keys & buttons & -> & Hk & Hb).
  destruct (reconcile_run (mouseDown r) (MouseDown (io r)) Hbuttons)
    as (buttons' & Hb' & Hblen & Hbin & Hbout).
  destruct (reconcile_run (keyDown r) (KeysDown (io r)) Hkeys)
    as (keys' & Hk' & Hklen & Hkin & Hkout).
  assert (keys' = keys) as -> by congruence.
  assert (buttons' = buttons) as -> by congruence.
  eexists. split; [reflexivity|]. imgui_simpl. by split_and!.
Qed.


(** X21: Render of an initialised ImGui pass, with the tracked arrays no
    longer than ImGui's, calls buildUI, ImGui::Render and the backend's
    render, in that order, closes the frame, and then brings ImGui's view of
    keys and mouse buttons in line with the tracked state: an entry ImGui
    holds as down stays down only if the tracked entry is down.  What lies
    past the tracked arrays, the tracked arrays themselves and the capture
    flags are not touched. *)
Theorem Render_reconciles_released_inputs (framebuffer : option IFramebuffer) r :
  imgui_nvrhi r = true →
  (length (keyDown r) ≤ length (KeysDown (io r)))%nat →
  (length (mouseDown r) ≤ length (MouseDown (io r)))%nat →
  ∃ r',
    Render buildUI ImGui_Render imgui_nvrhi_render framebuffer r
    = Some (r', [buildUI_call; Render_call; nvrhi_render_call framebuffer]) ∧
    m_beginFrameCalled r' = false ∧
    keyDown r' = keyDown r ∧ mouseDown r' = mouseDown r ∧
    WantCaptureKeyboard (io r') = WantCaptureKeyboard (io r) ∧
    WantCaptureMouse (io r') = WantCaptureMouse (io r) ∧
    length (KeysDown (io r')) = length (KeysDown (io r)) ∧
    length (MouseDown (io r')) = length (MouseDown (io r)) ∧
    (∀ i held was, keyDown r !! i = Some held → KeysDown (io r) !! i = Some was →
       KeysDown (io r') !! i = Some (was && held)) ∧
    (∀ i held was, mouseDown r !! i = Some held → MouseDown (io r) !! i = Some was →
       MouseDown (io r') !! i = Some (was && held)) ∧
    (∀ i, (length (keyDown r) ≤ i)%nat → KeysDown (io r') !! i = KeysDown (io r) !! i) ∧
    (∀ i, (length (mouseDown r) ≤ i)%nat → MouseDown (io r') !! i = MouseDown (io r) !! i).
Proof. exact (ImGui_Render_reconciled framebuffer r). Qed.

Lemma KeyboardUpdate_down (key scancode action mods : Z) r :
  action = GLFW_PRESS ∨ action = GLFW_REPEAT →
  0 ≤ key < Z.of_nat (length (keyDown r)) →
  0 ≤ key < Z.of_nat (length (KeysDown (io r))) →
  KeyboardUpdate GLFW_PRESS GLFW_REPEAT key scancode action mods r
  = Some (WantCaptureKeyboard (io r),
          set_io (set_KeysDown (<[Z.to_nat key := true]> (KeysDown (io r))) (io r))
            (set_keyDown (<[Z.to_nat key := true]> (keyDown r)) r)).
Proof.
  intros Haction Hkey Hkey'. unfold KeyboardUpdate.
  assert ((action =? GLFW_PRESS) || (action =? GLFW_REPEAT) = true) as ->.
  { destruct Haction as [-> | ->]; rewrite Z.eqb_refl; [done|by rewrite orb_true_r]. }
  rewrite (array_store_in_range (keyDown r) key true Hkey). imgui_simpl.
  by rewrite (array_store_in_range (KeysDown (io r)) key true Hkey').
Qed.

Lemma KeyboardUpdate_up (key scancode action mods : Z) r :
  action ≠ GLFW_PRESS → action ≠ GLFW_REPEAT →
  0 ≤ key < Z.of_nat (length (keyDown r)) →
  KeyboardUpdate GLFW_PRESS GLFW_REPEAT key scancode action mods r
  = Some (WantCaptureKeyboard (io r), set_keyDown (<[Z.to_nat key := false]> (keyDown r)) r).
Proof.
  intros Hpress Hrepeat Hkey. unfold KeyboardUpdate.
  rewrite (proj2 (Z.eqb_neq action GLFW_PRESS) Hpress).
  rewrite (proj2 (Z.eqb_neq action GLFW_REPEAT) Hrepeat). cbn [orb].
  by rewrite (array_store_in_range (keyDown r) key false Hkey).
Qed.

(** X22: a key pressed and released between two frames is not lost.
    The press marks the key as down for ImGui at once; the release only
    updates the tracked state, so ImGui still sees the key down; the next
    Render then clears it. *)
Theorem KeyboardUpdate_keeps_short_press (key scancode mods release : Z)
    (framebuffer : option IFramebuffer) r :
  imgui_nvrhi r = true →
  0 ≤ key < Z.of_nat (length (keyDown r)) →
  (length (keyDown r) ≤ length (KeysDown (io r)))%nat →
  (length (mouseDown r) ≤ length (MouseDown (io r)))%nat →
  release ≠ GLFW_PRESS → release ≠ GLFW_REPEAT →
  ∃ r1 r2 r3 l,
    KeyboardUpdate GLFW_PRESS GLFW_REPEAT key scancode GLFW_PRESS mods r
    = Some (WantCaptureKeyboard (io r), r1) ∧
    KeysDown (io r1) !! Z.to_nat key = Some true ∧
    keyDown r1 !! Z.to_nat key = Some true ∧
    KeyboardUpdate GLFW_PRESS GLFW_REPEAT key scancode release mods r1
    = Some (WantCaptureKeyboard (io r), r2) ∧
    KeysDown (io r2) !! Z.to_nat key = Some true ∧
    keyDown r2 !! Z.to_nat key = Some false ∧
    Render buildUI ImGui_Render imgui_nvrhi_render framebuffer r2 = Some (r3, l) ∧
    KeysDown (io r3) !! Z.to_nat key = Some false ∧
    keyDown r3 !! Z.to_nat key = Some false.
Proof.
  intros Hinit Hkey Hkeys Hbuttons Hrelease Hrepeat.
  assert (Hkey' : 0 ≤ key < Z.of_nat (length (KeysDown (io r)))) by lia.
  assert (Hnat : (Z.to_nat key < length (keyDown r))%nat) by lia.
  assert (Hnat' : (Z.to_nat key < length (KeysDown (io r)))%nat) by lia.
  set (r1 := set_io (set_KeysDown (<[Z.to_nat key := true]> (KeysDown (io r))) (io r))
               (set_keyDown (<[Z.to_nat key := true]> (keyDown r)) r)).
  set (r2 := set_keyDown (<[Z.to_nat key := false]> (keyDown r1)) r1).
  assert (Hseen2 : KeysDown (io r2) !! Z.to_nat key = Some true)
    by (subst r2 r1; imgui_simpl; by rewrite list_lookup_insert_eq).
  assert (Hheld2 : keyDown r2 !! Z.to_nat key = Some false).
  { subst r2 r1. imgui_simpl. rewrite list_lookup_insert_eq; [done|].
    by rewrite length_insert. }
  destruct (ImGui_Render_reconciled framebuffer r2)
    as (r3 & Hrender & _ & Hkd & _ & _ & _ & _ & _ & Hrec & _).
  { exact Hinit. }
  { subst r2 r1. imgui_simpl. by rewrite !length_insert. }
  { exact Hbuttons. }
  exists r1, r2, r3, [buildUI_call; Render_call; nvrhi_render_call framebuffer].
  split_and!.
  - apply KeyboardUpdate_down; [by left|done..].
  - subst r1. imgui_simpl. by rewrite list_lookup_insert_eq.
  - subst r1. imgui_simpl. by rewrite list_lookup_insert_eq.
  - apply (KeyboardUpdate_up key scancode release mods r1 Hrelease Hrepeat).
    subst r1. imgui_simpl. by rewrite length_insert.
  - exact Hseen2.
  - exact Hheld2.
  - exact Hrender.
  - exact (Hrec (Z.to_nat key) false true Hheld2 Hseen2).
  - by rewrite Hkd.
Qed.

Lemma buttonIndex_of_cases (button : Z) :
  match buttonIndex_of GLFW_MOUSE_BUTTON_LEFT GLFW_MOUSE_BUTTON_RIGHT
          GLFW_MOUSE_BUTTON_MIDDLE button with
  | Some index =>
      (index = 0 ∧ button = GLFW_MOUSE_BUTTON_LEFT) ∨
      (index = 1 ∧ button = GLFW_MOUSE_BUTTON_RIGHT) ∨
      (index = 2 ∧ button = GLFW_MOUSE_BUTTON_MIDDLE)
  | None =>
      button ≠ GLFW_MOUSE_BUTTON_LEFT ∧ button ≠ GLFW_MOUSE_BUTTON_RIGHT ∧
      button ≠ GLFW_MOUSE_BUTTON_MIDDLE
  end.
Proof.
  unfold buttonIndex_of.
  destruct (button =? GLFW_MOUSE_BUTTON_LEFT) eqn:Hl;
    [apply Z.eqb_eq in Hl; by left|apply Z.eqb_neq in Hl].
  destruct (button =? GLFW_MOUSE_BUTTON_RIGHT) eqn:Hr;
    [apply Z.eqb_eq in Hr; right; by left|apply Z.eqb_neq in Hr].
  destruct (button =? GLFW_MOUSE_BUTTON_MIDDLE) eqn:Hm;
    [apply Z.eqb_eq in Hm; right; by right|apply Z.eqb_neq in Hm].
  done.
Qed.

(** X23: MouseButtonUpdate knows three buttons: left, right and middle
    are tracked at indices 0, 1 and 2, given that the constants differ.  A
    press is recorded in the tracked state and shown to ImGui at once; a
    release is recorded in the tracked state only, so that ImGui keeps the
    button down until the next Render.  The answer is ImGui's wish to
    capture the mouse.  For any other button the index is never
    initialised, and the arrays are accessed with it all the same. *)
Theorem MouseButtonUpdate_tracks_three_buttons (button action mods : Z) r :
  NoDup [GLFW_MOUSE_BUTTON_LEFT; GLFW_MOUSE_BUTTON_RIGHT; GLFW_MOUSE_BUTTON_MIDDLE] →
  (3 ≤ length (mouseDown r))%nat → (3 ≤ length (MouseDown (io r)))%nat →
  let update := MouseButtonUpdate GLFW_PRESS GLFW_REPEAT GLFW_MOUSE_BUTTON_LEFT
                  GLFW_MOUSE_BUTTON_RIGHT GLFW_MOUSE_BUTTON_MIDDLE button action mods r in
  let down := (action =? GLFW_PRESS) || (action =? GLFW_REPEAT) in
  (∀ index : nat,
     [GLFW_MOUSE_BUTTON_LEFT; GLFW_MOUSE_BUTTON_RIGHT; GLFW_MOUSE_BUTTON_MIDDLE] !! index
     = Some button →
     ∃ r', update = Some (WantCaptureMouse (io r), r') ∧
       mouseDown r' = <[index := down]> (mouseDown r) ∧
       MouseDown (io r')
       = (if down then <[index := true]> (MouseDown (io r)) else MouseDown (io r)) ∧
       keyDown r' = keyDown r ∧ KeysDown (io r') = KeysDown (io r) ∧
       m_beginFrameCalled r' = m_beginFrameCalled r) ∧
  (button ∉ [GLFW_MOUSE_BUTTON_LEFT; GLFW_MOUSE_BUTTON_RIGHT; GLFW_MOUSE_BUTTON_MIDDLE] →
     update = None).
Proof.
  intros Hdistinct Htracked Hseen. cbv zeta.
  apply NoDup_cons in Hdistinct as [Hl Hdistinct].
  apply NoDup_cons in Hdistinct as [Hr _].
  apply not_elem_of_cons in Hl as [Hlr Hl]. apply not_elem_of_cons in Hl as [Hlm _].
  apply not_elem_of_cons in Hr as [Hrm _].
  pose proof (buttonIndex_of_cases button) as Hcases.
  unfold MouseButtonUpdate. split.
  - intros index Hbutton.
    assert (Hindex : buttonIndex_of GLFW_MOUSE_BUTTON_LEFT GLFW_MOUSE_BUTTON_RIGHT
                       GLFW_MOUSE_BUTTON_MIDDLE button = Some (Z.of_nat index)).
    { clear Hcases. unfold buttonIndex_of.
      destruct index as [|[|[|index]]]; cbn in Hbutton; [| | |done];
        injection Hbutton as <-.
      - by rewrite Z.eqb_refl.
      - rewrite (proj2 (Z.eqb_neq GLFW_MOUSE_BUTTON_RIGHT GLFW_MOUSE_BUTTON_LEFT))
          by congruence.
        by rewrite Z.eqb_refl.
      - rewrite (proj2 (Z.eqb_neq GLFW_MOUSE_BUTTON_MIDDLE GLFW_MOUSE_BUTTON_LEFT))
          by congruence.
        rewrite (proj2 (Z.eqb_neq GLFW_MOUSE_BUTTON_MIDDLE GLFW_MOUSE_BUTTON_RIGHT))
          by congruence.
        by rewrite Z.eqb_refl. }
    rewrite Hindex.
    assert (Hlt : (index < 3)%nat) by (apply lookup_lt_Some in Hbutton; cbn in Hbutton; lia).
    rewrite array_store_in_range by lia. imgui_simpl. rewrite Nat2Z.id.
    destruct ((action =? GLFW_PRESS) || (action =? GLFW_REPEAT)).
    + rewrite array_store_in_range by lia. rewrite Nat2Z.id.
      eexists. split; [reflexivity|]. imgui_simpl. by split_and!.
    + eexists. split; [reflexivity|]. imgui_simpl. by split_and!.
  - intros Hother. destruct (buttonIndex_of _ _ _ button) as [found|]; [|done].
    exfalso. apply Hother.
    destruct Hcases as [[_ ->]|[[_ ->]|[_ ->]]]; repeat constructor.
Qed.

(** X24: whatever the order in which the manager calls Animate and
    Render on the pass, a frame of ImGui is never begun twice in a row:
    between two calls of ImGui::NewFrame there is a call of ImGui::Render.
    The flag of the pass tells at any time whether a frame is open. *)
Theorem Animate_Render_frames_paired (calls : list FrameCall) r r' (l : list Call) :
  run_frame_calls prepare_frame ImGui_NewFrame buildUI ImGui_Render imgui_nvrhi_render
    calls r = Some (r', l) →
  frames_paired (m_beginFrameCalled r) l = true ∧
  imgui_nvrhi r' = imgui_nvrhi r ∧
  (imgui_nvrhi r = false → l = [] ∧ m_beginFrameCalled r' = m_beginFrameCalled r).
Proof.
  revert r r' l. induction calls as [|call calls IH]; intros r r' l Hrun.
  - cbn in Hrun. injection Hrun as Hstate Hlog; subst r' l. done.
  - destruct call as [elapsed|framebuffer]; cbn [run_frame_calls] in Hrun.
    + unfold Animate in Hrun.
      destruct (imgui_nvrhi r) eqn:Hinit; [destruct (m_beginFrameCalled r) eqn:Hopen|];
        cbn [negb orb] in Hrun.
      * destruct (run_frame_calls _ _ _ _ _ calls r) as [[r2 l2]|] eqn:Hrest; [|done].
        injection Hrun as Hstate Hlog; subst r' l. destruct (IH r r2 l2 Hrest) as (Hpaired & Hkept & _).
        rewrite Hopen in Hpaired. rewrite Hinit in Hkept. cbn [app]. by split_and!.
      * imgui_simpl in Hrun.
        destruct (ImGui_NewFrame (io r) _) as [[wantKeyboard wantMouse] e].
        destruct (run_frame_calls _ _ _ _ _ calls _) as [[r2 l2]|] eqn:Hrest; [|done].
        injection Hrun as Hstate Hlog; subst r' l. destruct (IH _ r2 l2 Hrest) as (Hpaired & Hkept & _).
        imgui_simpl in Hpaired. imgui_simpl in Hkept. rewrite Hinit in Hkept.
        cbn [app frames_paired negb andb]. by split_and!.
      * destruct (run_frame_calls _ _ _ _ _ calls r) as [[r2 l2]|] eqn:Hrest; [|done].
        injection Hrun as Hstate Hlog; subst r' l. destruct (IH r r2 l2 Hrest) as (Hpaired & Hkept & Hoff).
        rewrite Hinit in Hkept, Hoff. destruct (Hoff eq_refl) as [-> Hflag].
        cbn [app]. by split_and!.
    + unfold Render in Hrun.
      destruct (imgui_nvrhi r) eqn:Hinit; cbn [negb] in Hrun.
      * imgui_simpl in Hrun.
        destruct (reconcile (mouseDown r) (MouseDown (io r))) as [buttons|]; [|done].
        imgui_simpl in Hrun.
        destruct (reconcile (keyDown r) (KeysDown (io r))) as [keys|]; [|done].
        destruct (run_frame_calls _ _ _ _ _ calls _) as [[r2 l2]|] eqn:Hrest; [|done].
        injection Hrun as Hstate Hlog; subst r' l. destruct (IH _ r2 l2 Hrest) as (Hpaired & Hkept & _).
        imgui_simpl in Hpaired. imgui_simpl in Hkept. rewrite Hinit in Hkept.
        cbn [app frames_paired]. by split_and!.
      * destruct (run_frame_calls _ _ _ _ _ calls r) as [[r2 l2]|] eqn:Hrest; [|done].
        injection Hrun as Hstate Hlog; subst r' l. destruct (IH r r2 l2 Hrest) as (Hpaired & Hkept & Hoff).
        rewrite Hinit in Hkept, Hoff. destruct (Hoff eq_refl) as [-> Hflag].
        cbn [app]. by split_and!.
Qed.

End ImGui_Proofs.

(** ** The statements at concrete inputs *)

Lemma C10_GetFramebuffer_bounds_witness :
  0 ≤ 1 < 2 ^ 32 ∧
  result (GetFramebuffer 1 running_manager)
  = Some (createFramebuffer (addColorAttachment 1%N FramebufferDesc_default)) ∧
  result (GetFramebuffer 3 running_manager) = Some None.
Proof.
  assert (H1 : 0 ≤ 1 < 2 ^ 32) by lia.
  assert (H3 : 0 ≤ 3 < 2 ^ 32) by lia.
  split; [exact H1|].
  destruct (C10_GetFramebuffer_bounds (test_platform VULKAN) 1 running_manager H1)
    as (_ & _ & Hin & _).
  destruct (C10_GetFramebuffer_bounds (test_platform VULKAN) 3 running_manager H3)
    as (_ & _ & _ & Hout & _).
  split.
  - destruct Hin as (handle & Hlookup & ->); [vm_compute; reflexivity|].
    vm_compute in Hlookup. by injection Hlookup as <-.
  - apply Hout. vm_compute. discriminate.
Defined.

(** C5 as stated fails at the boundary: with the default interval of half
    a second, one call with an elapsed time of exactly half a second brings
    the accumulated time to the interval, yet the published average keeps
    its old value, which is not accumulated time over frame count, and the
    accumulators are not reset. *)
Lemma C5_interval_boundary_counterexample :
  let s := DeviceManager_new tt in
  let s' := state (UpdateAverageFrameTime float_half s) in
  let total := PrimFloat.add (m_FrameTimeSum s) float_half in
  float_ge total (m_AverageTimeUpdateInterval s) = true ∧
  m_AverageFrameTime s' = m_AverageFrameTime s ∧
  PrimFloat.eqb (m_AverageFrameTime s') (PrimFloat.div total (double_of_int 1)) = false ∧
  m_NumberOfAccumulatedFrames s' = 1 ∧
  PrimFloat.eqb (m_FrameTimeSum s') float_zero = false.
Proof. vm_compute. repeat split. Qed.

Lemma C5_average_published_above_interval_witness :
  let s := DeviceManager_new tt in
  0 ≤ m_NumberOfAccumulatedFrames s ∧
  m_NumberOfAccumulatedFrames s + Z.of_nat (length [float_quarter]) + 1 < 2 ^ 31 ∧
  stays_within (m_AverageTimeUpdateInterval s) (m_FrameTimeSum s) [float_quarter] = true ∧
  m_AverageFrameTime
    (state (UpdateAverageFrameTime float_half (state (feed_elapsed [float_quarter] s))))
  = PrimFloat.div (PrimFloat.add float_quarter float_half) (double_of_int 2).
Proof.
  intros s.
  assert (H1 : 0 ≤ m_NumberOfAccumulatedFrames s) by (vm_compute; discriminate).
  assert (H2 : m_NumberOfAccumulatedFrames s + Z.of_nat (length [float_quarter]) + 1 < 2 ^ 31)
    by (vm_compute; reflexivity).
  assert (H3 : stays_within (m_AverageTimeUpdateInterval s) (m_FrameTimeSum s)
                 [float_quarter] = true) by (vm_compute; reflexivity).
  split_and!; [exact H1|exact H2|exact H3|].
  destruct (C5_average_published_above_interval [float_quarter] float_half s H1 H2 H3)
    as (_ & Hgt & _).
  destruct Hgt as (-> & _); vm_compute; reflexivity.
Defined.

Lemma C1_resize_order_witness :
  let P := test_platform VULKAN in
  let s := surface_resized_manager in
  m_NativeWindow s = Some 1%N ∧
  ANativeWindow_getWidth P 1%N (ext s) ≠ 0 ∧
  ANativeWindow_getHeight P 1%N (ext s) ≠ 0 ∧
  resize_needed P s (ANativeWindow_getWidth P 1%N (ext s))
    (ANativeWindow_getHeight P 1%N (ext s)) = true ∧
  log (UpdateWindowSize P s)
  = [PassBackBufferResizing 1%N; PassBackBufferResizing 2%N; BackendResizeSwapChain;
     PassBackBufferResized 1%N 1920 1080 1; PassBackBufferResized 2%N 1920 1080 1;
     DeviceCreateFramebuffer 0; DeviceCreateFramebuffer 1; DeviceCreateFramebuffer 2].
Proof.
  intros P s.
  assert (Hw : m_NativeWindow s = Some 1%N) by (vm_compute; reflexivity).
  assert (Hwidth : ANativeWindow_getWidth P 1%N (ext s) ≠ 0) by (vm_compute; discriminate).
  assert (Hheight : ANativeWindow_getHeight P 1%N (ext s) ≠ 0) by (vm_compute; discriminate).
  assert (Hneed : resize_needed P s (ANativeWindow_getWidth P 1%N (ext s))
                    (ANativeWindow_getHeight P 1%N (ext s)) = true)
    by (vm_compute; reflexivity).
  split_and!; [exact Hw|exact Hwidth|exact Hheight|exact Hneed|].
  destruct (C1_resize_order P 1%N s Hw Hwidth Hheight Hneed) as (-> & _).
  vm_compute. reflexivity.
Defined.

(** C1 as stated fails: on a resize of the running manager the two passes
    receive BackBufferResized before the first framebuffer is created. *)
Lemma C1_rebuild_after_notification_counterexample :
  ¬ rebuild_before_resized
      (log (UpdateWindowSize (test_platform VULKAN) surface_resized_manager)).
Proof.
  intros Hclaim.
  assert (Hlog : log (UpdateWindowSize (test_platform VULKAN) surface_resized_manager)
          = [PassBackBufferResizing 1%N; PassBackBufferResizing 2%N; BackendResizeSwapChain;
             PassBackBufferResized 1%N 1920 1080 1; PassBackBufferResized 2%N 1920 1080 1;
             DeviceCreateFramebuffer 0; DeviceCreateFramebuffer 1; DeviceCreateFramebuffer 2])
    by (vm_compute; reflexivity).
  rewrite Hlog in Hclaim.
  specialize (Hclaim 3%nat 5%nat 1%N 1920 1080 1 0 eq_refl eq_refl). lia.
Qed.

Lemma C9_resize_trigger_witness :
  let P := test_platform VULKAN in
  let s := surface_resized_manager in
  m_NativeWindow s = Some 1%N ∧
  ANativeWindow_getWidth P 1%N (ext s) ≠ 0 ∧
  ANativeWindow_getHeight P 1%N (ext s) ≠ 0 ∧
  BackendResizeSwapChain ∈ log (UpdateWindowSize P s).
Proof.
  intros P s.
  assert (Hw : m_NativeWindow s = Some 1%N) by (vm_compute; reflexivity).
  assert (Hwidth : ANativeWindow_getWidth P 1%N (ext s) ≠ 0) by (vm_compute; discriminate).
  assert (Hheight : ANativeWindow_getHeight P 1%N (ext s) ≠ 0) by (vm_compute; discriminate).
  split_and!; [exact Hw|exact Hwidth|exact Hheight|].
  destruct (C9_resize_trigger P 1%N s Hw Hwidth Hheight) as (Hiff & _).
  apply Hiff. left. vm_compute. discriminate.
Defined.

(** C9 as stated fails: on a D3D11 backend a changed vsync request alone,
    with the surface size equal to the stored size, triggers no resize. *)
Lemma C9_vsync_on_d3d11_counterexample :
  let P := test_platform D3D11 in
  let s := vsync_requested_manager in
  m_NativeWindow s = Some 1%N ∧
  ANativeWindow_getWidth P 1%N (ext s) = 1280 ∧
  ANativeWindow_getHeight P 1%N (ext s) = 720 ∧
  backBufferWidth (m_DeviceParams s) = 1280 ∧
  backBufferHeight (m_DeviceParams s) = 720 ∧
  vsyncEnabled (m_DeviceParams s) = false ∧
  m_RequestedVSync s = true ∧
  log (UpdateWindowSize P s) = [] ∧
  BackendResizeSwapChain ∉ log (UpdateWindowSize P s).
Proof.
  assert (Hlog : log (UpdateWindowSize (test_platform D3D11) vsync_requested_manager) = [])
    by (vm_compute; reflexivity).
  cbv zeta. rewrite Hlog.
  split_and!; try (vm_compute; reflexivity).
  apply not_elem_of_nil.
Qed.

(** C3 as stated fails: pass [1] is the pass most recently added to the
    front and sits at the head of the list, both passes would consume the
    key, and the only handler called is that of pass [2]: pass [1] does not
    receive the event first, nor at all. *)
Lemma C3_front_pass_not_first_counterexample :
  let P := test_platform VULKAN in
  let key := KeyboardUpdateArgs 66 0 1 0 in
  let r := route_input P key front_stacked_manager in
  head (m_vRenderPasses front_stacked_manager) = Some 1%N ∧
  log r = [PassInput 2%N key true] ∧
  (∀ consumed, head (log r) ≠ Some (PassInput 1%N key consumed)).
Proof.
  assert (Hlog : log (route_input (test_platform VULKAN) (KeyboardUpdateArgs 66 0 1 0)
                        front_stacked_manager)
                 = [PassInput 2%N (KeyboardUpdateArgs 66 0 1 0) true])
    by (vm_compute; reflexivity).
  cbv zeta. rewrite Hlog. split_and!; [vm_compute; reflexivity|reflexivity|].
  intros consumed Hhead. cbn [head] in Hhead. by injection Hhead.
Qed.

Lemma C7_skip_render_frame_index_witness :
  let P := test_platform VULKAN in
  let r := AnimateRenderPresent P skewed_manager in
  0 ≤ m_FrameIndex skewed_manager < 2 ^ 32 ∧
  HookCall beforeAnimate 1 ∈ log r ∧
  (∀ i, HookCall beforeRender i ∈ log r → i = 0) ∧
  ∃ began, BackendBeginFrame began ∈ log r.
Proof.
  intros P r.
  assert (Hidx : 0 ≤ m_FrameIndex skewed_manager < 2 ^ 32) by (vm_compute; split; congruence).
  split; [exact Hidx|].
  destruct (C7_skip_render_frame_index P skewed_manager Hidx) as (Hhooks & _ & Hactive).
  destruct (Hactive eq_refl eq_refl) as (_ & Hanimate & Hrender).
  split_and!.
  - apply (Hanimate beforeAnimate); [apply elem_of_cons; by left|reflexivity].
  - intros i Hin. exact (Hhooks beforeRender i Hin).
  - destruct Hrender as (began & Hbegan & _); [right; vm_compute; reflexivity|].
    by exists began.
Defined.

Lemma C8_initial_resize_notifies_passes_witness :
  let P := test_platform VULKAN in
  let r := CreateWindowDeviceAndSwapChain P DeviceCreationParameters_default None
             registered_manager in
  result r = true ∧
  m_windowVisible (state r) = true ∧
  PassBackBufferResized 1%N 1280 720 1 ∈ log r ∧
  PassBackBufferResized 2%N 1280 720 1 ∈ log r ∧
  length (m_SwapChainFramebuffers (state r)) = 3%nat.
Proof.
  intros P r.
  assert (Hok : result r = true) by (vm_compute; reflexivity).
  assert (Hvis : m_windowVisible (state r) = true) by (vm_compute; reflexivity).
  split; [exact Hok|]. split; [exact Hvis|].
  destruct (C8_initial_resize_notifies_passes P DeviceCreationParameters_default None
              registered_manager Hok Hvis)
    as (_ & _ & _ & _ & w & _ & Hrest).
  cbv zeta in Hrest. destruct Hrest as (_ & _ & Hpasses & _).
  split_and!.
  - apply (Hpasses 1%N). apply elem_of_cons. by left.
  - apply (Hpasses 2%N). apply elem_of_cons. right. apply elem_of_cons. by left.
  - vm_compute. reflexivity.
Defined.

Lemma C6_present_failure_ends_loop_witness :
  let P := test_platform VULKAN in
  let s0 := state (RunMessageLoop_init P failing_manager) in
  let s := state (RunMessageLoop_body P s0) in
  let s1 := state (RunMessageLoop_poll P s) in
  loop_continues P 1 s0 s (log (RunMessageLoop_body P s0) ++ []) ∧
  app_destroyRequested P (ext s) = 0 ∧
  m_windowVisible s1 = true ∧
  BackendPresent false ∈ log (AnimateRenderPresent P s1) ∧
  result (AnimateRenderPresent P s1) = false ∧
  ∀ fuel, (1 < fuel)%nat → result (RunMessageLoop P fuel failing_manager) = true.
Proof.
  intros P s0 s s1.
  assert (Hloop : loop_continues P 1 s0 s (log (RunMessageLoop_body P s0) ++ [])).
  { apply loop_continues_S; [reflexivity|vm_compute; reflexivity|apply loop_continues_O]. }
  assert (Hgo : app_destroyRequested P (ext s) = 0) by reflexivity.
  assert (Hvis : m_windowVisible s1 = true) by (vm_compute; reflexivity).
  assert (Hin : BackendPresent false ∈ log (AnimateRenderPresent P s1)).
  { assert (Hlog : ∃ pre, log (AnimateRenderPresent P s1) = pre ++ [BackendPresent false])
      by (eexists [_; _; _; _; _; _; _]; vm_compute; reflexivity).
    destruct Hlog as [pre ->]. apply elem_of_app. right. apply elem_of_cons. by left. }
  destruct (C6_present_failure_ends_loop P 1 failing_manager s _ Hloop Hgo Hvis Hin)
    as (Hfail & _ & Hreturns).
  split_and!; [exact Hloop|exact Hgo|exact Hvis|exact Hin|exact Hfail|].
  intros fuel Hfuel. destruct (Hreturns fuel Hfuel) as (waitSuccess & Hres & _).
  exact Hres.
Defined.

Lemma AnimateRenderPresent_hidden_window_idles_witness :
  let P := test_platform VULKAN in
  let s := DeviceManager_new (test_world 1280 720) in
  m_windowVisible s = false ∧
  log (AnimateRenderPresent P s) = [ThreadSleep; DeviceRunGarbageCollection].
Proof.
  intros P s.
  assert (Hv : m_windowVisible s = false) by reflexivity.
  split; [exact Hv|].
  destruct (AnimateRenderPresent_hidden_window_idles P s Hv) as [_ Hlog]. exact Hlog.
Defined.

Lemma AnimateRenderPresent_out_of_focus_witness :
  let P := test_platform VULKAN in
  let s := unfocused_manager in
  m_windowVisible s = true ∧ m_windowIsInFocus s = false ∧
  log (AnimateRenderPresent P s)
  = [PassShouldRenderUnfocused 2%N false; PassShouldRenderUnfocused 1%N false;
     ThreadSleep; DeviceRunGarbageCollection].
Proof.
  intros P s.
  assert (Hv : m_windowVisible s = true) by (vm_compute; reflexivity).
  assert (Hf : m_windowIsInFocus s = false) by (vm_compute; reflexivity).
  split; [exact Hv|]. split; [exact Hf|].
  destruct (AnimateRenderPresent_out_of_focus P s Hv Hf) as [Hidle _].
  destruct Hidle as [_ ->]; [|vm_compute; reflexivity].
  intros p Hin.
  assert (Hlog : log (AnimateRenderPresent P s)
                 = [PassShouldRenderUnfocused 2%N false; PassShouldRenderUnfocused 1%N false;
                    ThreadSleep; DeviceRunGarbageCollection]) by (vm_compute; reflexivity).
  rewrite Hlog in Hin.
  repeat (apply elem_of_cons in Hin as [Hin|Hin]; [discriminate Hin|]).
  by apply not_elem_of_nil in Hin.
Defined.

Lemma AnimateRenderPresent_announces_scale_change_witness :
  let P := test_platform VULKAN in
  let s := running_manager in
  let r := AnimateRenderPresent P s in
  m_windowVisible s = true ∧ m_windowIsInFocus s = true ∧
  scale_changed s = true ∧
  (∃ rest, log r = [PassDisplayScaleChanged 1%N float_one float_one;
                    PassDisplayScaleChanged 2%N float_one float_one] ++ rest) ∧
  scale_changed (state r) = false.
Proof.
  intros P s r.
  assert (Hv : m_windowVisible s = true) by (vm_compute; reflexivity).
  assert (Hf : m_windowIsInFocus s = true) by (vm_compute; reflexivity).
  split; [exact Hv|]. split; [exact Hf|]. split; [vm_compute; reflexivity|].
  destruct (AnimateRenderPresent_announces_scale_change P s Hv Hf)
    as ((rest & Hlog & _) & _ & _ & _ & _ & Hsettled).
  split.
  - exists rest. fold r in Hlog. rewrite Hlog. f_equal.
  - apply Hsettled; vm_compute; reflexivity.
Defined.

Lemma RunMessageLoop_returns_on_destroy_request_witness :
  let P := closing_platform in
  let s := running_manager in
  app_destroyRequested P (ext (state (RunMessageLoop_init P s))) ≠ 0 ∧
  result (RunMessageLoop P 1 s) = true ∧
  m_FrameIndex (state (RunMessageLoop P 1 s)) = 0.
Proof.
  intros P s.
  assert (Hdestroy : app_destroyRequested P (ext (state (RunMessageLoop_init P s))) ≠ 0)
    by (vm_compute; discriminate).
  split; [exact Hdestroy|].
  destruct (RunMessageLoop_returns_on_destroy_request P 0 s Hdestroy)
    as (Hres & _ & _ & Hidx).
  split; [exact Hres|]. rewrite Hidx. vm_compute. reflexivity.
Defined.

Lemma UpdateWindowSize_settles_witness :
  let P := test_platform VULKAN in
  let s := surface_resized_manager in
  let s' := state (UpdateWindowSize P s) in
  m_NativeWindow s = Some 1%N ∧
  ANativeWindow_getWidth P 1%N (ext s) = 1920 ∧
  ANativeWindow_getHeight P 1%N (ext s) = 1080 ∧
  result (GetWindowDimensions s') = (1920, 1080) ∧
  log (UpdateWindowSize P s') = [].
Proof.
  intros P s s'.
  assert (Hw : m_NativeWindow s = Some 1%N) by (vm_compute; reflexivity).
  assert (Hwidth : ANativeWindow_getWidth P 1%N (ext s) = 1920) by (vm_compute; reflexivity).
  assert (Hheight : ANativeWindow_getHeight P 1%N (ext s) = 1080) by (vm_compute; reflexivity).
  split; [exact Hw|]. split; [exact Hwidth|]. split; [exact Hheight|].
  destruct (UpdateWindowSize_settles P 1%N s Hw) as (Hdims & _ & _ & _ & Hquiet).
  - rewrite Hwidth. discriminate.
  - rewrite Hheight. discriminate.
  - rewrite Hwidth. lia.
  - rewrite Hheight. lia.
  - fold s' in Hdims, Hquiet. rewrite Hwidth, Hheight in Hdims.
    split; [exact Hdims|]. apply Hquiet; vm_compute; reflexivity.
Defined.

Lemma MoveWindowOntoAdapter_centres_and_clamps_witness :
  let moved := (DX11.MoveWindowOntoAdapter [None; Some desktop_1080p] window_rect).2 in
  DX11.within (2 ^ 28) desktop_1080p ∧ DX11.within (2 ^ 28) window_rect ∧
  DX11.RECT_right moved - DX11.RECT_left moved = 1296 ∧
  DX11.RECT_bottom moved - DX11.RECT_top moved = 759 ∧
  0 ≤ DX11.RECT_left moved ∧ DX11.RECT_right moved ≤ 1920.
Proof.
  intros moved.
  assert (Hdesk : DX11.within (2 ^ 28) desktop_1080p) by (vm_compute; intuition discriminate).
  assert (Hrect : DX11.within (2 ^ 28) window_rect) by (vm_compute; intuition discriminate).
  split; [exact Hdesk|]. split; [exact Hrect|].
  destruct (MoveWindowOntoAdapter_centres_and_clamps [None] [] desktop_1080p window_rect)
    as (_ & _ & (Hleft & _ & Hright) & _ & Hfitw & Hfith & _); try assumption.
  - by repeat constructor.
  - vm_compute. discriminate.
  - vm_compute. discriminate.
  - vm_compute. discriminate.
  - vm_compute. discriminate.
  - destruct Hfitw as [Hw _]; [vm_compute; discriminate|].
    destruct Hfith as [Hh _]; [vm_compute; discriminate|].
    split_and!; [exact Hw|exact Hh|exact Hleft|exact Hright].
Defined.

Lemma EnumerateAdapters_collects_in_order_witness :
  let GetAdapterName := DX11.Description in
  (length [1%N; 2%N; 3%N] < 4)%nat ∧
  DX11.EnumerateAdapters GetAdapterName test_GetDesc 4 (Some [1%N; 2%N; 3%N]) []
  = Some (false, DX11.described_prefix GetAdapterName test_GetDesc [1%N; 2%N]) ∧
  DX11.EnumerateAdapters GetAdapterName test_GetDesc 3 (Some [1%N; 2%N]) []
  = Some (true, DX11.described_prefix GetAdapterName test_GetDesc [1%N; 2%N]).
Proof.
  intros GetAdapterName.
  assert (H3 : (length [1%N; 2%N; 3%N] < 4)%nat) by (cbn; lia).
  assert (H2 : (length [1%N; 2%N] < 3)%nat) by (cbn; lia).
  split; [exact H3|].
  destruct (EnumerateAdapters_collects_in_order GetAdapterName test_GetDesc 4
              [1%N; 2%N; 3%N] [] H3) as (_ & -> & _).
  destruct (EnumerateAdapters_collects_in_order GetAdapterName test_GetDesc 3
              [1%N; 2%N] [] H2) as (_ & -> & _).
  split; vm_compute; reflexivity.
Defined.

Lemma Render_reconciles_released_inputs_witness :
  let r := ImGui.set_io (ImGui.set_KeysDown [false; true; true; false; true; false; false; false]
                           (ImGui.io test_renderer))
             (ImGui.set_keyDown [false; true; false; false] test_renderer) in
  ImGui.imgui_nvrhi r = true ∧
  ∃ r', ImGui.Render (λ e, e) (λ e, e) (λ _ e, e) None r
        = Some (r', [ImGui.buildUI_call; ImGui.Render_call; ImGui.nvrhi_render_call None]) ∧
        ImGui.KeysDown (ImGui.io r') !! 1%nat = Some true ∧
        ImGui.KeysDown (ImGui.io r') !! 2%nat = Some false ∧
        ImGui.KeysDown (ImGui.io r') !! 4%nat = Some true.
Proof.
  intros r.
  assert (Hinit : ImGui.imgui_nvrhi r = true) by reflexivity.
  split; [exact Hinit|].
  destruct (Render_reconciles_released_inputs (λ e, e) (λ e, e) (λ _ e, e) None r Hinit)
    as (r' & Hrun & _ & _ & _ & _ & _ & _ & _ & Hkeys & _ & Hpast & _).
  - vm_compute. lia.
  - vm_compute. lia.
  - exists r'. split; [exact Hrun|]. split_and!.
    + exact (Hkeys 1%nat true true eq_refl eq_refl).
    + exact (Hkeys 2%nat false true eq_refl eq_refl).
    + rewrite (Hpast 4%nat); [reflexivity|vm_compute; lia].
Defined.

Lemma KeyboardUpdate_keeps_short_press_witness :
  ImGui.imgui_nvrhi test_renderer = true ∧
  0 ≤ 2 < Z.of_nat (length (ImGui.keyDown test_renderer)) ∧
  GLFW_RELEASE ≠ GLFW_PRESS ∧ GLFW_RELEASE ≠ GLFW_REPEAT ∧
  ∃ r1 r2,
    ImGui.KeyboardUpdate GLFW_PRESS GLFW_REPEAT 2 0 GLFW_PRESS 0 test_renderer
    = Some (false, r1) ∧
    ImGui.KeyboardUpdate GLFW_PRESS GLFW_REPEAT 2 0 GLFW_RELEASE 0 r1 = Some (false, r2) ∧
    ImGui.KeysDown (ImGui.io r2) !! 2%nat = Some true.
Proof.
  assert (Hinit : ImGui.imgui_nvrhi test_renderer = true) by reflexivity.
  assert (Hkey : 0 ≤ 2 < Z.of_nat (length (ImGui.keyDown test_renderer)))
    by (vm_compute; split; [discriminate|reflexivity]).
  assert (Hrelease : GLFW_RELEASE ≠ GLFW_PRESS) by discriminate.
  assert (Hrepeat : GLFW_RELEASE ≠ GLFW_REPEAT) by discriminate.
  split; [exact Hinit|]. split; [exact Hkey|]. split; [exact Hrelease|].
  split; [exact Hrepeat|].
  destruct (KeyboardUpdate_keeps_short_press GLFW_PRESS GLFW_REPEAT (λ e, e) (λ e, e)
              (λ _ e, e) 2 0 0 GLFW_RELEASE None test_renderer Hinit Hkey)
    as (r1 & r2 & r3 & l & Hpress & _ & _ & Hup & Hseen & _); try assumption.
  - vm_compute. lia.
  - vm_compute. lia.
  - exists r1, r2. split_and!; [exact Hpress|exact Hup|exact Hseen].
Defined.

Lemma MouseButtonUpdate_tracks_three_buttons_witness :
  let update := ImGui.MouseButtonUpdate GLFW_PRESS GLFW_REPEAT GLFW_MOUSE_BUTTON_LEFT
                  GLFW_MOUSE_BUTTON_RIGHT GLFW_MOUSE_BUTTON_MIDDLE in
  NoDup [GLFW_MOUSE_BUTTON_LEFT; GLFW_MOUSE_BUTTON_RIGHT; GLFW_MOUSE_BUTTON_MIDDLE] ∧
  (∃ r', update GLFW_MOUSE_BUTTON_RIGHT GLFW_PRESS 0 test_renderer = Some (true, r') ∧
         ImGui.mouseDown r' = [false; true; false]) ∧
  update 3 GLFW_PRESS 0 test_renderer = None.
Proof.
  intros update.
  assert (Hdistinct : NoDup [GLFW_MOUSE_BUTTON_LEFT; GLFW_MOUSE_BUTTON_RIGHT;
                             GLFW_MOUSE_BUTTON_MIDDLE])
    by (apply (bool_decide_unpack _); vm_compute; exact I).
  assert (Htracked : (3 ≤ length (ImGui.mouseDown test_renderer))%nat) by (vm_compute; lia).
  assert (Hseen : (3 ≤ length (ImGui.MouseDown (ImGui.io test_renderer)))%nat)
    by (vm_compute; lia).
  split; [exact Hdistinct|].
  destruct (MouseButtonUpdate_tracks_three_buttons GLFW_PRESS GLFW_REPEAT
              GLFW_MOUSE_BUTTON_LEFT GLFW_MOUSE_BUTTON_RIGHT GLFW_MOUSE_BUTTON_MIDDLE
              GLFW_MOUSE_BUTTON_RIGHT GLFW_PRESS 0 test_renderer Hdistinct Htracked Hseen)
    as [Hknown _].
  destruct (MouseButtonUpdate_tracks_three_buttons GLFW_PRESS GLFW_REPEAT
              GLFW_MOUSE_BUTTON_LEFT GLFW_MOUSE_BUTTON_RIGHT GLFW_MOUSE_BUTTON_MIDDLE
              3 GLFW_PRESS 0 test_renderer Hdistinct Htracked Hseen)
    as [_ Hunknown].
  split.
  - destruct (Hknown 1%nat eq_refl) as (r' & Hrun & Hdown & _).
    exists r'. split; [exact Hrun|]. rewrite Hdown. reflexivity.
  - apply Hunknown. intros Hin.
    repeat (apply elem_of_cons in Hin as [Hin|Hin]; [discriminate Hin|]).
    by apply not_elem_of_nil in Hin.
Defined.

Lemma Animate_Render_frames_paired_witness :
  let calls := [ImGui.CallAnimate float_zero; ImGui.CallAnimate float_one;
                ImGui.CallRender None; ImGui.CallRender None] in
  ∃ r',
    ImGui.run_frame_calls (λ _ _ e, e) (λ _ e, ((false, false), e)) (λ e, e) (λ e, e)
      (λ _ e, e) calls test_renderer
    = Some (r', [ImGui.NewFrame_call; ImGui.buildUI_call; ImGui.Render_call;
                 ImGui.nvrhi_render_call None; ImGui.buildUI_call;
                 ImGui.Render_call; ImGui.nvrhi_render_call None]) ∧
    ImGui.frames_paired (ImGui.m_beginFrameCalled test_renderer)
      [ImGui.NewFrame_call; ImGui.buildUI_call; ImGui.Render_call;
       ImGui.nvrhi_render_call None; ImGui.buildUI_call;
       ImGui.Render_call; ImGui.nvrhi_render_call None] = true.
Proof.
  intros calls. eexists.
  assert (Hrun : ImGui.run_frame_calls (λ _ _ e, e) (λ _ e, ((false, false), e)) (λ e, e)
                   (λ e, e) (λ _ e, e) calls test_renderer
                 = Some (ImGui.set_io
                           {| ImGui.KeysDown := replicate 8 false;
                              ImGui.MouseDown := replicate 5 false;
                              ImGui.WantCaptureKeyboard := false;
                              ImGui.WantCaptureMouse := false |} test_renderer,
                         [ImGui.NewFrame_call; ImGui.buildUI_call; ImGui.Render_call;
                          ImGui.nvrhi_render_call None; ImGui.buildUI_call;
                          ImGui.Render_call; ImGui.nvrhi_render_call None]))
    by (vm_compute; reflexivity).
  split; [exact Hrun|].
  destruct (Animate_Render_frames_paired _ _ _ _ _ calls test_renderer _ _ Hrun) as [Hpaired _].
  exact Hpaired.
Defined.
